(** * Sentiment-Analysis-DL: the classification wrapper and the CNN data loader

    A shallow embedding of [BERT/base_model.py] (class [ClassificationModel])
    and of [load_data_and_label] from [CNN/CNN+glove+Senntiment.py].

    Python values are modelled by the types the code manipulates: token lists
    are [list string], label and token ids are [nat] and [Z], raw scores are
    rationals (every finite float is one; NaN is not modelled), dictionaries
    are insertion-ordered association lists.  Exceptions are explicit: a
    computation returns [Ok v] or [Raise e], and a method that assigns
    attributes of [self] returns the updated object next to its result, so an
    assignment made before an exception is kept, as in Python. *)

From Stdlib Require Import String Ascii ZArith Bool Arith Lia QArith.
From Stdlib Require Import Permutation Sorted List.
From Stdlib Require Import Floats.PrimFloat Floats.FloatOps Floats.SpecFloat.
From Stdlib Require Import Numbers.Cyclic.Int63.Uint63.
Import ListNotations.
Close Scope Q_scope.
Open Scope nat_scope.

Set Implicit Arguments.

(* ================================================================== *)
(** * Python runtime *)
(* ================================================================== *)

Module Python.

Inductive py_error : Type :=
| ZeroDivisionError | KeyError | IndexError | ValueError | TypeError
| AssertionError | AttributeError | NotImplementedError | NotFittedError
| StopIteration.

Inductive result (A : Type) : Type :=
| Ok (a : A)
| Raise (e : py_error).
Arguments Ok {A} a.
Arguments Raise {A} e.

Definition bind {A B} (r : result A) (k : A -> result B) : result B :=
  match r with
  | Ok a => k a
  | Raise e => Raise e
  end.

(** A list comprehension whose body may raise: the first exception wins. *)
Fixpoint mapM {A B} (f : A -> result B) (l : list A) : result (list B) :=
  match l with
  | [] => Ok []
  | a :: l' =>
      bind (f a) (fun b => bind (mapM f l') (fun bs => Ok (b :: bs)))
  end.

(** [a // b] on integers: floor division, [ZeroDivisionError] on [b = 0].
    [Z.div] rounds to the floor for either sign of the divisor. *)
Definition py_floordiv (a b : Z) : result Z :=
  if (b =? 0)%Z then Raise ZeroDivisionError else Ok (a / b)%Z.

(** [list(range(n))]: empty when [n <= 0]. *)
Definition py_range (n : Z) : list Z :=
  map Z.of_nat (seq 0 (Z.to_nat n)).

(** A slice bound: a negative index counts from the end, then every bound
    is clamped to [0 .. len]. *)
Definition py_clamp (len i : Z) : Z :=
  if (i <? 0)%Z then Z.max 0 (i + len) else Z.min i len.

(** [l[start:stop]]; never raises. *)
Definition py_slice {A} (l : list A) (start stop : Z) : list A :=
  let len := Z.of_nat (length l) in
  let lo := py_clamp len start in
  let hi := py_clamp len stop in
  firstn (Z.to_nat (hi - lo)) (skipn (Z.to_nat lo) l).

(** [l[i]] for a non-negative index. *)
Definition py_getitem {A} (l : list A) (i : nat) : result A :=
  match nth_error l i with
  | Some a => Ok a
  | None => Raise IndexError
  end.

(** [list(enumerate(l))]. *)
Definition enumerate {A} (l : list A) : list (nat * A) :=
  combine (seq 0 (length l)) l.

(** Keys of a dictionary: a type with a boolean equality. *)
Class Key (K : Type) : Type := {
  keyb : K -> K -> bool;
  keyb_eq : forall a b, keyb a b = true <-> a = b
}.

#[export] Instance Key_string : Key string :=
  {| keyb := String.eqb; keyb_eq := String.eqb_eq |}.

#[export] Instance Key_nat : Key nat :=
  {| keyb := Nat.eqb; keyb_eq := Nat.eqb_eq |}.

(** A [dict]: the items in insertion order, no key twice. *)
Definition dict (K V : Type) : Type := list (K * V).

Fixpoint dict_get {K V} `{Key K} (d : dict K V) (k : K) : option V :=
  match d with
  | [] => None
  | (k', v) :: d' => if keyb k' k then Some v else dict_get d' k
  end.

(** [d[k]]. *)
Definition dict_getitem {K V} `{Key K} (d : dict K V) (k : K) : result V :=
  match dict_get d k with
  | Some v => Ok v
  | None => Raise KeyError
  end.

(** [d[k] = v]: a present key keeps its position, a new one goes last. *)
Fixpoint dict_set {K V} `{Key K} (d : dict K V) (k : K) (v : V) : dict K V :=
  match d with
  | [] => [(k, v)]
  | (k', v') :: d' =>
      if keyb k' k then (k', v) :: d' else (k', v') :: dict_set d' k v
  end.

(** [dict(pairs)]. *)
Definition dict_of_pairs {K V} `{Key K} (ps : list (K * V)) : dict K V :=
  fold_left (fun d p => dict_set d (fst p) (snd p)) ps [].

Definition dict_keys {K V} (d : dict K V) : list K := map fst d.
Definition dict_items {K V} (d : dict K V) : list (K * V) := d.

(** [sorted(l, key=key)] with rational keys.  Python's sort is stable, so
    its result is the one of a stable insertion sort. *)
Fixpoint insert_by {A} (key : A -> Q) (a : A) (l : list A) : list A :=
  match l with
  | [] => [a]
  | b :: l' =>
      if Qle_bool (key a) (key b) then a :: b :: l'
      else b :: insert_by key a l'
  end.

Definition sorted_by {A} (key : A -> Q) (l : list A) : list A :=
  fold_right (insert_by key) [] l.

(** [sorted(l)] on a list of lengths. *)
Fixpoint insert_nat (a : nat) (l : list nat) : list nat :=
  match l with
  | [] => [a]
  | b :: l' => if a <=? b then a :: b :: l' else b :: insert_nat a l'
  end.

Definition sorted (l : list nat) : list nat := fold_right insert_nat [] l.

(** [list(s)] for a string [s]: its characters, each a one-character
    string. *)
Definition list_of_str (s : string) : list string :=
  map (fun c => String c EmptyString) (list_ascii_of_string s).

(** The order in which a [set] of strings is iterated.  The language
    leaves it unspecified (for strings it follows the per-process hash
    seed); all that is fixed is that every member comes up exactly once.
    [set_iter l] is the iteration order of the set built from the
    elements of [l]. *)
Class PySet : Type := {
  set_iter : list string -> list string;
  set_iter_NoDup : forall l, NoDup (set_iter l);
  set_iter_In : forall l s, In s (set_iter l) <-> In s l
}.

(** [random.shuffle]: the [n]-th call permutes its argument. *)
Class PyRandom : Type := {
  shuffle : nat -> list Z -> list Z;
  shuffle_perm : forall n l, Permutation l (shuffle n l)
}.

End Python.
Export Python.

Declare Scope py_scope.
Delimit Scope py_scope with py.
Notation "x <- r ;; k" := (bind r (fun x => k))
  (at level 61, r at next level, right associativity) : py_scope.
Open Scope py_scope.

(* ================================================================== *)
(** * Library functions the wrapper calls *)
(* ================================================================== *)

Module Keras.

(** One row of [sequence.pad_sequences(seqs, maxlen=maxlen, padding='post')].
    [truncating] keeps its default ['pre']: a long sequence loses its first
    tokens ([s[-maxlen:]]), a short one is filled with zeros at the end.  An
    empty sequence is skipped and its row keeps the fill value.  With
    [maxlen = 0] the slice [s[-0:]] is the whole sequence, and storing it in a
    row of width zero is a broadcast error unless it has one element. *)
Definition pad_row (maxlen : nat) (s : list Z) : result (list Z) :=
  match s with
  | [] => Ok (repeat 0%Z maxlen)
  | _ :: _ =>
      let trunc := py_slice s (- Z.of_nat maxlen) (Z.of_nat (length s)) in
      if length trunc <=? maxlen
      then Ok (trunc ++ repeat 0%Z (maxlen - length trunc))
      else if length trunc =? 1
           then Ok (repeat (hd 0%Z trunc) maxlen)
           else Raise ValueError
  end.

Definition pad_sequences (seqs : list (list Z)) (maxlen : nat)
  : result (list (list Z)) :=
  mapM (pad_row maxlen) seqs.

(** The row of width [n] with a one in column [i]. *)
Definition one_hot (n i : nat) : list Z :=
  map (fun j => if j =? i then 1%Z else 0%Z) (seq 0 n).

(** [to_categorical(y, num_classes=num_classes)] on a list of class ids.  A
    falsy [num_classes] is replaced by [max(y) + 1], which raises on an empty
    [y]; an id outside the columns is an index error. *)
Definition to_categorical (y : list nat) (num_classes : nat)
  : result (list (list Z)) :=
  nc <- (if num_classes =? 0
         then match y with
              | [] => Raise ValueError
              | _ :: _ => Ok (list_max y + 1)
              end
         else Ok num_classes) ;;
  mapM (fun i => if i <? nc then Ok (one_hot nc i) else Raise IndexError) y.

(** [np.zeros(shape=(rows, cols))]. *)
Definition zeros (rows cols : nat) : list (list Z) :=
  repeat (repeat 0%Z cols) rows.

End Keras.
Export Keras.

Module Sklearn.

(** A raw target: a label string, or a sequence (list or tuple) of label
    strings for a multi-label example. *)
Inductive target : Type :=
| TStr (s : string)
| TSeq (ls : list string).

(** Iterating over a target: a string yields its characters. *)
Definition labels_of_target (t : target) : list string :=
  match t with
  | TStr s => list_of_str s
  | TSeq ls => ls
  end.

(** [MultiLabelBinarizer(classes=...)]; [classes_] exists once it is
    fitted, and is then the [classes] it was built with. *)
Record MultiLabelBinarizer : Type := {
  classes : list string;
  fitted : bool
}.

Definition mlb_fit (b : MultiLabelBinarizer) : MultiLabelBinarizer :=
  {| classes := classes b; fitted := true |}.

(** [dict(zip(classes_, range(len(classes_))))]. *)
Definition class_to_index (b : MultiLabelBinarizer) : dict string nat :=
  dict_of_pairs (combine (classes b) (seq 0 (length (classes b)))).

(** One row of [transform]: the columns of the example's labels are set.  A
    label outside [classes_] is a [KeyError] (scikit-learn 0.20, the release
    the wrapper was written against). *)
Definition mlb_row (b : MultiLabelBinarizer) (t : target) : result (list Z) :=
  idxs <- mapM (dict_getitem (class_to_index b)) (labels_of_target t) ;;
  Ok (map (fun j => if existsb (Nat.eqb j) idxs then 1%Z else 0%Z)
          (seq 0 (length (classes b)))).

(** [fit_transform(y)] when [classes] was given: [fit(y).transform(y)]. *)
Definition mlb_fit_transform (b : MultiLabelBinarizer) (y : list target)
  : result (list (list Z)) * MultiLabelBinarizer :=
  (mapM (mlb_row (mlb_fit b)) y, mlb_fit b).

Definition is_zero_or_one (q : Q) : bool :=
  Qeq_bool q 0%Q || Qeq_bool q 1%Q.

(** [compress]: the classes whose indicator is non-zero. *)
Fixpoint compress (cls : list string) (indicators : list Q) : list string :=
  match cls, indicators with
  | c :: cls', q :: indicators' =>
      if Qeq_bool q 0%Q then compress cls' indicators'
      else c :: compress cls' indicators'
  | _, _ => []
  end.

(** [inverse_transform(yt)]: needs a fitted binarizer, rows as wide as
    [classes_] and no entry other than 0 and 1; each row becomes the tuple of
    its classes. *)
Definition mlb_inverse_transform (b : MultiLabelBinarizer) (yt : list (list Q))
  : result (list (list string)) :=
  if negb (fitted b) then Raise NotFittedError
  else if negb (forallb (fun row => length row =? length (classes b)) yt)
  then Raise ValueError
  else if negb (forallb (forallb is_zero_or_one) yt)
  then Raise ValueError
  else Ok (map (compress (classes b)) yt).

End Sklearn.
Export Sklearn.

(* ================================================================== *)
(** * BERT/base_model.py: [ClassificationModel] *)
(* ================================================================== *)

Module BaseModel.

(** The embedding adapter the wrapper is given ([BaseEmbedding]): how it
    builds its token dictionary and how it turns a sentence into ids are its
    own business. *)
Class BaseEmbedding : Type := {
  token_dict : Type;
  build_token2idx_dict : token_dict -> list (list string) -> nat -> token_dict;
  tokenize_sentence : token_dict -> list string -> list Z
}.

(** What the network receives: the padded ids, with an all-zero segment
    array next to them for a BERT embedding. *)
Inductive token_input : Type :=
| Plain (tokens : list (list Z))
| WithSegments (tokens segments : list (list Z)).

Definition token_rows (x : token_input) : list (list Z) :=
  match x with
  | Plain t => t
  | WithSegments t _ => t
  end.

(** The framework under the wrapper: the compiled network with its
    [predict], which scores every input row, and scikit-learn's
    [compute_class_weight]. *)
Class KerasBackend : Type := {
  keras_model : Type;
  keras_predict : keras_model -> token_input -> option Z -> list (list Q);
  keras_predict_rows :
    forall m x bs, length (keras_predict m x bs) = length (token_rows x);
  class_weights : Type;
  compute_class_weight : list nat -> result class_weights
}.

Section Wrapper.

Context {emb : BaseEmbedding} {backend : KerasBackend}
        {pyset : PySet} {pyrandom : PyRandom}.

(** The state of [self.embedding] the wrapper reads and writes. *)
Record Embedding : Type := {
  token2idx : token_dict;
  sequence_length : nat;
  is_bert : bool
}.

Record ClassificationModel : Type := {
  embedding : Embedding;
  multi_label : bool;
  multi_label_binarizer : option MultiLabelBinarizer;
  _label2idx : dict string nat;
  _idx2label : dict nat string;
  model : option keras_model
}.

(** [embedding.tokenize] on a list of sentences.  It looks at
    [sentence[0]] to tell a list of sentences from a single one, which is an
    [IndexError] on an empty list. *)
Definition tokenize (self : ClassificationModel) (xs : list (list string))
  : result (list (list Z)) :=
  match xs with
  | [] => Raise IndexError
  | _ :: _ => Ok (map (tokenize_sentence (token2idx (embedding self))) xs)
  end.

(** The [label2idx] property. *)
Definition label2idx (self : ClassificationModel) : dict string nat :=
  _label2idx self.

(** [dict([(val, key) for (key, val) in value.items()])]. *)
Definition inverse_dict (value : dict string nat) : dict nat string :=
  dict_of_pairs (map (fun kv => (snd kv, fst kv)) (dict_items value)).

(** The [label2idx] setter. *)
Definition set_label2idx (self : ClassificationModel) (value : dict string nat)
  : ClassificationModel :=
  {| embedding := embedding self;
     multi_label := multi_label self;
     multi_label_binarizer := multi_label_binarizer self;
     _label2idx := value;
     _idx2label := inverse_dict value;
     model := model self |}.

Definition with_token2idx (self : ClassificationModel) (d : token_dict)
  : ClassificationModel :=
  {| embedding := {| token2idx := d;
                     sequence_length := sequence_length (embedding self);
                     is_bert := is_bert (embedding self) |};
     multi_label := multi_label self;
     multi_label_binarizer := multi_label_binarizer self;
     _label2idx := _label2idx self;
     _idx2label := _idx2label self;
     model := model self |}.

Definition with_sequence_length (self : ClassificationModel) (n : nat)
  : ClassificationModel :=
  {| embedding := {| token2idx := token2idx (embedding self);
                     sequence_length := n;
                     is_bert := is_bert (embedding self) |};
     multi_label := multi_label self;
     multi_label_binarizer := multi_label_binarizer self;
     _label2idx := _label2idx self;
     _idx2label := _idx2label self;
     model := model self |}.

Definition with_binarizer (self : ClassificationModel)
  (b : option MultiLabelBinarizer) : ClassificationModel :=
  {| embedding := embedding self;
     multi_label := multi_label self;
     multi_label_binarizer := b;
     _label2idx := _label2idx self;
     _idx2label := _idx2label self;
     model := model self |}.

Definition with_model (self : ClassificationModel) (m : option keras_model)
  : ClassificationModel :=
  {| embedding := embedding self;
     multi_label := multi_label self;
     multi_label_binarizer := multi_label_binarizer self;
     _label2idx := _label2idx self;
     _idx2label := _idx2label self;
     model := m |}.

(** [if x_validate:] is true for a non-empty list only. *)
Definition truthy {A} (o : option (list A)) : bool :=
  match o with
  | Some (_ :: _) => true
  | _ => false
  end.

(** A member of [set(y_data)] in the single-label case: a label string.  A
    list is not hashable.  ([TSeq] stands for a list; a tuple used as one
    label is outside this model.) *)
Definition hashable_label (t : target) : result string :=
  match t with
  | TStr s => Ok s
  | TSeq _ => Raise TypeError
  end.

(** The loop [for idx, label in enumerate(label_set): label2idx[label] = idx]. *)
Definition index_labels (label_set : list string) : dict string nat :=
  fold_left (fun d il => dict_set d (snd il) (fst il)) (enumerate label_set) [].

(** The labels the set is built from, in the order they are met. *)
Definition observed_labels (multi : bool) (y_data : list target)
  : result (list string) :=
  if multi then Ok (concat (map labels_of_target y_data))
  else mapM hashable_label y_data.

Definition build_token2id_label2id_dict (self : ClassificationModel)
  (x_train : list (list string)) (y_train : list target)
  (x_validate : option (list (list string))) (y_validate : option (list target))
  : result unit * ClassificationModel :=
  match (if truthy x_validate
         then match x_validate, y_validate with
              | Some xv, Some yv => Ok (x_train ++ xv, y_train ++ yv)
              | _, _ => Raise TypeError
              end
         else Ok (x_train, y_train)) with
  | Raise e => (Raise e, self)
  | Ok (x_data, y_data) =>
      let self1 :=
        with_token2idx self
          (build_token2idx_dict (token2idx (embedding self)) x_data 3) in
      match observed_labels (multi_label self1) y_data with
      | Raise e => (Raise e, self1)
      | Ok seen =>
          let label_set := set_iter seen in
          let label2idx := index_labels label_set in
          let self2 :=
            {| embedding := embedding self1;
               multi_label := multi_label self1;
               multi_label_binarizer := multi_label_binarizer self1;
               _label2idx := label2idx;
               _idx2label := inverse_dict label2idx;
               model := model self1 |} in
          (Ok tt,
           with_binarizer self2
             (Some {| classes := dict_keys (label2idx);
                      fitted := false |}))
      end
  end.

(** Argument of [convert_label_to_idx]: a string, or a sequence. *)
Inductive label_arg : Type :=
| LabelStr (s : string)
| LabelSeq (ts : list target).

Inductive idx_result : Type :=
| Idx (i : nat)
| Idxs (l : list nat).

(** [self.label2idx[l]] for one element of a sequence. *)
Definition lookup_label (self : ClassificationModel) (t : target) : result nat :=
  s <- hashable_label t ;; dict_getitem (label2idx self) s.

Definition convert_label_to_idx (self : ClassificationModel) (label : label_arg)
  : result idx_result :=
  match label with
  | LabelStr s => i <- dict_getitem (label2idx self) s ;; Ok (Idx i)
  | LabelSeq ts => l <- mapM (lookup_label self) ts ;; Ok (Idxs l)
  end.

(** The ids of a result as an array. *)
Definition idx_list (r : idx_result) : list nat :=
  match r with
  | Idx i => [i]
  | Idxs l => l
  end.

(** Argument of [convert_idx_to_label]: an [int], or a sequence of them. *)
Inductive idx_arg : Type :=
| IdxInt (i : nat)
| IdxSeq (l : list nat).

Inductive label_result : Type :=
| Label (s : string)
| Labels (l : list string).

Definition convert_idx_to_label (self : ClassificationModel) (token : idx_arg)
  : result label_result :=
  match token with
  | IdxInt i => s <- dict_getitem (_idx2label self) i ;; Ok (Label s)
  | IdxSeq l => ls <- mapM (dict_getitem (_idx2label self)) l ;; Ok (Labels ls)
  end.

(** ** The batch generator *)

(** One yielded pair [(x_input_data, padded_y)]. *)
Record batch : Type := {
  x_input_data : token_input;
  padded_y : list (list Z)
}.

(** A generator object: the arguments of the [get_data_generator] call that
    made it, and where its body stands: how many passes of [while True] have
    begun, which pages of the current pass are still to come, and whether an
    exception has ended it. *)
Record generator : Type := {
  gen_x_data : list (list string);
  gen_y_data : list target;
  gen_batch_size : Z;
  gen_is_bert : bool;
  gen_passes : nat;
  gen_pending : list Z;
  gen_finished : bool
}.

(** Calling the generator function runs nothing yet. *)
Definition get_data_generator (x_data : list (list string))
  (y_data : list target) (batch_size : Z) (is_bert : bool) : generator :=
  {| gen_x_data := x_data; gen_y_data := y_data;
     gen_batch_size := batch_size; gen_is_bert := is_bert;
     gen_passes := 0; gen_pending := []; gen_finished := false |}.

(** [list(range((len(x_data) // batch_size) + 1))]. *)
Definition page_list (x_data : list (list string)) (batch_size : Z)
  : result (list Z) :=
  q <- py_floordiv (Z.of_nat (length x_data)) batch_size ;;
  Ok (py_range (q + 1)).

(** The slices of one page, with the fallback on an empty one. *)
Definition select_page (x_data : list (list string)) (y_data : list target)
  (batch_size page : Z) : list (list string) * list target :=
  let start_index := (page * batch_size)%Z in
  let end_index := (start_index + batch_size)%Z in
  let target_x := py_slice x_data start_index end_index in
  let target_y := py_slice y_data start_index end_index in
  if length target_x =? 0
  then (py_slice x_data 0 batch_size, py_slice y_data 0 batch_size)
  else (target_x, target_y).

(** The targets of a batch.  [fit_transform] refits the shared binarizer. *)
Definition encode_targets (self : ClassificationModel) (target_y : list target)
  : result (list (list Z)) * ClassificationModel :=
  if multi_label self
  then match multi_label_binarizer self with
       | None => (Raise AttributeError, self)
       | Some b =>
           let (rows, b') := mlb_fit_transform b target_y in
           (rows, with_binarizer self (Some b'))
       end
  else (tokenized_y <- convert_label_to_idx self (LabelSeq target_y) ;;
        to_categorical (idx_list tokenized_y) (length (label2idx self)),
        self).

(** From [tokenize] to the yielded pair. *)
Definition encode_batch (self : ClassificationModel) (is_bert : bool)
  (target_x : list (list string)) (target_y : list target)
  : result batch * ClassificationModel :=
  match tokenize self target_x with
  | Raise e => (Raise e, self)
  | Ok tokenized_x =>
      match pad_sequences tokenized_x (sequence_length (embedding self)) with
      | Raise e => (Raise e, self)
      | Ok padded_x =>
          match encode_targets self target_y with
          | (Raise e, self') => (Raise e, self')
          | (Ok py, self') =>
              let x_input :=
                if is_bert
                then WithSegments padded_x
                       (zeros (length padded_x)
                          (sequence_length (embedding self')))
                else Plain padded_x in
              (Ok {| x_input_data := x_input; padded_y := py |}, self')
          end
      end
  end.

(** What one [next()] on the generator does. *)
Inductive gen_outcome : Type :=
| Yield (b : batch)
| Raised (e : py_error)
| Hangs.

Definition gen_advance (g : generator) (passes : nat) (pending : list Z)
  (finished : bool) : generator :=
  {| gen_x_data := gen_x_data g; gen_y_data := gen_y_data g;
     gen_batch_size := gen_batch_size g; gen_is_bert := gen_is_bert g;
     gen_passes := passes; gen_pending := pending; gen_finished := finished |}.

(** The body of the [for] loop for one page, up to its [yield]. *)
Definition run_page (g : generator) (self : ClassificationModel)
  (passes : nat) (page : Z) (rest : list Z)
  : gen_outcome * generator * ClassificationModel :=
  let (target_x, target_y) :=
    select_page (gen_x_data g) (gen_y_data g) (gen_batch_size g) page in
  match encode_batch self (gen_is_bert g) target_x target_y with
  | (Ok b, self') => (Yield b, gen_advance g passes rest false, self')
  | (Raise e, self') => (Raised e, gen_advance g passes [] true, self')
  end.

(** [next(g)]: resume until the next [yield].  When the pages of a pass are
    used up the [while True] loop starts a new pass; a pass without pages
    leaves the loop spinning without ever yielding. *)
Definition gen_next (g : generator) (self : ClassificationModel)
  : gen_outcome * generator * ClassificationModel :=
  if gen_finished g then (Raised StopIteration, g, self)
  else
    match gen_pending g with
    | page :: rest => run_page g self (gen_passes g) page rest
    | [] =>
        match page_list (gen_x_data g) (gen_batch_size g) with
        | Raise e => (Raised e, gen_advance g (gen_passes g) [] true, self)
        | Ok pages =>
            match shuffle (gen_passes g) pages with
            | [] => (Hangs, g, self)
            | page :: rest => run_page g self (S (gen_passes g)) page rest
            end
        end
    end.

(** The first [n] outcomes of a generator, the object threaded through. *)
Fixpoint gen_take (n : nat) (g : generator) (self : ClassificationModel)
  : list gen_outcome :=
  match n with
  | O => []
  | S n' =>
      match gen_next g self with
      | (out, g', self') => out :: gen_take n' g' self'
      end
  end.


(** Number of examples of a batch. *)
Definition batch_examples (b : batch) : nat :=
  length (token_rows (x_input_data b)).

(** ** Training *)

(** A method body: it may raise, and it may assign attributes of [self]. *)
Definition method (A : Type) : Type :=
  ClassificationModel -> result A * ClassificationModel.

Definition ret {A} (a : A) : method A := fun self => (Ok a, self).

Definition and_then {A B} (c : method A) (k : A -> method B) : method B :=
  fun self =>
    match c self with
    | (Ok a, self') => k a self'
    | (Raise e, self') => (Raise e, self')
    end.

Definition lift {A} (r : result A) : method A := fun self => (r, self).

Definition get_self : method ClassificationModel := fun self => (Ok self, self).

Definition assign (f : ClassificationModel -> ClassificationModel) : method unit :=
  fun self => (Ok tt, f self).

Notation "x <~ c ;; k" := (and_then c (fun x => k))
  (at level 61, c at next level, right associativity).

(** The subclass's [build_model]; it returns the network it stores in
    [self.model].  In the base class it raises [NotImplementedError]. *)
Variable build_model : ClassificationModel -> result keras_model.

Record fit_args : Type := {
  x_train : list (list string);
  y_train : list target;
  x_validate : option (list (list string));
  y_validate : option (list target);
  batch_size : Z;
  epochs : Z;
  class_weight : bool
}.

(** The arguments [fit] hands to [model.fit_generator]. *)
Record fit_generator_call : Type := {
  train_generator : generator;
  steps_per_epoch : Z;
  call_epochs : Z;
  call_class_weight : option class_weights;
  validation_data : option generator;
  validation_steps : option Z
}.

(** [if len(x_train) < batch_size: batch_size = len(x_train) // 2]. *)
Definition effective_batch_size (x_train : list (list string)) (batch_size : Z)
  : Z :=
  if (Z.of_nat (length x_train) <? batch_size)%Z
  then (Z.of_nat (length x_train) / 2)%Z
  else batch_size.

(** [int(f)] for a finite binary64 float: truncation towards zero. *)
Definition int_of_float (f : float) : Z :=
  match Prim2SF f with
  | S754_finite s m e =>
      let a := if (0 <=? e)%Z then (Z.pos m * 2 ^ e)%Z
               else (Z.pos m / 2 ^ (- e))%Z in
      if s then (- a)%Z else a
  | _ => 0%Z
  end.

(** [int(0.95 * n)] computed as Python does, in binary64 ([0.95] is the
    float nearest to 95/100). *)
Definition int_095_binary64 (n : nat) : Z :=
  int_of_float
    (PrimFloat.mul 0x1.e666666666666p-1%float
       (PrimFloat.of_uint63 (Uint63.of_Z (Z.of_nat n)))).

(** [int(0.95 * n)].  The product is a binary64 float; truncating it gives
    the floor of [19 n / 20]: the float nearest to 95/100 is less than one
    part in 10^16 below it, which moves the product across an integer for
    no count a list can have. *)
Definition int_095 (n : nat) : nat := 19 * n / 20.

(** [sorted([len(x) for x in x_train])[int(0.95 * len(x_train))]]. *)
Definition percentile_length (x_train : list (list string)) : result nat :=
  py_getitem (sorted (map (@length string) x_train))
             (int_095 (length x_train)).

(** The block under [if not self.model:]. *)
Definition build_if_needed (x_train : list (list string)) : method unit :=
  self <~ get_self ;;
  match model self with
  | Some _ => ret tt
  | None =>
      _ <~ (if sequence_length (embedding self) =? 0
            then n <~ lift (percentile_length x_train) ;;
                 assign (fun s => with_sequence_length s n)
            else ret tt) ;;
      self1 <~ get_self ;;
      m <~ lift (build_model self1) ;;
      assign (fun s => with_model s (Some m))
  end.

(** From the construction of the generators to the [fit_generator] call;
    nothing here assigns to [self]. *)
Definition start_training (a : fit_args) (batch_size : Z)
  (self : ClassificationModel) : result fit_generator_call :=
  let train_generator :=
    get_data_generator (x_train a) (y_train a) batch_size
      (is_bert (embedding self)) in
  validation <-
    (if truthy (x_validate a)
     then match x_validate a, y_validate a with
          | Some xv, Some yv =>
              let validation_generator :=
                get_data_generator xv yv batch_size
                  (is_bert (embedding self)) in
              q <- py_floordiv (Z.of_nat (length xv)) batch_size ;;
              Ok (Some validation_generator, Some (Z.max q 1))
          | _, _ =>
              (* not reached: the dictionary step has raised already *)
              Raise TypeError
          end
     else Ok (None, None)) ;;
  class_weights <-
    (if class_weight a
     then y_list <- convert_label_to_idx self (LabelSeq (y_train a)) ;;
          w <- compute_class_weight (idx_list y_list) ;;
          Ok (Some w)
     else Ok None) ;;
  steps <- py_floordiv (Z.of_nat (length (x_train a))) batch_size ;;
  Ok {| train_generator := train_generator;
        steps_per_epoch := steps;
        call_epochs := epochs a;
        call_class_weight := class_weights;
        validation_data := fst validation;
        validation_steps := snd validation |}.

(** [fit], up to the [fit_generator] call it ends with: the training
    itself is the framework's. *)
Definition fit (a : fit_args) : method fit_generator_call :=
  _ <~ lift (if length (x_train a) =? length (y_train a)
             then Ok tt else Raise AssertionError) ;;
  _ <~ (fun self =>
          build_token2id_label2id_dict self (x_train a) (y_train a)
            (x_validate a) (y_validate a)) ;;
  let batch_size := effective_batch_size (x_train a) (batch_size a) in
  _ <~ build_if_needed (x_train a) ;;
  self <~ get_self ;;
  lift (start_training a batch_size self).

(** ** Prediction *)

(** The argument of [predict]: one tokenized sentence, or a list of them. *)
Inductive sentence_input : Type :=
| OneSentence (s : list string)
| SentenceList (ss : list (list string)).

(** [not isinstance(sentence[0], str)]; [sentence[0]] needs an element. *)
Definition is_list_input (sentence : sentence_input) : result bool :=
  match sentence with
  | OneSentence [] => Raise IndexError
  | OneSentence (_ :: _) => Ok false
  | SentenceList [] => Raise IndexError
  | SentenceList (_ :: _) => Ok true
  end.

Record candidate : Type := {
  name : string;
  confidence : Q
}.

(** The dictionary [_format_output_dic] returns. *)
Record output_dic : Type := {
  words : list string;
  class : candidate;
  class_candidates : list candidate
}.

(** One result of [predict]: a label, a tuple of labels, or a dictionary. *)
Inductive prediction : Type :=
| PLabel (s : string)
| PTuple (ls : list string)
| PDict (d : output_dic).

(** The two return shapes of [predict]. *)
Inductive predict_result : Type :=
| One (r : prediction)
| Many (rs : list prediction).

Definition Qlt_bool (a b : Q) : bool := negb (Qle_bool b a).

(** [res[res >= t] = 1] and then [res[res < t] = 0], on the same array. *)
Definition apply_threshold (t : Q) (res : list (list Q)) : list (list Q) :=
  let res1 := map (map (fun r => if Qle_bool t r then 1%Q else r)) res in
  map (map (fun r => if Qlt_bool r t then 0%Q else r)) res1.

(** [argmax] of one row: the first position of the largest score. *)
Fixpoint argmax_from (best_i : nat) (best : Q) (i : nat) (row : list Q) : nat :=
  match row with
  | [] => best_i
  | q :: row' =>
      if Qlt_bool best q then argmax_from i q (S i) row'
      else argmax_from best_i best (S i) row'
  end.

Definition argmax (row : list Q) : result nat :=
  match row with
  | [] => Raise ValueError
  | q :: row' => Ok (argmax_from 0 q 1 row')
  end.

Definition _format_output_dic (self : ClassificationModel)
  (words : list string) (res : list Q) : result output_dic :=
  let results := sorted_by (fun x => Qopp (snd x)) (enumerate res) in
  candidates <-
    mapM (fun result =>
            names <- convert_idx_to_label self (IdxSeq [fst result]) ;;
            name <- match names with
                    | Labels l => py_getitem l 0
                    | Label s => Ok s
                    end ;;
            Ok {| name := name; confidence := snd result |})
         results ;;
  top <- py_getitem candidates 0 ;;
  Ok {| words := words; class := top; class_candidates := candidates |}.

Definition predict (self : ClassificationModel) (sentence : sentence_input)
  (batch_size : option Z) (output_dict : bool) (multi_label_threshold : Q)
  : result predict_result :=
  let tok := tokenize_sentence (token2idx (embedding self)) in
  is_list <- is_list_input sentence ;;
  padded_tokens <-
    match sentence with
    | SentenceList ss =>
        pad_sequences (map tok ss) (sequence_length (embedding self))
    | OneSentence s =>
        pad_sequences [tok s] (sequence_length (embedding self))
    end ;;
  let x :=
    if is_bert (embedding self)
    then WithSegments padded_tokens
           (zeros (length padded_tokens) (sequence_length (embedding self)))
    else Plain padded_tokens in
  m <- match model self with
       | Some m => Ok m
       | None => Raise AttributeError
       end ;;
  let res0 := keras_predict m x batch_size in
  let res := if multi_label self
             then apply_threshold multi_label_threshold res0 else res0 in
  predict_result <-
    (if multi_label self then Ok (inl res)
     else am <- mapM argmax res ;; Ok (inr am)) ;;
  if output_dict
  then
    let words_list := match sentence with
                      | SentenceList ss => ss
                      | OneSentence s => [s]
                      end in
    results <-
      mapM (fun index =>
              w <- py_getitem words_list index ;;
              r <- py_getitem res index ;;
              d <- _format_output_dic self w r ;;
              Ok (PDict d))
           (seq 0 (length words_list)) ;;
    if is_list then Ok (Many results)
    else r <- py_getitem results 0 ;; Ok (One r)
  else
    results <-
      match predict_result with
      | inl yt =>
          match multi_label_binarizer self with
          | None => Raise AttributeError
          | Some b =>
              tuples <- mlb_inverse_transform b yt ;; Ok (map PTuple tuples)
          end
      | inr am =>
          ls <- convert_idx_to_label self (IdxSeq am) ;;
          match ls with
          | Labels l => Ok (map PLabel l)
          | Label s => Ok [PLabel s]
          end
      end ;;
    if is_list then Ok (Many results)
    else r <- py_getitem results 0 ;; Ok (One r).

End Wrapper.

(** ** Construction, stored information and loading *)

(** A value of a hyper-parameter dictionary: [None], a string, a list of
    strings, or a nested dictionary. *)
#[warnings="-register-all"] Inductive hp_value : Type :=
| HNone
| HStr (s : string)
| HList (l : list string)
| HDict (d : list (string * hp_value)).

Definition hp_dict : Type := dict string hp_value.

Section Construction.

Context {emb : BaseEmbedding} {backend : KerasBackend}.

Definition with_multi_label (self : ClassificationModel) (flag : bool)
  : ClassificationModel :=
  {| embedding := embedding self;
     multi_label := flag;
     multi_label_binarizer := multi_label_binarizer self;
     _label2idx := _label2idx self;
     _idx2label := _idx2label self;
     model := model self |}.

(** [hyper_parameters.get(section, {}).get(key) is None].  A section that is
    not a dictionary has no [get]. *)
Definition get_is_none (hyper_parameters : hp_dict) (section key : string)
  : result bool :=
  match dict_get hyper_parameters section with
  | None => Ok true
  | Some (HDict d) =>
      Ok (match dict_get d key with
          | None | Some HNone => true
          | Some _ => false
          end)
  | Some _ => Raise AttributeError
  end.

(** [not hyper_parameters or
     hyper_parameters.get(section, {}).get(key) is None]: [None] and the
    empty dictionary are falsy, and [or] does not evaluate its second
    operand then. *)
Definition unset (hyper_parameters : option hp_dict) (section key : string)
  : result bool :=
  match hyper_parameters with
  | None | Some [] => Ok true
  | Some (p :: hp) => get_is_none (p :: hp) section key
  end.

(** [self.hyper_parameters[section][key] = value]. *)
Definition set_nested (hyper_parameters : hp_dict) (section key : string)
  (value : hp_value) : result hp_dict :=
  match dict_get hyper_parameters section with
  | None => Raise KeyError
  | Some (HDict d) =>
      Ok (dict_set hyper_parameters section (HDict (dict_set d key value)))
  | Some _ => Raise TypeError
  end.

(** What the constructor leaves: the object, its hyper-parameters and the
    warnings it logged. *)
Record constructed : Type := {
  object : ClassificationModel;
  hyper_parameters : hp_dict;
  warnings : list string
}.

Definition loss_warning : string :=
  "recommend to use binary_crossentropy loss for multi_label task".
Definition metrics_warning : string :=
  "recommend to use categorical_accuracy metrivs for multi_label task".
Definition activation_warning : string :=
  "recommend to use sigmoid activation for multi_label task".

(** [__init__].  [base] and [base_hyper_parameters] are the object and the
    hyper-parameters the constructor of the base class leaves;
    [user_hyper_parameters] is the argument [hyper_parameters]. *)
Definition __init__ (base : ClassificationModel)
  (base_hyper_parameters : hp_dict)
  (user_hyper_parameters : option hp_dict) (multi_label : bool)
  : result constructed :=
  let self := with_binarizer (with_multi_label base multi_label) None in
  if multi_label
  then
    no_loss <- unset user_hyper_parameters "compile_params" "loss" ;;
    s1 <- (if no_loss
           then hp <- set_nested base_hyper_parameters "compile_params" "loss"
                        (HStr "binary_crossentropy") ;;
                Ok (hp, [])
           else Ok (base_hyper_parameters, [loss_warning])) ;;
    no_metrics <- unset user_hyper_parameters "compile_params" "metrics" ;;
    s2 <- (if no_metrics
           then hp <- set_nested (fst s1) "compile_params" "metrics"
                        (HList ["categorical_accuracy"%string]) ;;
                Ok (hp, snd s1)
           else Ok (fst s1, snd s1 ++ [metrics_warning])) ;;
    no_sigmoid <- unset user_hyper_parameters "activation_layer" "sigmoid" ;;
    s3 <- (if no_sigmoid
           then hp <- set_nested (fst s2) "activation_layer" "activation"
                        (HStr "sigmoid") ;;
                Ok (hp, snd s2)
           else Ok (fst s2, snd s2 ++ [activation_warning])) ;;
    Ok {| object := self; hyper_parameters := fst s3; warnings := snd s3 |}
  else
    Ok {| object := self; hyper_parameters := base_hyper_parameters;
          warnings := [] |}.

(** [info]: the dictionary of the base class with the flag stored under
    ['model_info'].  Only the flags of that entry are modelled. *)
Definition info (self : ClassificationModel)
  (base_info : dict string (dict string bool))
  : result (dict string (dict string bool)) :=
  match dict_get base_info "model_info"%string with
  | None => Raise KeyError
  | Some model_info =>
      Ok (dict_set base_info "model_info"%string
            (dict_set model_info "multi_label"%string (multi_label self)))
  end.

(** [load_model], on the agent the base class has restored and its
    [model_info].  [fit] of a binarizer made with [classes] ignores its
    argument, but [keys[0]] is evaluated. *)
Definition load_model (agent : ClassificationModel)
  (model_info : dict string bool) : result ClassificationModel :=
  let agent1 :=
    with_multi_label agent
      (match dict_get model_info "multi_label"%string with
       | Some flag => flag
       | None => false
       end) in
  if multi_label agent1
  then
    let keys := dict_keys (label2idx agent1) in
    let binarizer := {| classes := keys; fitted := false |} in
    _ <- py_getitem keys 0 ;;
    Ok (with_binarizer agent1 (Some (mlb_fit binarizer)))
  else Ok agent1.

End Construction.

(** ** Evaluation *)

(** [metrics.classification_report] and [random.sample] on a population
    that is large enough. *)
Class EvaluationTools : Type := {
  classification_report : list target -> list prediction -> nat
                          -> result string;
  random_sample : list nat -> nat -> list nat;
  random_sample_spec :
    forall population k, k <= length population ->
      length (random_sample population k) = k /\
      incl (random_sample population k) population /\
      (NoDup population -> NoDup (random_sample population k))
}.

(** A line [logging.debug] writes for a sample. *)
Inductive debug_line : Type :=
| SampleLine (index : nat)
| XLine (x : list string)
| YLine (y : target)
| YPredLine (p : prediction).

(** What a call of [evaluate] does: the text it prints, the debug lines it
    logs, and how it ends (it returns [None]). *)
Record evaluation : Type := {
  printed : list string;
  debug_lines : list debug_line;
  returned : result unit
}.

Section Evaluation.

Context {emb : BaseEmbedding} {backend : KerasBackend}
        {tools : EvaluationTools}.

(** [random.sample(population, k)]. *)
Definition py_random_sample (population : list nat) (k : nat)
  : result (list nat) :=
  if length population <? k then Raise ValueError
  else Ok (random_sample population k).

(** The predictions as the list [predict] returns for a list of inputs. *)
Definition prediction_list (r : predict_result) : list prediction :=
  match r with
  | Many ps => ps
  | One p => [p]
  end.

(** The body of the loop over the sampled indices. *)
Fixpoint log_samples (x_data : list (list string)) (y_data : list target)
  (y_pred : list prediction) (indices : list nat) (log : list debug_line)
  : list debug_line * result unit :=
  match indices with
  | [] => (log, Ok tt)
  | index :: rest =>
      let log1 := log ++ [SampleLine index] in
      match py_getitem x_data index with
      | Raise e => (log1, Raise e)
      | Ok x =>
          let log2 := log1 ++ [XLine x] in
          match py_getitem y_data index with
          | Raise e => (log2, Raise e)
          | Ok y =>
              let log3 := log2 ++ [YLine y] in
              match py_getitem y_pred index with
              | Raise e => (log3, Raise e)
              | Ok p =>
                  log_samples x_data y_data y_pred rest
                    (log3 ++ [YPredLine p])
              end
          end
      end
  end.

(** [evaluate], on a list of inputs. *)
Definition evaluate (self : ClassificationModel)
  (x_data : list (list string)) (y_data : list target)
  (batch_size : option Z) (digits : nat) (debug_info : bool) : evaluation :=
  match predict self (SentenceList x_data) batch_size false (6 # 10)%Q with
  | Raise e => {| printed := []; debug_lines := []; returned := Raise e |}
  | Ok r =>
      let y_pred := prediction_list r in
      match classification_report y_data y_pred digits with
      | Raise e => {| printed := []; debug_lines := []; returned := Raise e |}
      | Ok report =>
          if debug_info
          then
            match py_random_sample (seq 0 (length x_data)) 5 with
            | Raise e =>
                {| printed := [report]; debug_lines := [];
                   returned := Raise e |}
            | Ok indices =>
                let (log, r) := log_samples x_data y_data y_pred indices [] in
                {| printed := [report]; debug_lines := log; returned := r |}
            end
          else {| printed := [report]; debug_lines := []; returned := Ok tt |}
      end
  end.

End Evaluation.

End BaseModel.
Export BaseModel.

(* ================================================================== *)
(** * CNN/CNN+glove+Senntiment.py: [load_data_and_label] *)
(* ================================================================== *)

Module CNNGlove.

(** [str.strip] and the word segmenter [jieba.cut]. *)
Class TextTools : Type := {
  strip : string -> string;
  jieba_cut : string -> list string
}.

Section Loader.

Context {tools : TextTools}.

(** [' '.join(list(jieba.cut(line.strip())))]. *)
Definition segment_line (line : string) : string :=
  String.concat " " (jieba_cut (strip line)).

(** [load_data_and_label], on the lines [readlines()] gives for the two
    files; it returns [[x_text, y]]. *)
Definition load_data_and_label (pos_lines neg_lines : list string)
  : list string * list Z :=
  let positive_texts := map segment_line pos_lines in
  let negative_texts := map segment_line neg_lines in
  let x_text := positive_texts ++ negative_texts in
  let positive_labels := map (fun _ => 1%Z) negative_texts in
  let negative_labels := map (fun _ => 0%Z) negative_texts in
  let y := positive_labels ++ negative_labels in
  (x_text, y).

End Loader.

(** ** [construct_dataset] *)

(** The Keras [Tokenizer]: the word index it has after [fit_on_texts] and
    the id sequences [texts_to_sequences] makes, one per text. *)
Class KerasTokenizer : Type := {
  word_index_of : list string -> dict string nat;
  texts_to_sequences : list string -> list string -> list (list Z);
  texts_to_sequences_length :
    forall fitted texts,
      length (texts_to_sequences fitted texts) = length texts
}.

(** [np.random.permutation] after [np.random.seed(10)]. *)
Class NumpyRandom : Type := {
  permutation : list nat -> list nat;
  permutation_perm : forall l, Permutation l (permutation l)
}.

(** [train_test_split(x, y, test_size=0.1, random_state=10)]: it returns
    [(x_train, x_dev, y_train, y_dev)], rows of [x] and entries of [y], and
    refuses arrays of different lengths. *)
Class ModelSelection : Type := {
  train_test_split :
    list (list Z) -> list Z
    -> result (list (list Z) * list (list Z) * list Z * list Z);
  split_checks_lengths :
    forall x y, length x <> length y ->
      train_test_split x y = Raise ValueError;
  split_rows :
    forall x y xt xd yt yd,
      train_test_split x y = Ok (xt, xd, yt, yd) ->
      incl xt x /\ incl xd x /\ incl yt y /\ incl yd y
}.

Section Dataset.

Context {tools : TextTools} {tokenizer : KerasTokenizer}
        {nprandom : NumpyRandom} {selection : ModelSelection}.

(** [text.split(' ')]: cut at every space; a text without a space is one
    piece, the empty text one empty piece. *)
Fixpoint split_from (cur : string) (text : string) : list string :=
  match text with
  | EmptyString => [cur]
  | String c text' =>
      if Ascii.eqb c " "%char then cur :: split_from EmptyString text'
      else split_from (cur ++ String c EmptyString) text'
  end.

Definition py_split_space (text : string) : list string :=
  split_from EmptyString text.

(** [max(l)]. *)
Definition py_max (l : list nat) : result nat :=
  match l with
  | [] => Raise ValueError
  | _ :: _ => Ok (list_max l)
  end.

(** One row of [pad_sequences(sequences, maxlen=maxlen)] with the defaults
    [padding='pre'] and [truncating='pre']: a long sequence keeps its last
    [maxlen] ids, a short one is filled with zeros at the front. *)
Definition pad_row_pre (maxlen : nat) (s : list Z) : result (list Z) :=
  match s with
  | [] => Ok (repeat 0%Z maxlen)
  | _ :: _ =>
      let trunc := py_slice s (- Z.of_nat maxlen) (Z.of_nat (length s)) in
      if length trunc <=? maxlen
      then Ok (repeat 0%Z (maxlen - length trunc) ++ trunc)
      else if length trunc =? 1
           then Ok (repeat (hd 0%Z trunc) maxlen)
           else Raise ValueError
  end.

Definition pad_sequences_pre (sequences : list (list Z)) (maxlen : nat)
  : result (list (list Z)) :=
  mapM (pad_row_pre maxlen) sequences.

(** [a[indices]] for an array of indices. *)
Definition take {A} (a : list A) (indices : list nat) : result (list A) :=
  mapM (py_getitem a) indices.

(** [construct_dataset], on the lines of the two files; it returns
    [(x_train, y_train, x_dev, y_dev, word_index)]. *)
Definition construct_dataset (pos_lines neg_lines : list string)
  : result (list (list Z) * list Z * list (list Z) * list Z
            * dict string nat) :=
  let (x_text, y) := load_data_and_label pos_lines neg_lines in
  max_sentence_length <-
    py_max (map (fun text => length (py_split_space text)) x_text) ;;
  let sequences := texts_to_sequences x_text x_text in
  let word_index := word_index_of x_text in
  x <- pad_sequences_pre sequences max_sentence_length ;;
  let shuffle_indices := permutation (seq 0 (length y)) in
  x_shuffled <- take x shuffle_indices ;;
  y_shuffled <- take y shuffle_indices ;;
  parts <- train_test_split x y ;;
  let '(x_train, x_dev, y_train, y_dev) := parts in
  (* print(type(x_train[1][1])), print(type(y_train[1])) *)
  row <- py_getitem x_train 1 ;;
  _ <- py_getitem row 1 ;;
  _ <- py_getitem y_train 1 ;;
  Ok (x_train, y_train, x_dev, y_dev, word_index).

End Dataset.

(** ** [word_embedding] *)

(** The arguments the [Embedding] layer is made with. *)
Record embedding_layer : Type := {
  input_dim : nat;
  output_dim : nat;
  embedding_matrix : list (list Q);
  input_length : nat;
  trainable : bool
}.

(** [matrix[i] = vector] on a matrix with rows of width [dim]: the row
    must exist, and the vector must be as wide as the row or have one
    entry, which then fills the row. *)
Definition set_row (matrix : list (list Q)) (dim i : nat) (vector : list Q)
  : result (list (list Q)) :=
  if length matrix <=? i then Raise IndexError
  else if length vector =? dim
  then Ok (firstn i matrix ++ vector :: skipn (S i) matrix)
  else if length vector =? 1
  then Ok (firstn i matrix ++ repeat (hd 0%Q vector) dim
             :: skipn (S i) matrix)
  else Raise ValueError.

(** The loop over [word_index.items()]. *)
Fixpoint fill_rows (embeddings_index : dict string (list Q)) (dim : nat)
  (items : list (string * nat)) (matrix : list (list Q))
  : result (list (list Q)) :=
  match items with
  | [] => Ok matrix
  | (word, i) :: items' =>
      match dict_get embeddings_index word with
      | Some embedding_vector =>
          matrix' <- set_row matrix dim i embedding_vector ;;
          fill_rows embeddings_index dim items' matrix'
      | None => fill_rows embeddings_index dim items' matrix
      end
  end.

Definition word_embedding (Max_Sequence_Length embedding_dim : nat)
  (word_index : dict string nat) (embeddings_index : dict string (list Q))
  : result embedding_layer :=
  let num_words := length word_index + 1 in
  let zero_matrix := repeat (repeat 0%Q embedding_dim) num_words in
  matrix <- fill_rows embeddings_index embedding_dim (dict_items word_index)
              zero_matrix ;;
  Ok {| input_dim := num_words;
        output_dim := embedding_dim;
        embedding_matrix := matrix;
        input_length := Max_Sequence_Length;
        trainable := false |}.

End CNNGlove.
Export CNNGlove.

(* ================================================================== *)
(** * Concrete collaborators used to run the model on examples *)
(* ================================================================== *)

Module Samples.


(** An embedding without a vocabulary: a token's id is its length. *)
#[export] Instance length_embedding : BaseEmbedding :=
  {| token_dict := unit;
     build_token2idx_dict := fun d _ _ => d;
     tokenize_sentence := fun _ s => map (fun w => Z.of_nat (String.length w)) s |}.

(** A shuffle that happens to leave the pages in place. *)
#[export] Instance no_shuffle : PyRandom :=
  {| shuffle := fun _ l => l;
     shuffle_perm := fun _ l => Permutation_refl l |}.

(** [split_words] cuts at spaces; [strip] is left to the identity. *)
Fixpoint split_words (cur : string) (s : string) : list string :=
  match s with
  | EmptyString => [cur]
  | String c s' =>
      if Ascii.eqb c " "%char then cur :: split_words EmptyString s'
      else split_words (cur ++ String c EmptyString) s'
  end.

#[export] Instance space_tools : TextTools :=
  {| strip := fun s => s; jieba_cut := split_words EmptyString |}.

(** A set whose iteration keeps each label where it occurs last. *)
#[export] Instance last_seen_set : PySet :=
  {| set_iter := nodup string_dec;
     set_iter_NoDup := NoDup_nodup string_dec;
     set_iter_In := nodup_In string_dec |}.

(** A network that gives every input row the same scores. *)
Definition constant_backend (scores : list Q) : KerasBackend :=
  {| keras_model := unit;
     keras_predict := fun _ x _ => map (fun _ => scores) (token_rows x);
     keras_predict_rows :=
       fun _ x _ => length_map (fun _ => scores) (token_rows x);
     class_weights := unit;
     compute_class_weight := fun _ => Ok tt |}.

#[export] Instance sample_backend : KerasBackend :=
  constant_backend [(7 # 10)%Q; (4 # 10)%Q; (61 # 100)%Q].

(** A fresh object: nothing built, sequence length unset. *)
Definition untrained (multi : bool) : ClassificationModel :=
  {| embedding := {| token2idx := tt; sequence_length := 0;
                     is_bert := false |};
     multi_label := multi;
     multi_label_binarizer := None;
     _label2idx := [];
     _idx2label := [];
     model := None |}.

Definition sample_build_model (self : ClassificationModel)
  : result keras_model := Ok tt.

Definition sample_x : list (list string) :=
  [["good"; "film"]; ["bad"]; ["not"; "so"; "bad"]]%string.

Definition sample_y : list target :=
  [TStr "pos"; TStr "neg"; TStr "neutral"]%string.

Definition sample_multi_y : list target :=
  [TSeq ["plot"; "cast"]; TSeq ["music"]; TSeq []]%string.

Definition sample_args (x : list (list string)) (y : list target)
  (batch_size : Z) : fit_args :=
  {| x_train := x; y_train := y; x_validate := None; y_validate := None;
     batch_size := batch_size; epochs := 5%Z; class_weight := false |}.

(** The object after [fit] on the three sample sentences. *)
Definition trained_sample : ClassificationModel :=
  snd (fit sample_build_model (sample_args sample_x sample_y 2) (untrained false)).

(** The multi-label object after [fit] and one batch of its generator. *)
Definition trained_multi_sample : ClassificationModel :=
  let self := snd (fit sample_build_model
                     (sample_args sample_x sample_multi_y 3) (untrained true)) in
  snd (gen_next (get_data_generator sample_x sample_multi_y 3 false) self).

(** The three sample sentences and a fourth one. *)
Definition four_x : list (list string) := sample_x ++ [["fine"%string]].
Definition four_y : list target := sample_y ++ [TStr "pos"].

(** Ten one-word sentences and their labels. *)
Definition ten_x : list (list string) := repeat ["word"%string] 10.
Definition ten_y : list target := repeat (TStr "pos") 10.

End Samples.

Module MoreSamples.

(** A report that is always the same text, and a sample that takes the
    first elements of the population. *)
#[export] Instance first_elements_tools : EvaluationTools :=
  {| classification_report := fun _ _ _ => Ok "report"%string;
     random_sample := fun population k => firstn k population;
     random_sample_spec :=
       ltac:(intros population k Hk; split; [|split];
             [ rewrite length_firstn; lia
             | intros a Ha; rewrite <- (firstn_skipn k population);
               apply in_or_app; now left
             | intros ND; rewrite <- (firstn_skipn k population) in ND;
               now apply NoDup_app_remove_r in ND ]) |}.

(** A tokenizer without a vocabulary: the id of a word is its length. *)
#[export] Instance length_tokenizer : KerasTokenizer :=
  {| word_index_of := fun _ => [];
     texts_to_sequences :=
       fun _ texts =>
         map (fun text =>
                map (fun w => Z.of_nat (String.length w))
                    (py_split_space text)) texts;
     texts_to_sequences_length := fun _ texts => length_map _ texts |}.

(** A permutation that leaves the indices in place. *)
#[export] Instance identity_permutation : NumpyRandom :=
  {| permutation := fun l => l;
     permutation_perm := fun l => Permutation_refl l |}.

(** A split that keeps the first example for the development set. *)
#[export] Instance first_row_split : ModelSelection :=
  {| train_test_split :=
       fun x y =>
         if length x =? length y
         then Ok (skipn 1 x, firstn 1 x, skipn 1 y, firstn 1 y)
         else Raise ValueError;
     split_checks_lengths :=
       ltac:(intros x y H; apply Nat.eqb_neq in H; cbv beta; now rewrite H);
     split_rows :=
       ltac:(intros x y xt xd yt yd H; cbv beta in H;
             destruct (length x =? length y); [|discriminate];
             inversion H; subst;
             repeat split; intros a Ha;
             [ rewrite <- (firstn_skipn 1 x)
             | rewrite <- (firstn_skipn 1 x)
             | rewrite <- (firstn_skipn 1 y)
             | rewrite <- (firstn_skipn 1 y) ];
             apply in_or_app; auto) |}.

(** Two positive and two negative lines. *)
Definition pos_lines : list string := ["so good"; "fine"]%string.
Definition neg_lines : list string := ["bad"; "not good at all"]%string.

(** Hyper-parameters as the base class leaves them, and a user's choice of
    another activation. *)
Definition base_hyper_parameters : hp_dict :=
  [("compile_params",
    HDict [("loss", HStr "categorical_crossentropy");
           ("optimizer", HStr "adam")]);
   ("activation_layer",
    HDict [("activation", HStr "softmax")])]%string.

Definition user_hyper_parameters : hp_dict :=
  [("activation_layer", HDict [("activation", HStr "softmax")])]%string.

(** Vectors for two of three indexed words. *)
Definition sample_word_index : dict string nat :=
  [("good", 1); ("bad", 2); ("fine", 3)]%string.

Definition sample_embeddings_index : dict string (list Q) :=
  [("good", [(1 # 2)%Q; (1 # 4)%Q]); ("fine", [(3 # 4)%Q; 1%Q])]%string.

End MoreSamples.

(* ================================================================== *)
(** * Vocabulary of the statements *)
(* ================================================================== *)

(** The targets the dictionaries are built from: the training targets, and
    the validation targets when validation inputs are given. *)
Definition fit_targets (y_train : list target)
  (x_validate : option (list (list string))) (y_validate : option (list target))
  : list target :=
  if truthy x_validate
  then y_train ++ match y_validate with Some yv => yv | None => [] end
  else y_train.


(** Targets the object can encode: in the single-label case label strings
    of the index whose id is a column of the one-hot rows, in the multi-label
    case sequences over the classes of the binarizer. *)
Definition encodable {emb : BaseEmbedding} {backend : KerasBackend}
  (self : ClassificationModel) (y_data : list target) : Prop :=
  if multi_label self
  then exists b, multi_label_binarizer self = Some b /\
         forall t l, In t y_data -> In l (labels_of_target t) ->
                     In l (classes b)
  else forall t, In t y_data ->
         exists s i, t = TStr s /\
                     dict_get (label2idx self) s = Some i /\
                     i < length (label2idx self).

(** The multi-hot row of a score row: 1 where the score reaches the
    threshold, 0 elsewhere. *)
Definition multi_hot (t : Q) (row : list Q) : list Q :=
  map (fun r => if Qle_bool t r then 1%Q else 0%Q) row.

(** The classes whose score reaches the threshold, in class order. *)
Definition labels_at_or_above (t : Q) (cls : list string) (row : list Q)
  : list string :=
  map fst (filter (fun cs => Qle_bool t (snd cs)) (combine cls row)).

(** A trained object with [n] labels: a positive sequence length, a network
    that scores [n] classes per input, a label for each of the ids below
    [n], and in the multi-label case a fitted binarizer over [n] classes. *)
Definition trained {emb : BaseEmbedding} {backend : KerasBackend}
  (self : ClassificationModel) (n : nat) : Prop :=
  0 < sequence_length (embedding self) /\
  0 < n /\
  (exists m, model self = Some m /\
     forall x bs row, In row (keras_predict m x bs) -> length row = n) /\
  (forall i, i < n -> exists l, dict_get (_idx2label self) i = Some l) /\
  (multi_label self = true ->
   exists b, multi_label_binarizer self = Some b /\
             fitted b = true /\ length (classes b) = n).

(** A row that is its sequence padded or truncated to width [maxlen]: a
    sequence that fits is followed by zeros, a longer one is cut down to its
    last [maxlen] tokens. *)
Definition post_padded (maxlen : nat) (s row : list Z) : Prop :=
  (length s <= maxlen -> row = s ++ repeat 0%Z (maxlen - length s)) /\
  (maxlen < length s -> 0 < maxlen -> row = skipn (length s - maxlen) s).

(** What every state of a generator keeps: the arguments it was made
    with, and pending pages that come from the page list. *)
Definition gen_keeps (x_data : list (list string)) (y_data : list target)
  (batch_size : Z) (is_bert : bool) (g : generator) : Prop :=
  gen_x_data g = x_data /\ gen_y_data g = y_data /\
  gen_batch_size g = batch_size /\ gen_is_bert g = is_bert /\
  forall page, In page (gen_pending g) ->
    exists pages, page_list x_data batch_size = Ok pages /\ In page pages.


(** The results a call of [predict] returned, whatever its shape. *)
Definition results_of (r : predict_result) : list prediction :=
  match r with
  | One p => [p]
  | Many ps => ps
  end.

(** Position [idx] holds the first of the largest scores of a row. *)
Definition first_maximum (row : list Q) (idx : nat) (q : Q) : Prop :=
  nth_error row idx = Some q /\
  (forall j q', nth_error row j = Some q' -> Qle q' q) /\
  (forall j q', j < idx -> nth_error row j = Some q' -> Qlt q' q).

(** The sentences [predict] is asked about. *)
Definition sentences_of (sentence : sentence_input) : list (list string) :=
  match sentence with
  | SentenceList ss => ss
  | OneSentence s => [s]
  end.

(** The array [res] of [predict] as it stands when the results are built:
    the scores of the network, thresholded in place for a multi-label
    object. *)
Definition predict_scores {emb : BaseEmbedding} {backend : KerasBackend}
  (self : ClassificationModel) (sentence : sentence_input)
  (batch_size : option Z) (multi_label_threshold : Q)
  : result (list (list Q)) :=
  _ <- is_list_input sentence ;;
  padded_tokens <-
    pad_sequences
      (map (tokenize_sentence (token2idx (embedding self)))
           (sentences_of sentence))
      (sequence_length (embedding self)) ;;
  m <- match model self with
       | Some m => Ok m
       | None => Raise AttributeError
       end ;;
  let x :=
    if is_bert (embedding self)
    then WithSegments padded_tokens
           (zeros (length padded_tokens) (sequence_length (embedding self)))
    else Plain padded_tokens in
  let res0 := keras_predict m x batch_size in
  Ok (if multi_label self
      then apply_threshold multi_label_threshold res0 else res0).

(** The return shape [predict] chooses for its list of results. *)
Definition return_shape (sentence : sentence_input) (results : list prediction)
  : result predict_result :=
  match sentence with
  | SentenceList _ => Ok (Many results)
  | OneSentence _ => r <- py_getitem results 0 ;; Ok (One r)
  end.

(** The rows that encode a list of targets: for a single-label object the
    one-hot row of each label's id, as wide as the label index; for a
    multi-label object the row over the classes of the binarizer with a 1
    at the classes among the target's labels. *)
Definition target_rows {emb : BaseEmbedding} {backend : KerasBackend}
  (self : ClassificationModel) (target_y : list target)
  (rows : list (list Z)) : Prop :=
  if multi_label self
  then exists b, multi_label_binarizer self = Some b /\
         Forall2 (fun t row =>
                    row = map (fun c =>
                                 if existsb (String.eqb c) (labels_of_target t)
                                 then 1%Z else 0%Z)
                              (classes b))
                 target_y rows
  else Forall2 (fun t row =>
                  exists s i, t = TStr s /\
                              dict_get (label2idx self) s = Some i /\
                              row = one_hot (length (label2idx self)) i)
               target_y rows.

(** A batch that holds the given inputs and targets: its token rows are
    the padded or truncated token ids of the inputs, one row per input in
    their order, and its target rows encode the targets in their order. *)
Definition batch_encodes {emb : BaseEmbedding} {backend : KerasBackend}
  (self : ClassificationModel) (target_x : list (list string))
  (target_y : list target) (b : batch) : Prop :=
  (exists tokenized,
     tokenize self target_x = Ok tokenized /\
     Forall2 (post_padded (sequence_length (embedding self)))
             tokenized (token_rows (x_input_data b))) /\
  target_rows self target_y (padded_y b).

(** Two states of an object that encode alike: the same embedding, label
    index and classes. *)
Definition encodes_alike {emb : BaseEmbedding} {backend : KerasBackend}
  (self self' : ClassificationModel) : Prop :=
  embedding self' = embedding self /\
  multi_label self' = multi_label self /\
  _label2idx self' = _label2idx self /\
  option_map classes (multi_label_binarizer self')
  = option_map classes (multi_label_binarizer self).

(** The entry [hyper_parameters[section][key]], if there is one. *)
Definition nested_get (hyper_parameters : hp_dict) (section key : string)
  : option hp_value :=
  match dict_get hyper_parameters section with
  | Some (HDict d) => dict_get d key
  | _ => None
  end.

(** The four lines [evaluate] logs for the sample at [index]. *)
Definition sample_lines (x_data : list (list string)) (y_data : list target)
  (y_pred : list prediction) (index : nat) : list debug_line :=
  match nth_error x_data index, nth_error y_data index,
        nth_error y_pred index with
  | Some x, Some y, Some p => [SampleLine index; XLine x; YLine y; YPredLine p]
  | _, _, _ => []
  end.

(* ================================================================== *)
(** * Properties of the Python runtime model *)
(* ================================================================== *)

Unset Implicit Arguments.

Section PythonFacts.

Lemma bind_Ok_inv {A B} (r : result A) (k : A -> result B) (b : B) :
  bind r k = Ok b -> exists a, r = Ok a /\ k a = Ok b.
Proof.
  destruct r as [a|e]; simpl; intros E; [eauto | discriminate].
Qed.

Lemma mapM_length {A B} (f : A -> result B) (l : list A) (l' : list B) :
  mapM f l = Ok l' -> length l' = length l.
Proof.
  revert l'; induction l as [|a l IH]; simpl; intros l' E.
  - inversion E; reflexivity.
  - destruct (f a) as [b|e]; simpl in E; [|discriminate].
    destruct (mapM f l) as [bs|e]; simpl in E; [|discriminate].
    inversion E; subst; simpl; f_equal; auto.
Qed.

Lemma mapM_Forall2 {A B} (f : A -> result B) (l : list A) (l' : list B) :
  mapM f l = Ok l' <-> Forall2 (fun a b => f a = Ok b) l l'.
Proof.
  revert l'; induction l as [|a l IH]; simpl; intros l'.
  - split; intros E; [inversion E; constructor | inversion E; reflexivity].
  - split.
    + destruct (f a) as [b|e] eqn:Ea; simpl; [|discriminate].
      destruct (mapM f l) as [bs|e] eqn:El; simpl; [|discriminate].
      intros E; inversion E; subst. constructor; [assumption | now apply IH].
    + intros E; inversion E as [|a' b l1 bs Ha Hl]; subst.
      rewrite Ha; simpl. apply IH in Hl. rewrite Hl; reflexivity.
Qed.

Lemma mapM_total {A B} (f : A -> result B) (l : list A) :
  (forall a, In a l -> exists b, f a = Ok b) -> exists l', mapM f l = Ok l'.
Proof.
  induction l as [|a l IH]; simpl; intros H; [eauto|].
  destruct (H a (or_introl eq_refl)) as [b Hb].
  destruct IH as [bs Hbs]; [intros; apply H; now right|].
  rewrite Hb, Hbs; simpl; eauto.
Qed.

Lemma mapM_Ok_map {A B} (f : A -> result B) (g : A -> B) (l : list A) :
  (forall a, In a l -> f a = Ok (g a)) -> mapM f l = Ok (map g l).
Proof.
  induction l as [|a l IH]; simpl; intros H; [reflexivity|].
  rewrite (H a (or_introl eq_refl)), IH; [reflexivity|].
  intros; apply H; now right.
Qed.

Lemma mapM_In {A B} (f : A -> result B) (l : list A) (l' : list B) (b : B) :
  mapM f l = Ok l' -> In b l' -> exists a, In a l /\ f a = Ok b.
Proof.
  intros E; apply mapM_Forall2 in E.
  induction E as [|a b' l1 l2 Hab _ IH]; simpl; intros Hin; [contradiction|].
  destruct Hin as [->|Hin]; [eauto|].
  destruct (IH Hin) as [a0 [? ?]]; eauto.
Qed.

Context {K V : Type} `{Key K}.

Lemma keyb_refl (k : K) : keyb k k = true.
Proof. now apply keyb_eq. Qed.

Lemma keyb_neq (a b : K) : a <> b -> keyb a b = false.
Proof.
  intros N; destruct (keyb a b) eqn:E; [|reflexivity].
  apply keyb_eq in E; contradiction.
Qed.

Lemma dict_get_In (d : dict K V) (k : K) (v : V) :
  dict_get d k = Some v -> In (k, v) d.
Proof.
  induction d as [|[k' v'] d IH]; simpl; [discriminate|].
  destruct (keyb k' k) eqn:E.
  - apply keyb_eq in E; subst. intros E; inversion E; now left.
  - intros E'; right; auto.
Qed.

Lemma dict_get_None (d : dict K V) (k : K) :
  dict_get d k = None <-> ~ In k (dict_keys d).
Proof.
  induction d as [|[k' v'] d IH]; simpl; [tauto|].
  destruct (keyb k' k) eqn:E.
  - apply keyb_eq in E; subst. split; [discriminate | intros N; exfalso; auto].
  - rewrite IH. split; intros N.
    + intros [->|Hin]; [rewrite keyb_refl in E; discriminate | auto].
    + intros Hin; apply N; now right.
Qed.

Lemma In_dict_get (d : dict K V) (k : K) (v : V) :
  NoDup (dict_keys d) -> In (k, v) d -> dict_get d k = Some v.
Proof.
  induction d as [|[k' v'] d IH]; simpl; [contradiction|].
  intros ND Hin; inversion ND as [|? ? Hk ND']; subst.
  destruct Hin as [E|Hin].
  - inversion E; subst. now rewrite keyb_refl.
  - destruct (keyb k' k) eqn:E.
    + apply keyb_eq in E; subst. exfalso; apply Hk.
      change k with (fst (k, v)). now apply in_map.
    + auto.
Qed.

Lemma dict_set_fresh (d : dict K V) (k : K) (v : V) :
  ~ In k (dict_keys d) -> dict_set d k v = d ++ [(k, v)].
Proof.
  induction d as [|[k' v'] d IH]; simpl; intros N; [reflexivity|].
  rewrite keyb_neq by (intros ->; apply N; now left).
  rewrite IH; [reflexivity | intros Hin; apply N; now right].
Qed.

Lemma fold_dict_set_fresh (ps acc : list (K * V)) :
  NoDup (map fst (acc ++ ps)) ->
  fold_left (fun d p => dict_set d (fst p) (snd p)) ps acc = acc ++ ps.
Proof.
  revert acc; induction ps as [|[k v] ps IH]; simpl; intros acc ND.
  - now rewrite app_nil_r.
  - rewrite dict_set_fresh.
    + rewrite IH; rewrite <- app_assoc; simpl; [reflexivity | assumption].
    + rewrite map_app in ND; simpl in ND.
      apply NoDup_remove_2 in ND. intros Hin; apply ND.
      apply in_or_app; now left.
Qed.

Lemma dict_of_pairs_NoDup (ps : list (K * V)) :
  NoDup (map fst ps) -> dict_of_pairs ps = ps.
Proof.
  intros ND; unfold dict_of_pairs. now rewrite fold_dict_set_fresh.
Qed.

End PythonFacts.

Section DictDefined.

Context {K V : Type} `{Key K}.

Lemma dict_get_Some_iff (d : dict K V) (k : K) :
  In k (dict_keys d) <-> exists v, dict_get d k = Some v.
Proof.
  destruct (dict_get d k) as [v|] eqn:E.
  - split; [eauto|]. intros _. apply dict_get_In in E.
    change k with (fst (k, v)). now apply in_map.
  - split; [|intros [v Hv]; discriminate].
    intros Hin. apply dict_get_None in E. contradiction.
Qed.

Lemma dict_set_keys (d : dict K V) (k k' : K) (v : V) :
  In k' (dict_keys (dict_set d k v)) <-> k' = k \/ In k' (dict_keys d).
Proof.
  induction d as [|[k0 v0] d IH]; simpl.
  - intuition congruence.
  - destruct (keyb k0 k) eqn:E; simpl.
    + apply keyb_eq in E; subst. intuition congruence.
    + rewrite IH. intuition congruence.
Qed.

Lemma fold_dict_set_keys (ps acc : list (K * V)) (k : K) :
  In k (dict_keys acc) \/ In k (map fst ps) ->
  In k (dict_keys (fold_left (fun d p => dict_set d (fst p) (snd p)) ps acc)).
Proof.
  revert acc; induction ps as [|[k0 v0] ps IH]; simpl; intros acc Hin.
  - tauto.
  - apply IH. rewrite dict_set_keys. intuition congruence.
Qed.

Lemma dict_of_pairs_defined (ps : list (K * V)) (k : K) :
  In k (map fst ps) -> exists v, dict_get (dict_of_pairs ps) k = Some v.
Proof.
  intros Hin. apply dict_get_Some_iff. unfold dict_of_pairs.
  apply fold_dict_set_keys. now right.
Qed.

End DictDefined.

(** The two sorts are sorts: the result is ordered and a rearrangement of
    the argument, and [sorted_by] keeps elements with equal keys in their
    original order, as Python's stable sort does. *)
Section SortFacts.

Lemma insert_nat_Permutation (a : nat) (l : list nat) :
  Permutation (a :: l) (insert_nat a l).
Proof.
  induction l as [|b l IH]; simpl; [reflexivity|].
  destruct (a <=? b); [reflexivity|].
  rewrite perm_swap. now apply perm_skip.
Qed.

Lemma sorted_Permutation (l : list nat) : Permutation l (sorted l).
Proof.
  induction l as [|a l IH]; simpl; [constructor|].
  rewrite <- insert_nat_Permutation. now apply perm_skip.
Qed.

Lemma insert_nat_Sorted (a : nat) (l : list nat) :
  Sorted le l -> Sorted le (insert_nat a l).
Proof.
  induction 1 as [|b l Hs IH Hb]; simpl; [repeat constructor|].
  destruct (Nat.leb_spec a b) as [Hle|Hgt].
  - repeat constructor; assumption.
  - constructor; [assumption|].
    destruct l as [|c l]; simpl in *.
    + constructor. lia.
    + destruct (a <=? c); constructor; [lia | now inversion Hb].
Qed.

Lemma sorted_Sorted (l : list nat) : Sorted le (sorted l).
Proof.
  induction l as [|a l IH]; simpl; [constructor|].
  now apply insert_nat_Sorted.
Qed.

Context {A : Type} (key : A -> Q).

Lemma insert_by_Permutation (a : A) (l : list A) :
  Permutation (a :: l) (insert_by key a l).
Proof.
  induction l as [|b l IH]; simpl; [reflexivity|].
  destruct (Qle_bool (key a) (key b)); [reflexivity|].
  rewrite perm_swap. now apply perm_skip.
Qed.

Lemma sorted_by_Permutation (l : list A) : Permutation l (sorted_by key l).
Proof.
  induction l as [|a l IH]; simpl; [constructor|].
  unfold sorted_by in *. simpl.
  rewrite <- insert_by_Permutation. now apply perm_skip.
Qed.

Lemma insert_by_Sorted (a : A) (l : list A) :
  Sorted (fun x y => Qle (key x) (key y)) l ->
  Sorted (fun x y => Qle (key x) (key y)) (insert_by key a l).
Proof.
  induction 1 as [|b l Hs IH Hb]; simpl; [repeat constructor|].
  destruct (Qle_bool (key a) (key b)) eqn:E.
  - apply Qle_bool_iff in E. repeat constructor; assumption.
  - assert (Hba : Qle (key b) (key a)).
    { destruct (Qlt_le_dec (key b) (key a)) as [Hlt|Hle].
      - now apply Qlt_le_weak.
      - apply Qle_bool_iff in Hle. congruence. }
    constructor; [assumption|].
    destruct l as [|c l]; simpl in *.
    + now constructor.
    + destruct (Qle_bool (key a) (key c)); constructor;
        [assumption | now inversion Hb].
Qed.

Lemma sorted_by_Sorted (l : list A) :
  Sorted (fun x y => Qle (key x) (key y)) (sorted_by key l).
Proof.
  induction l as [|a l IH]; simpl; [constructor|].
  unfold sorted_by in *. simpl. now apply insert_by_Sorted.
Qed.

Lemma insert_by_stable (k : Q) (a : A) (l : list A) :
  filter (fun x => Qeq_bool k (key x)) (insert_by key a l)
  = filter (fun x => Qeq_bool k (key x)) (a :: l).
Proof.
  induction l as [|b l IH]; simpl; [reflexivity|].
  destruct (Qle_bool (key a) (key b)) eqn:E; [reflexivity|].
  simpl. rewrite IH. simpl.
  destruct (Qeq_bool k (key a)) eqn:Ea; [|reflexivity].
  destruct (Qeq_bool k (key b)) eqn:Eb; [|reflexivity].
  exfalso. apply Qeq_bool_iff in Ea. apply Qeq_bool_iff in Eb.
  assert (Hle : Qle (key a) (key b)).
  { rewrite <- Ea, <- Eb. apply Qle_refl. }
  apply Qle_bool_iff in Hle. congruence.
Qed.

Lemma sorted_by_stable (k : Q) (l : list A) :
  filter (fun x => Qeq_bool k (key x)) (sorted_by key l)
  = filter (fun x => Qeq_bool k (key x)) l.
Proof.
  induction l as [|a l IH]; simpl; [reflexivity|].
  unfold sorted_by in *. simpl. rewrite insert_by_stable. simpl.
  now rewrite IH.
Qed.

End SortFacts.

(* ================================================================== *)
(** * The label index *)
(* ================================================================== *)

Section LabelIndex.

Context {emb : BaseEmbedding} {backend : KerasBackend} {pyset : PySet}.

Lemma mapM_Raise {A B} (f : A -> result B) (e : py_error) (l : list A) :
  (forall a, In a l -> (exists b, f a = Ok b) \/ f a = Raise e) ->
  (exists a, In a l /\ f a = Raise e) ->
  mapM f l = Raise e.
Proof.
  induction l as [|a l IH]; simpl; intros Hall [a0 [Hin Ha0]]; [contradiction|].
  destruct (Hall a (or_introl eq_refl)) as [[b Hb]|Hr].
  - rewrite Hb; simpl. destruct Hin as [->|Hin]; [congruence|].
    rewrite IH; [reflexivity | intros; apply Hall; now right | eauto].
  - now rewrite Hr.
Qed.

Lemma fold_index_swap (ps : list (nat * string)) (acc : dict string nat) :
  fold_left (fun d il => dict_set d (snd il) (fst il)) ps acc =
  fold_left (fun d p => dict_set d (fst p) (snd p))
            (map (fun il => (snd il, fst il)) ps) acc.
Proof.
  revert acc; induction ps as [|p ps IH]; simpl; intros acc; [reflexivity|].
  apply IH.
Qed.

Lemma map_swap_combine {A B} (l1 : list A) (l2 : list B) :
  map (fun p => (snd p, fst p)) (combine l1 l2) = combine l2 l1.
Proof.
  revert l2; induction l1 as [|a l1 IH]; intros [|b l2]; simpl; f_equal; auto.
Qed.

Lemma map_fst_combine {A B} (l1 : list A) (l2 : list B) :
  length l1 = length l2 -> map fst (combine l1 l2) = l1.
Proof.
  revert l2; induction l1 as [|a l1 IH]; intros [|b l2]; simpl;
    intros E; try discriminate; f_equal; auto.
Qed.

Lemma map_snd_combine {A B} (l1 : list A) (l2 : list B) :
  length l1 = length l2 -> map snd (combine l1 l2) = l2.
Proof.
  revert l2; induction l1 as [|a l1 IH]; intros [|b l2]; simpl;
    intros E; try discriminate; f_equal; auto.
Qed.

(** Over distinct labels the loop lists them with the ids [0, 1, ...]. *)
Lemma index_labels_combine (ls : list string) :
  NoDup ls -> index_labels ls = combine ls (seq 0 (length ls)).
Proof.
  intros ND. unfold index_labels, enumerate.
  rewrite fold_index_swap, map_swap_combine.
  apply (fold_dict_set_fresh (combine ls (seq 0 (length ls))) []).
  simpl. rewrite map_fst_combine; [assumption | now rewrite length_seq].
Qed.

Lemma index_labels_keys (ls : list string) :
  NoDup ls -> dict_keys (index_labels ls) = ls.
Proof.
  intros ND. rewrite index_labels_combine by assumption.
  apply map_fst_combine. now rewrite length_seq.
Qed.

Lemma index_labels_ids (ls : list string) :
  NoDup ls -> map snd (index_labels ls) = seq 0 (length ls).
Proof.
  intros ND. rewrite index_labels_combine by assumption.
  apply map_snd_combine. now rewrite length_seq.
Qed.

(** The inverse dictionary answers [i -> l] wherever the dictionary answers
    [l -> i], provided no id is used twice. *)
Lemma inverse_dict_get (d : dict string nat) (l : string) (i : nat) :
  NoDup (map snd d) ->
  dict_get d l = Some i -> dict_get (inverse_dict d) i = Some l.
Proof.
  intros ND Hget. unfold inverse_dict, dict_items.
  assert (Hk : map fst (map (fun kv : string * nat => (snd kv, fst kv)) d)
               = map snd d) by (rewrite map_map; reflexivity).
  rewrite dict_of_pairs_NoDup by (rewrite Hk; assumption).
  apply In_dict_get.
  - unfold dict_keys. rewrite Hk; assumption.
  - apply dict_get_In in Hget.
    change (i, l) with ((fun kv : string * nat => (snd kv, fst kv)) (l, i)).
    now apply in_map.
Qed.


Lemma dict_get_injective (d : dict string nat) (l1 l2 : string) (i : nat) :
  NoDup (map snd d) ->
  dict_get d l1 = Some i -> dict_get d l2 = Some i -> l1 = l2.
Proof.
  intros ND H1 H2.
  apply (inverse_dict_get _ _ _ ND) in H1.
  apply (inverse_dict_get _ _ _ ND) in H2. congruence.
Qed.

(** What [build_token2id_label2id_dict] returns and stores once the targets
    can be collected. *)
Lemma build_dict_run (self : ClassificationModel)
  (x_train : list (list string)) (y_train : list target)
  (x_validate : option (list (list string)))
  (y_validate : option (list target)) (seen : list string) :
  (truthy x_validate = true -> y_validate <> None) ->
  observed_labels (multi_label self)
    (fit_targets y_train x_validate y_validate) = Ok seen ->
  exists self',
    build_token2id_label2id_dict self x_train y_train x_validate y_validate
      = (Ok tt, self') /\
    _label2idx self' = index_labels (set_iter seen) /\
    _idx2label self' = inverse_dict (index_labels (set_iter seen)) /\
    multi_label_binarizer self' =
      Some {| classes := set_iter seen; fitted := false |} /\
    multi_label self' = multi_label self /\
    model self' = model self /\
    sequence_length (embedding self') = sequence_length (embedding self) /\
    is_bert (embedding self') = is_bert (embedding self).
Proof.
  intros Hy Hseen. unfold build_token2id_label2id_dict, fit_targets in *.
  destruct (truthy x_validate) eqn:T.
  - destruct x_validate as [xv|]; [|discriminate].
    destruct y_validate as [yv|]; [|exfalso; now apply Hy].
    simpl. simpl in Hseen. rewrite Hseen. eexists; split; [reflexivity|].
    simpl. rewrite index_labels_keys by apply set_iter_NoDup.
    repeat split; reflexivity.
  - simpl. simpl in Hseen. rewrite Hseen. eexists; split; [reflexivity|].
    simpl. rewrite index_labels_keys by apply set_iter_NoDup.
    repeat split; reflexivity.
Qed.

End LabelIndex.

Section LabelIndexClaims.

Context {emb : BaseEmbedding} {backend : KerasBackend} {pyset : PySet}.


(** C8.  After the label index is built over a set of labels, mapping any
    of its labels to its id with [convert_label_to_idx] and the id back with
    [convert_idx_to_label] returns the label, for a single label and for a
    sequence of labels alike.  The same holds after the [label2idx] setter
    is given a dictionary that uses no id twice: every label of the
    dictionary converts to its id there, and that id converts back to the
    label. *)
Theorem label_to_idx_round_trip (self : ClassificationModel)
  (x_train : list (list string)) (y_train : list target)
  (x_validate : option (list (list string)))
  (y_validate : option (list target)) (seen : list string) :
  (truthy x_validate = true -> y_validate <> None) ->
  observed_labels (multi_label self)
    (fit_targets y_train x_validate y_validate) = Ok seen ->
  exists self',
    build_token2id_label2id_dict self x_train y_train x_validate y_validate
      = (Ok tt, self') /\
    (forall l, In l seen ->
       exists i, convert_label_to_idx self' (LabelStr l) = Ok (Idx i) /\
                 convert_idx_to_label self' (IdxInt i) = Ok (Label l)) /\
    (forall ls, Forall (fun l => In l seen) ls ->
       exists ids,
         convert_label_to_idx self' (LabelSeq (map TStr ls)) = Ok (Idxs ids) /\
         convert_idx_to_label self' (IdxSeq ids) = Ok (Labels ls)) /\
    (forall value l i,
       NoDup (dict_keys value) -> NoDup (map snd value) ->
       In (l, i) value ->
       convert_label_to_idx (set_label2idx self value) (LabelStr l)
         = Ok (Idx i) /\
       convert_idx_to_label (set_label2idx self value) (IdxInt i)
         = Ok (Label l)) /\
    (forall value l i,
       NoDup (map snd value) ->
       convert_label_to_idx (set_label2idx self value) (LabelStr l)
         = Ok (Idx i) ->
       convert_idx_to_label (set_label2idx self value) (IdxInt i)
         = Ok (Label l)).
Proof.
  intros Hy Hseen.
  destruct (build_dict_run self x_train y_train x_validate y_validate seen Hy Hseen)
    as [self' [Hrun [Hl [Hi _]]]].
  exists self'. split; [assumption|].
  pose proof (set_iter_NoDup seen) as ND.
  assert (NDi : NoDup (map snd (index_labels (set_iter seen)))).
  { rewrite index_labels_ids by assumption. apply seq_NoDup. }
  assert (Hone : forall l, In l seen ->
            exists i, dict_get (_label2idx self') l = Some i /\
                      dict_get (_idx2label self') i = Some l).
  { intros l Hin. rewrite Hl, Hi.
    assert (Hk : In l (dict_keys (index_labels (set_iter seen)))).
    { rewrite index_labels_keys by assumption. now apply set_iter_In. }
    apply dict_get_Some_iff in Hk. destruct Hk as [i Hget].
    exists i. split; [assumption | now apply inverse_dict_get]. }
  split.
  { intros l Hin. destruct (Hone l Hin) as [i [H1 H2]]. exists i.
    unfold convert_label_to_idx, convert_idx_to_label, dict_getitem, label2idx.
    now rewrite H1, H2. }
  split.
  { intros ls Hall.
    unfold convert_label_to_idx, convert_idx_to_label.
    induction Hall as [|l ls Hin _ IH]; simpl.
    - exists []; split; reflexivity.
    - destruct IH as [ids [E1 E2]].
      destruct (Hone l Hin) as [i [H1 H2]].
      exists (i :: ids).
      unfold lookup_label at 1. simpl.
      unfold dict_getitem at 1. unfold label2idx at 1. rewrite H1. simpl.
      destruct (mapM (lookup_label self') (map TStr ls)) as [ids'|e];
        simpl in E1; [|discriminate].
      inversion E1; subst ids'. simpl. split; [reflexivity|].
      unfold dict_getitem at 1. rewrite H2. simpl.
      destruct (mapM (dict_getitem (_idx2label self')) ids) as [ls'|e];
        simpl in E2; [|discriminate].
      inversion E2; subst ls'. reflexivity. }
  split.
  { intros value l i NDk NDv Hin.
    pose proof (In_dict_get value l i NDk Hin) as Hget.
    unfold convert_label_to_idx, convert_idx_to_label, dict_getitem,
      label2idx.
    simpl. rewrite Hget, (inverse_dict_get _ _ _ NDv Hget).
    split; reflexivity. }
  intros value l i NDv.
  unfold convert_label_to_idx, convert_idx_to_label, dict_getitem, label2idx.
  simpl. destruct (dict_get value l) as [j|] eqn:Hget; simpl; [|discriminate].
  intros E; inversion E; subst j.
  now rewrite (inverse_dict_get _ _ _ NDv Hget).
Qed.

(** C9.  A label string that is not a key of the label index makes
    [convert_label_to_idx] raise [KeyError], alone or inside a sequence of
    label strings, and an id without a label makes [convert_idx_to_label]
    raise [KeyError]; an id or a label is only ever returned from the
    dictionary entry of the argument, there is no default. *)
Theorem unseen_label_raises_KeyError (self : ClassificationModel) :
  (forall l, ~ In l (dict_keys (label2idx self)) ->
     convert_label_to_idx self (LabelStr l) = Raise KeyError) /\
  (forall i, ~ In i (dict_keys (_idx2label self)) ->
     convert_idx_to_label self (IdxInt i) = Raise KeyError) /\
  (forall ls l, In l ls -> ~ In l (dict_keys (label2idx self)) ->
     convert_label_to_idx self (LabelSeq (map TStr ls)) = Raise KeyError) /\
  (forall ids i, In i ids -> ~ In i (dict_keys (_idx2label self)) ->
     convert_idx_to_label self (IdxSeq ids) = Raise KeyError) /\
  (forall l i, convert_label_to_idx self (LabelStr l) = Ok (Idx i) ->
     In (l, i) (label2idx self)) /\
  (forall i l, convert_idx_to_label self (IdxInt i) = Ok (Label l) ->
     In (i, l) (_idx2label self)).
Proof.
  assert (Hget : forall (K V : Type) (HK : Key K) (d : dict K V) (k : K),
            (exists v, dict_getitem d k = Ok v) \/
            dict_getitem d k = Raise KeyError).
  { intros K V HK d k. unfold dict_getitem.
    destruct (dict_get d k); [left; eauto | now right]. }
  split.
  { intros l N. apply dict_get_None in N.
    unfold convert_label_to_idx, dict_getitem. now rewrite N. }
  split.
  { intros i N. apply dict_get_None in N.
    unfold convert_idx_to_label, dict_getitem. now rewrite N. }
  split.
  { intros ls l Hin N. apply dict_get_None in N.
    unfold convert_label_to_idx.
    rewrite (@mapM_Raise _ _ (lookup_label self) KeyError); [reflexivity| |].
    - intros t Ht. apply in_map_iff in Ht. destruct Ht as [s [<- _]].
      unfold lookup_label; simpl. apply Hget.
    - exists (TStr l). split; [now apply in_map|].
      unfold lookup_label, dict_getitem; simpl. now rewrite N. }
  split.
  { intros ids i Hin N. apply dict_get_None in N.
    unfold convert_idx_to_label.
    rewrite (@mapM_Raise _ _ (dict_getitem (_idx2label self)) KeyError);
      [reflexivity| |].
    - intros j _. apply Hget.
    - exists i. split; [assumption|]. unfold dict_getitem. now rewrite N. }
  split.
  { intros l i. unfold convert_label_to_idx, dict_getitem.
    destruct (dict_get (label2idx self) l) as [j|] eqn:E; simpl;
      [|discriminate].
    intros E'; inversion E'; subst. now apply dict_get_In. }
  intros i l. unfold convert_idx_to_label, dict_getitem.
  destruct (dict_get (_idx2label self) i) as [s|] eqn:E; simpl;
    [|discriminate].
  intros E'; inversion E'; subst. now apply dict_get_In.
Qed.

End LabelIndexClaims.

(* ================================================================== *)
(** * Slices, pages and padding *)
(* ================================================================== *)

Section SliceFacts.

Lemma py_clamp_bounds (n i : Z) :
  (0 <= n)%Z -> (0 <= py_clamp n i <= n)%Z.
Proof.
  intros Hn. unfold py_clamp. destruct (Z.ltb_spec i 0); lia.
Qed.

Lemma py_slice_length {A} (l : list A) (a b : Z) :
  length (py_slice l a b)
  = Z.to_nat (py_clamp (Z.of_nat (length l)) b
              - py_clamp (Z.of_nat (length l)) a).
Proof.
  unfold py_slice. rewrite length_firstn, length_skipn.
  pose proof (py_clamp_bounds _ a (Nat2Z.is_nonneg (length l))).
  pose proof (py_clamp_bounds _ b (Nat2Z.is_nonneg (length l))).
  lia.
Qed.

Lemma py_slice_length_nonneg {A} (l : list A) (a b : Z) :
  (0 <= a <= b)%Z ->
  Z.of_nat (length (py_slice l a b))
  = (Z.min b (Z.of_nat (length l)) - Z.min a (Z.of_nat (length l)))%Z.
Proof.
  intros H. rewrite py_slice_length. unfold py_clamp.
  destruct (Z.ltb_spec a 0); destruct (Z.ltb_spec b 0); lia.
Qed.

Lemma In_py_slice {A} (l : list A) (a b : Z) (x : A) :
  In x (py_slice l a b) -> In x l.
Proof.
  unfold py_slice. intros Hin.
  set (lo := Z.to_nat (py_clamp (Z.of_nat (length l)) a)) in *.
  set (k := Z.to_nat (py_clamp (Z.of_nat (length l)) b
                      - py_clamp (Z.of_nat (length l)) a)) in *.
  rewrite <- (firstn_skipn lo l). apply in_or_app; right.
  rewrite <- (firstn_skipn k (skipn lo l)). apply in_or_app; now left.
Qed.

Lemma In_py_range (n p : Z) : In p (py_range n) <-> (0 <= p < n)%Z.
Proof.
  unfold py_range. rewrite in_map_iff. split.
  - intros [i [<- Hi]]. apply in_seq in Hi. lia.
  - intros Hp. exists (Z.to_nat p). split; [lia|]. apply in_seq. lia.
Qed.

(** A page of the list is a number between 0 and [len(x_data) // batch_size];
    with inputs at hand the list only exists for a positive batch size. *)
Lemma page_list_pages (x_data : list (list string)) (batch_size : Z)
  (pages : list Z) (page : Z) :
  page_list x_data batch_size = Ok pages -> In page pages ->
  batch_size <> 0%Z /\
  (0 <= page <= Z.of_nat (length x_data) / batch_size)%Z.
Proof.
  unfold page_list, py_floordiv.
  destruct (Z.eqb_spec batch_size 0); simpl; [discriminate|].
  intros E; inversion E; subst. rewrite In_py_range. lia.
Qed.

Lemma page_list_positive (x_data : list (list string)) (batch_size : Z)
  (pages : list Z) (page : Z) :
  x_data <> [] ->
  page_list x_data batch_size = Ok pages -> In page pages ->
  (1 <= batch_size)%Z.
Proof.
  intros Hx Hp Hin. destruct (page_list_pages _ _ _ _ Hp Hin) as [Hb Hr].
  destruct x_data as [|s x_data]; [contradiction|].
  assert (0 < Z.of_nat (length (s :: x_data)))%Z by (simpl; lia).
  destruct (Z.lt_trichotomy batch_size 0) as [Hneg|[?|?]]; [|lia|lia].
  exfalso.
  assert (Z.of_nat (length (s :: x_data)) / batch_size < 0)%Z; [|lia].
  pose proof (Z.div_mod (Z.of_nat (length (s :: x_data))) batch_size Hb).
  pose proof (Z.mod_neg_bound (Z.of_nat (length (s :: x_data))) batch_size Hneg).
  nia.
Qed.

End SliceFacts.

Section PaddingFacts.

(** A padded row is exactly [maxlen] wide, whichever way it was made. *)
Lemma pad_row_width (maxlen : nat) (s row : list Z) :
  pad_row maxlen s = Ok row -> length row = maxlen.
Proof.
  unfold pad_row. destruct s as [|t s].
  - intros E; inversion E. apply repeat_length.
  - set (trunc := py_slice (t :: s) (- Z.of_nat maxlen)
                    (Z.of_nat (length (t :: s)))).
    destruct (Nat.leb_spec (length trunc) maxlen) as [Hle|Hgt].
    + intros E; inversion E. rewrite length_app, repeat_length. lia.
    + destruct (length trunc =? 1); intros E; inversion E.
      apply repeat_length.
Qed.

(** With a positive [maxlen] padding never fails. *)
Lemma pad_row_total (maxlen : nat) (s : list Z) :
  0 < maxlen -> exists row, pad_row maxlen s = Ok row.
Proof.
  intros Hm. unfold pad_row. destruct s as [|t s]; [eauto|].
  set (trunc := py_slice (t :: s) (- Z.of_nat maxlen)
                  (Z.of_nat (length (t :: s)))).
  assert (Hlen : length trunc <= maxlen).
  { unfold trunc. rewrite py_slice_length. unfold py_clamp.
    destruct (Z.ltb_spec (- Z.of_nat maxlen) 0);
      destruct (Z.ltb_spec (Z.of_nat (length (t :: s))) 0); lia. }
  apply Nat.leb_le in Hlen. rewrite Hlen. eauto.
Qed.

(** What a padded row holds. *)
Lemma pad_row_content (maxlen : nat) (s row : list Z) :
  pad_row maxlen s = Ok row -> post_padded maxlen s row.
Proof.
  unfold pad_row, post_padded. destruct s as [|t s].
  - intros E; inversion E; subst. simpl. rewrite Nat.sub_0_r.
    split; [reflexivity | lia].
  - set (n := length (t :: s)).
    assert (Hn : 0 < n) by (unfold n; simpl; lia).
    unfold py_slice. fold n. unfold py_clamp.
    destruct (Z.ltb_spec (- Z.of_nat maxlen) 0) as [Hneg|Hzero];
      destruct (Z.ltb_spec (Z.of_nat n) 0) as [?|_]; try lia.
    (* with [maxlen = 0] neither case applies; otherwise: *)
    destruct (Z.max_spec 0 (- Z.of_nat maxlen + Z.of_nat n))
      as [[Hlt ->]|[Hge ->]].
    + (* the sequence is longer than [maxlen] *)
      replace (Z.to_nat (Z.min (Z.of_nat n) (Z.of_nat n)
                         - (- Z.of_nat maxlen + Z.of_nat n))) with maxlen
        by lia.
      replace (Z.to_nat (- Z.of_nat maxlen + Z.of_nat n)) with (n - maxlen)
        by lia.
      assert (Hlen : length (skipn (n - maxlen) (t :: s)) = maxlen)
        by (rewrite length_skipn; fold n; lia).
      rewrite firstn_all2 by lia. rewrite Hlen, Nat.leb_refl, Nat.sub_diag.
      intros E; inversion E; subst. simpl. rewrite app_nil_r.
      split; [lia | reflexivity].
    + (* the sequence fits *)
      replace (Z.to_nat (Z.min (Z.of_nat n) (Z.of_nat n) - 0)) with n by lia.
      simpl skipn. rewrite firstn_all2 by (fold n; lia). fold n.
      assert (Hle : n <= maxlen) by lia.
      apply Nat.leb_le in Hle as Hb. rewrite Hb.
      intros E; inversion E; subst. split; [reflexivity | lia].
Qed.

Lemma pad_sequences_shape (seqs padded : list (list Z)) (maxlen : nat) :
  pad_sequences seqs maxlen = Ok padded ->
  length padded = length seqs /\
  Forall (fun row => length row = maxlen) padded.
Proof.
  unfold pad_sequences. intros E. split; [now apply mapM_length in E|].
  apply Forall_forall. intros row Hin.
  destruct (mapM_In _ _ _ _ E Hin) as [s [_ Hs]].
  now apply pad_row_width in Hs.
Qed.

Lemma pad_sequences_content (seqs padded : list (list Z)) (maxlen : nat) :
  pad_sequences seqs maxlen = Ok padded ->
  Forall2 (post_padded maxlen) seqs padded.
Proof.
  unfold pad_sequences. intros E. apply mapM_Forall2 in E.
  induction E as [|s row seqs padded Hrow _ IH]; constructor;
    [now apply pad_row_content | assumption].
Qed.

Lemma pad_sequences_total (seqs : list (list Z)) (maxlen : nat) :
  0 < maxlen -> exists padded, pad_sequences seqs maxlen = Ok padded.
Proof.
  intros Hm. apply mapM_total. intros s _. now apply pad_row_total.
Qed.

Lemma zeros_shape (rows cols : nat) :
  length (zeros rows cols) = rows /\
  Forall (fun row => length row = cols) (zeros rows cols).
Proof.
  unfold zeros. split; [apply repeat_length|].
  apply Forall_forall. intros row Hin. apply repeat_spec in Hin. subst.
  apply repeat_length.
Qed.

Lemma to_categorical_length (y : list nat) (n : nat) (rows : list (list Z)) :
  to_categorical y n = Ok rows -> length rows = length y.
Proof.
  unfold to_categorical. intros E. apply bind_Ok_inv in E.
  destruct E as [nc [_ E]]. now apply mapM_length in E.
Qed.

End PaddingFacts.

(* ================================================================== *)
(** * The batch generator *)
(* ================================================================== *)

Section PageFacts.

Variables (x_data : list (list string)) (y_data : list target).
Variable batch_size : Z.

Let N : Z := Z.of_nat (length x_data).

Hypothesis batch_size_positive : (1 <= batch_size)%Z.

(** A page that is not the last one is full; the last one holds the
    remainder. *)
Lemma page_slice_length (page : Z) :
  (0 <= page <= N / batch_size)%Z ->
  Z.of_nat (length (py_slice x_data (page * batch_size)
                      (page * batch_size + batch_size)))
  = if (page <? N / batch_size)%Z then batch_size else (N mod batch_size)%Z.
Proof.
  intros Hp.
  assert (Hs : (0 <= page * batch_size)%Z)
    by (apply Z.mul_nonneg_nonneg; lia).
  rewrite py_slice_length_nonneg by lia. fold N.
  pose proof (Nat2Z.is_nonneg (length x_data)) as HN. fold N in HN.
  assert (Hb : batch_size <> 0%Z) by lia.
  pose proof (Z.div_mod N batch_size Hb) as Hdm.
  pose proof (Z.mod_pos_bound N batch_size ltac:(lia)) as Hmod.
  destruct (Z.ltb_spec page (N / batch_size)) as [Hlt|Hge].
  - assert ((page + 1) * batch_size <= N / batch_size * batch_size)%Z
      by (apply Z.mul_le_mono_nonneg_r; lia).
    lia.
  - assert (page = N / batch_size)%Z by lia. subst page. lia.
Qed.

Lemma first_page_length :
  Z.of_nat (length (py_slice x_data 0 batch_size)) = Z.min batch_size N.
Proof.
  rewrite py_slice_length_nonneg by lia. fold N.
  pose proof (Nat2Z.is_nonneg (length x_data)) as HN. fold N in HN. lia.
Qed.

(** An empty page of the list can only be the trailing one, when the batch
    size divides the number of inputs; the first page is then full. *)
Lemma empty_page_is_trailing (page : Z) :
  x_data <> [] ->
  (0 <= page <= N / batch_size)%Z ->
  py_slice x_data (page * batch_size) (page * batch_size + batch_size) = [] ->
  page = (N / batch_size)%Z /\ (N mod batch_size = 0)%Z /\
  (batch_size <= N)%Z /\
  Z.of_nat (length (py_slice x_data 0 batch_size)) = batch_size.
Proof.
  intros Hx Hp Hempty.
  pose proof (page_slice_length page Hp) as Hlen.
  rewrite Hempty in Hlen. simpl in Hlen.
  assert (HN : (0 < N)%Z).
  { unfold N. destruct x_data; [contradiction | simpl; lia]. }
  assert (Hb : batch_size <> 0%Z) by lia.
  pose proof (Z.div_mod N batch_size Hb) as Hdm.
  destruct (Z.ltb_spec page (N / batch_size)); [lia|].
  assert (Hq : (0 < N / batch_size)%Z).
  { destruct (Z.lt_ge_cases 0 (N / batch_size)) as [?|Hq]; [assumption|].
    exfalso.
    assert (batch_size * (N / batch_size) <= 0)%Z
      by (apply Z.mul_nonneg_nonpos; lia).
    lia. }
  assert (Hle : (batch_size * 1 <= batch_size * (N / batch_size))%Z)
    by (apply Z.mul_le_mono_nonneg_l; lia).
  repeat split; try lia.
  rewrite first_page_length. lia.
Qed.

(** The inputs selected for a page of the list: a full page, or the non-empty
    remainder on the trailing page. *)
Lemma select_page_inputs (page : Z) :
  x_data <> [] ->
  (0 <= page <= N / batch_size)%Z ->
  let target_x := fst (select_page x_data y_data batch_size page) in
  Z.of_nat (length target_x) = batch_size \/
  (page = (N / batch_size)%Z /\ (0 < N mod batch_size)%Z /\
   Z.of_nat (length target_x) = (N mod batch_size)%Z).
Proof.
  intros Hx Hp. unfold select_page.
  destruct (Nat.eqb_spec
              (length (py_slice x_data (page * batch_size)
                         (page * batch_size + batch_size))) 0) as [E|E];
    simpl.
  - apply length_zero_iff_nil in E.
    left. now apply (empty_page_is_trailing page Hx Hp E).
  - pose proof (page_slice_length page Hp) as Hlen.
    destruct (Z.ltb_spec page (N / batch_size)); [now left|].
    right. repeat split; lia.
Qed.

(** Inputs and targets of a page line up when the arrays do. *)
Lemma select_page_targets (page : Z) :
  length y_data = length x_data ->
  length (snd (select_page x_data y_data batch_size page))
  = length (fst (select_page x_data y_data batch_size page)).
Proof.
  intros Hy. unfold select_page.
  destruct (length (py_slice x_data (page * batch_size)
                      (page * batch_size + batch_size)) =? 0); simpl;
    rewrite !py_slice_length, Hy; reflexivity.
Qed.

Lemma select_page_In_targets (page : Z) (t : target) :
  In t (snd (select_page x_data y_data batch_size page)) -> In t y_data.
Proof.
  unfold select_page.
  destruct (length (py_slice x_data (page * batch_size)
                      (page * batch_size + batch_size)) =? 0); simpl;
    apply In_py_slice.
Qed.

(** The number of examples the page selects: a page before the last one is
    full; the last one holds the remainder, or, when nothing remains, the
    first page that replaces it. *)
Lemma page_examples (page : Z) :
  x_data <> [] ->
  (0 <= page <= N / batch_size)%Z ->
  Z.of_nat (length (fst (select_page x_data y_data batch_size page)))
  = if (page <? N / batch_size)%Z then batch_size
    else if (N mod batch_size =? 0)%Z then batch_size
         else (N mod batch_size)%Z.
Proof.
  intros data_not_empty Hp.
  pose proof (page_slice_length page Hp) as Hslice.
  pose proof first_page_length as Hfirst.
  assert (HN : (1 <= N)%Z).
  { unfold N. destruct x_data; [contradiction | simpl; lia]. }
  pose proof (Z.div_mod N batch_size ltac:(lia)) as Hdm.
  pose proof (Z.mod_pos_bound N batch_size ltac:(lia)) as Hmod.
  unfold select_page.
  destruct (Nat.eqb_spec
              (length (py_slice x_data (page * batch_size)
                         (page * batch_size + batch_size))) 0) as [E|E];
    simpl.
  - rewrite E in Hslice. simpl in Hslice.
    destruct (Z.ltb_spec page (N / batch_size)); [lia|].
    rewrite <- Hslice. simpl. rewrite Hfirst.
    assert (1 <= N / batch_size)%Z.
    { destruct (Z.le_gt_cases 1 (N / batch_size)); [assumption|].
      assert (N / batch_size = 0)%Z
        by (pose proof (Z.div_pos N batch_size ltac:(lia) ltac:(lia)); lia).
      nia. }
    nia.
  - rewrite Hslice.
    destruct (Z.ltb_spec page (N / batch_size)); [reflexivity|].
    destruct (Z.eqb_spec (N mod batch_size) 0); [|reflexivity].
    exfalso. apply E. lia.
Qed.

End PageFacts.

Section EncodeFacts.

Context {emb : BaseEmbedding} {backend : KerasBackend}.

(** Encoding the targets leaves everything but the binarizer as it was, and
    gives one row per target. *)
Lemma encode_targets_frame (self self' : ClassificationModel)
  (target_y : list target) (r : result (list (list Z))) :
  encode_targets self target_y = (r, self') ->
  embedding self' = embedding self /\
  (forall rows, r = Ok rows -> length rows = length target_y).
Proof.
  unfold encode_targets. destruct (multi_label self).
  - destruct (multi_label_binarizer self) as [b|].
    + unfold mlb_fit_transform. intros E; inversion E; subst; simpl.
      split; [reflexivity|]. intros rows Hr. now apply mapM_length in Hr.
    + intros E; inversion E; subst. split; [reflexivity | discriminate].
  - intros E; inversion E; subst. split; [reflexivity|].
    intros rows Hr. apply bind_Ok_inv in Hr. destruct Hr as [ids [Hc Hr]].
    apply to_categorical_length in Hr. rewrite Hr.
    unfold convert_label_to_idx in Hc. apply bind_Ok_inv in Hc.
    destruct Hc as [l [Hl Hc]]. inversion Hc; subst; simpl.
    now apply mapM_length in Hl.
Qed.

Lemma encode_targets_total (self : ClassificationModel)
  (target_y : list target) :
  target_y <> [] -> encodable self target_y ->
  exists rows self', encode_targets self target_y = (Ok rows, self').
Proof.
  intros Hne Henc. unfold encodable in Henc. unfold encode_targets.
  destruct (multi_label self).
  - destruct Henc as [b [Hb Hall]]. rewrite Hb. unfold mlb_fit_transform.
    destruct (mapM_total (mlb_row (mlb_fit b)) target_y) as [rows Hrows].
    + intros t Ht. unfold mlb_row.
      destruct (mapM_total (dict_getitem (class_to_index (mlb_fit b)))
                  (labels_of_target t)) as [idxs Hidxs].
      * intros l Hl. unfold dict_getitem, class_to_index. simpl.
        destruct (dict_of_pairs_defined
                    (combine (classes b) (seq 0 (length (classes b)))) l)
          as [v Hv].
        { rewrite map_fst_combine by (now rewrite length_seq).
          now apply (Hall t l). }
        rewrite Hv. eauto.
      * rewrite Hidxs. simpl. eauto.
    + rewrite Hrows. eauto.
  - assert (Hids : exists ids, mapM (lookup_label self) target_y = Ok ids /\
                     Forall (fun i => i < length (label2idx self)) ids).
    { clear Hne. induction target_y as [|t ts IH]; simpl.
      - exists []. split; [reflexivity | constructor].
      - destruct (Henc t (or_introl eq_refl)) as [s [i [-> [Hget Hlt]]]].
        destruct IH as [ids [Hids Hall]];
          [intros t' Ht'; apply Henc; now right|].
        exists (i :: ids). unfold lookup_label at 1. simpl.
        unfold dict_getitem. rewrite Hget. simpl. rewrite Hids. simpl.
        split; [reflexivity | now constructor]. }
    destruct Hids as [ids [Hids Hall]].
    unfold convert_label_to_idx. rewrite Hids. simpl.
    assert (Hpos : 0 < length (label2idx self)).
    { destruct target_y as [|t ts]; [contradiction|].
      destruct (Henc t (or_introl eq_refl)) as [s [i [_ [_ Hlt]]]]. lia. }
    unfold to_categorical.
    destruct (Nat.eqb_spec (length (label2idx self)) 0) as [E|_]; [lia|].
    simpl.
    destruct (mapM_total
                (fun i => if i <? length (label2idx self)
                          then Ok (one_hot (length (label2idx self)) i)
                          else Raise IndexError) ids) as [rows Hrows].
    + intros i Hi. rewrite Forall_forall in Hall.
      apply Hall in Hi. apply Nat.ltb_lt in Hi. rewrite Hi. eauto.
    + rewrite Hrows. eauto.
Qed.

(** The shape of a yielded pair: one padded row per selected input, each as
    wide as the configured sequence length, and one target row per selected
    target. *)
Lemma encode_batch_shape (self self' : ClassificationModel) (is_bert : bool)
  (target_x : list (list string)) (target_y : list target) (b : batch) :
  encode_batch self is_bert target_x target_y = (Ok b, self') ->
  batch_examples b = length target_x /\
  Forall (fun row => length row = sequence_length (embedding self))
         (token_rows (x_input_data b)) /\
  (exists tokenized,
     tokenize self target_x = Ok tokenized /\
     Forall2 (post_padded (sequence_length (embedding self)))
             tokenized (token_rows (x_input_data b))) /\
  length (padded_y b) = length target_y.
Proof.
  unfold encode_batch.
  destruct (tokenize self target_x) as [tokenized|e] eqn:Htok;
    [|discriminate].
  destruct (pad_sequences tokenized (sequence_length (embedding self)))
    as [padded|e] eqn:Hpad; [|discriminate].
  destruct (encode_targets self target_y) as [[rows|e] self1] eqn:Henc;
    [|discriminate].
  intros E; inversion E; subst; clear E.
  pose proof (pad_sequences_content _ _ _ Hpad) as Hcontent.
  apply pad_sequences_shape in Hpad. destruct Hpad as [Hlen Hw].
  apply encode_targets_frame in Henc. destruct Henc as [_ Hrows].
  assert (Htl : length tokenized = length target_x).
  { unfold tokenize in Htok. destruct target_x; [discriminate|].
    inversion Htok. simpl. now rewrite length_map. }
  unfold batch_examples. simpl.
  split; [|split; [|split]].
  - destruct is_bert; simpl; congruence.
  - destruct is_bert; simpl; assumption.
  - exists tokenized. split; [reflexivity|].
    destruct is_bert; simpl; assumption.
  - now apply Hrows.
Qed.

Lemma encode_batch_total (self : ClassificationModel) (is_bert : bool)
  (target_x : list (list string)) (target_y : list target) :
  0 < sequence_length (embedding self) ->
  target_x <> [] ->
  target_y <> [] -> encodable self target_y ->
  exists b self', encode_batch self is_bert target_x target_y = (Ok b, self').
Proof.
  intros Hm Hnx Hne Henc. unfold encode_batch.
  destruct target_x as [|x target_x]; [contradiction|].
  cbn [tokenize].
  destruct (pad_sequences_total
              (map (tokenize_sentence (token2idx (embedding self)))
                   (x :: target_x)) _ Hm)
    as [padded Hpad].
  rewrite Hpad.
  destruct (encode_targets_total self target_y Hne Henc)
    as [rows [self' Hrows]].
  rewrite Hrows. eauto.
Qed.

End EncodeFacts.

Section GeneratorFacts.

Context {emb : BaseEmbedding} {backend : KerasBackend} {pyrandom : PyRandom}.

Variables (x_data : list (list string)) (y_data : list target).
Variables (batch_size : Z) (is_bert : bool).


Lemma run_page_inv (g : generator) (self : ClassificationModel)
  (passes : nat) (page : Z) (rest : list Z) (out : gen_outcome)
  (g' : generator) (self' : ClassificationModel) :
  gen_x_data g = x_data -> gen_y_data g = y_data ->
  gen_batch_size g = batch_size -> gen_is_bert g = is_bert ->
  (forall p, In p rest ->
     exists pages, page_list x_data batch_size = Ok pages /\ In p pages) ->
  run_page g self passes page rest = (out, g', self') ->
  gen_keeps x_data y_data batch_size is_bert g'.
Proof.
  intros Hx Hy Hb Hi Hrest. unfold run_page.
  destruct (select_page (gen_x_data g) (gen_y_data g) (gen_batch_size g) page)
    as [tx ty].
  destruct (encode_batch self (gen_is_bert g) tx ty) as [[b|e] self1];
    intros E; inversion E; subst; unfold gen_keeps; simpl;
    repeat split; auto; contradiction.
Qed.

Lemma gen_next_inv (g g' : generator) (self self' : ClassificationModel)
  (out : gen_outcome) :
  gen_keeps x_data y_data batch_size is_bert g ->
  gen_next g self = (out, g', self') ->
  gen_keeps x_data y_data batch_size is_bert g'.
Proof.
  intros Hinv. pose proof Hinv as [Hx [Hy [Hb [Hi Hp]]]]. unfold gen_next.
  destruct (gen_finished g); [intros E; inversion E; subst; assumption|].
  destruct (gen_pending g) as [|page rest] eqn:Hpend.
  - rewrite Hx, Hb.
    destruct (page_list x_data batch_size) as [pages|e] eqn:Hpages.
    + destruct (shuffle (gen_passes g) pages) as [|page rest] eqn:Hsh.
      * intros E; inversion E; subst; assumption.
      * apply run_page_inv; auto.
        intros p Hin. exists pages. split; [exact Hpages|].
        eapply Permutation_in;
          [apply Permutation_sym, (shuffle_perm (gen_passes g) pages)|].
        rewrite Hsh. now right.
    + intros E; inversion E; subst; unfold gen_keeps; simpl.
      repeat split; auto; contradiction.
  - apply run_page_inv; auto. intros p Hin. apply Hp. now right.
Qed.




End GeneratorFacts.

Section GeneratorClaims.

Context {emb : BaseEmbedding} {backend : KerasBackend} {pyrandom : PyRandom}.


(** C4 (amended).  Over a non-empty input array, whenever a page of the
    page list selects an empty slice of the inputs, the generator takes the
    first page (elements 0 to batch_size) of the input and label arrays in
    its place.  That page holds exactly batch_size >= 1 inputs, so the step
    for the empty page is the step for page 0: selecting it never raises,
    and when the targets can be encoded and the sequence length is positive
    it yields a batch of batch_size examples. *)
Theorem empty_page_takes_first_page
  (g : generator) (self : ClassificationModel)
  (passes : nat) (page : Z) (rest pages : list Z) :
  gen_x_data g <> [] ->
  page_list (gen_x_data g) (gen_batch_size g) = Ok pages ->
  In page pages ->
  py_slice (gen_x_data g) (page * gen_batch_size g)
    (page * gen_batch_size g + gen_batch_size g) = [] ->
  select_page (gen_x_data g) (gen_y_data g) (gen_batch_size g) page
  = (py_slice (gen_x_data g) 0 (gen_batch_size g),
     py_slice (gen_y_data g) 0 (gen_batch_size g)) /\
  (1 <= gen_batch_size g)%Z /\
  Z.of_nat (length (py_slice (gen_x_data g) 0 (gen_batch_size g)))
  = gen_batch_size g /\
  run_page g self passes page rest = run_page g self passes 0 rest /\
  (length (gen_y_data g) = length (gen_x_data g) ->
   encodable self (gen_y_data g) -> 0 < sequence_length (embedding self) ->
   exists b self',
     run_page g self passes page rest
     = (Yield b, gen_advance g passes rest false, self') /\
     Z.of_nat (batch_examples b) = gen_batch_size g).
Proof.
  intros Hne Hpages Hin Hempty.
  pose proof (page_list_positive _ _ _ _ Hne Hpages Hin) as Hpos.
  destruct (page_list_pages _ _ _ _ Hpages Hin) as [_ Hrange].
  destruct (empty_page_is_trailing (gen_x_data g) (gen_batch_size g) Hpos
              page Hne Hrange Hempty) as [_ [_ [Hle Hfirst]]].
  assert (Hsel : select_page (gen_x_data g) (gen_y_data g)
                   (gen_batch_size g) page
                 = (py_slice (gen_x_data g) 0 (gen_batch_size g),
                    py_slice (gen_y_data g) 0 (gen_batch_size g))).
  { unfold select_page. now rewrite Hempty. }
  assert (Hsel0 : select_page (gen_x_data g) (gen_y_data g)
                    (gen_batch_size g) 0
                  = (py_slice (gen_x_data g) 0 (gen_batch_size g),
                     py_slice (gen_y_data g) 0 (gen_batch_size g))).
  { unfold select_page. simpl.
    destruct (length (py_slice (gen_x_data g) 0 (gen_batch_size g)) =? 0);
      reflexivity. }
  split; [assumption|]. split; [assumption|]. split; [assumption|].
  split.
  { unfold run_page. now rewrite Hsel, Hsel0. }
  intros Hlen Henc Hm. unfold run_page. rewrite Hsel.
  destruct (encode_batch_total self (gen_is_bert g)
              (py_slice (gen_x_data g) 0 (gen_batch_size g))
              (py_slice (gen_y_data g) 0 (gen_batch_size g)) Hm)
    as [b [self' Hb]].
  - intros Hnil. rewrite Hnil in Hfirst. simpl in Hfirst. lia.
  - intros Hnil.
    assert (Hl : length (py_slice (gen_y_data g) 0 (gen_batch_size g))
                 = length (py_slice (gen_x_data g) 0 (gen_batch_size g)))
      by (rewrite !py_slice_length, Hlen; reflexivity).
    rewrite Hnil in Hl. simpl in Hl. lia.
  - unfold encodable in *. destruct (multi_label self).
    + destruct Henc as [bz [Hbz Hall]]. exists bz. split; [assumption|].
      intros t l Ht. apply Hall. now apply In_py_slice in Ht.
    + intros t Ht. apply Henc. now apply In_py_slice in Ht.
  - rewrite Hb. exists b, self'. split; [reflexivity|].
    apply encode_batch_shape in Hb. destruct Hb as [Hex _]. now rewrite Hex.
Qed.

End GeneratorClaims.

(* ================================================================== *)
(** * Training *)
(* ================================================================== *)

Section FitFacts.

Context {emb : BaseEmbedding} {backend : KerasBackend} {pyset : PySet}.

Variable build_model : ClassificationModel -> result keras_model.

Lemma insert_nat_length (a : nat) (l : list nat) :
  length (insert_nat a l) = S (length l).
Proof.
  induction l as [|b l IH]; simpl; [reflexivity|].
  destruct (a <=? b); simpl; [reflexivity | now rewrite IH].
Qed.

Lemma sorted_length (l : list nat) : length (sorted l) = length l.
Proof.
  induction l as [|a l IH]; simpl; [reflexivity|].
  now rewrite insert_nat_length, IH.
Qed.

Lemma int_095_lt (n : nat) : 0 < n -> int_095 n < n.
Proof.
  intros Hn. unfold int_095. apply Nat.Div0.div_lt_upper_bound. lia.
Qed.

(** Over a non-empty training set the percentile index hits an element. *)
Lemma percentile_length_defined (x_train : list (list string)) :
  x_train <> [] ->
  exists n,
    nth_error (sorted (map (@length string) x_train))
              (int_095 (length x_train)) = Some n /\
    percentile_length x_train = Ok n.
Proof.
  intros Hne. unfold percentile_length, py_getitem.
  destruct (nth_error (sorted (map (@length string) x_train))
              (int_095 (length x_train))) as [n|] eqn:E; [eauto|].
  exfalso. apply nth_error_None in E.
  rewrite sorted_length, length_map in E.
  assert (0 < length x_train) by (destruct x_train; [contradiction|simpl; lia]).
  pose proof (int_095_lt _ H). lia.
Qed.

(** The dictionary step never touches the sequence length or the network,
    whether it succeeds or raises. *)
Lemma build_dict_frame (self : ClassificationModel)
  (x_train : list (list string)) (y_train : list target)
  (x_validate : option (list (list string)))
  (y_validate : option (list target)) :
  let self1 := snd (build_token2id_label2id_dict self x_train y_train
                      x_validate y_validate) in
  sequence_length (embedding self1) = sequence_length (embedding self) /\
  model self1 = model self.
Proof.
  unfold build_token2id_label2id_dict.
  destruct (if truthy x_validate
            then match x_validate, y_validate with
                 | Some xv, Some yv => Ok (x_train ++ xv, y_train ++ yv)
                 | _, _ => Raise TypeError
                 end
            else Ok (x_train, y_train)) as [[x_data y_data]|e]; simpl;
    [|split; reflexivity].
  destruct (observed_labels (multi_label self) y_data); simpl;
    split; reflexivity.
Qed.

(** The sequence length after the block under [if not self.model:]. *)
Lemma build_if_needed_length (x_train : list (list string))
  (self : ClassificationModel) :
  sequence_length (embedding (snd (build_if_needed build_model x_train self)))
  = match model self with
    | Some _ => sequence_length (embedding self)
    | None =>
        if sequence_length (embedding self) =? 0
        then match percentile_length x_train with
             | Ok n => n
             | Raise _ => sequence_length (embedding self)
             end
        else sequence_length (embedding self)
    end.
Proof.
  unfold build_if_needed, and_then, get_self, ret, lift, assign.
  destruct (model self); [reflexivity|].
  destruct (sequence_length (embedding self) =? 0).
  - destruct (percentile_length x_train) as [n|e]; simpl; [|reflexivity].
    destruct (build_model (with_sequence_length self n)); reflexivity.
  - simpl. destruct (build_model self); reflexivity.
Qed.

(** [fit] once the assertion and the dictionary step are passed. *)
Lemma fit_run (a : fit_args) (self self1 : ClassificationModel) :
  length (x_train a) = length (y_train a) ->
  build_token2id_label2id_dict self (x_train a) (y_train a)
    (x_validate a) (y_validate a) = (Ok tt, self1) ->
  fit build_model a self
  = match build_if_needed build_model (x_train a) self1 with
    | (Ok _, self2) =>
        (start_training a
           (effective_batch_size (x_train a) (batch_size a)) self2, self2)
    | (Raise e, self2) => (Raise e, self2)
    end.
Proof.
  intros Hlen Hbuild. unfold fit, and_then, lift, get_self.
  apply Nat.eqb_eq in Hlen. rewrite Hlen, Hbuild.
  destruct (build_if_needed build_model (x_train a) self1) as [[u|e] self2];
    reflexivity.
Qed.

(** The state [fit] leaves behind, as far as the sequence length goes. *)
Lemma fit_sequence_length (a : fit_args) (self : ClassificationModel) :
  sequence_length (embedding (snd (fit build_model a self)))
  = if length (x_train a) =? length (y_train a)
    then match build_token2id_label2id_dict self (x_train a) (y_train a)
                 (x_validate a) (y_validate a) with
         | (Ok _, self1) =>
             sequence_length
               (embedding (snd (build_if_needed build_model (x_train a) self1)))
         | (Raise _, _) => sequence_length (embedding self)
         end
    else sequence_length (embedding self).
Proof.
  pose proof (build_dict_frame self (x_train a) (y_train a)
                (x_validate a) (y_validate a)) as [Hs _].
  unfold fit, and_then, lift, get_self.
  destruct (length (x_train a) =? length (y_train a)); [|reflexivity].
  destruct (build_token2id_label2id_dict self (x_train a) (y_train a)
              (x_validate a) (y_validate a)) as [[u|e] self1];
    simpl in *; [|assumption].
  destruct (build_if_needed build_model (x_train a) self1) as [[u'|e] self2];
    reflexivity.
Qed.

End FitFacts.

Section FitClaims.

Context {emb : BaseEmbedding} {backend : KerasBackend} {pyset : PySet}.

Variable build_model : ClassificationModel -> result keras_model.

Lemma fit_Ok_inv (a : fit_args) (self self' : ClassificationModel)
  (call : fit_generator_call) :
  fit build_model a self = (Ok call, self') ->
  start_training a (effective_batch_size (x_train a) (batch_size a)) self'
  = Ok call.
Proof.
  unfold fit, and_then, lift, get_self.
  destruct (length (x_train a) =? length (y_train a)); [|discriminate].
  destruct (build_token2id_label2id_dict self (x_train a) (y_train a)
              (x_validate a) (y_validate a)) as [[u|e] self1];
    [|discriminate].
  destruct (build_if_needed build_model (x_train a) self1) as [[u'|e] self2];
    [|discriminate].
  intros E; inversion E; subst. reflexivity.
Qed.

Lemma start_training_inv (a : fit_args) (bs : Z) (self : ClassificationModel)
  (call : fit_generator_call) :
  start_training a bs self = Ok call ->
  train_generator call
  = get_data_generator (x_train a) (y_train a) bs (is_bert (embedding self)) /\
  py_floordiv (Z.of_nat (length (x_train a))) bs = Ok (steps_per_epoch call) /\
  (forall vg, validation_data call = Some vg ->
     gen_batch_size vg = bs /\ gen_pending vg = [] /\ gen_passes vg = 0).
Proof.
  unfold start_training. intros E.
  apply bind_Ok_inv in E. destruct E as [validation [Hv E]].
  apply bind_Ok_inv in E. destruct E as [cw [_ E]].
  apply bind_Ok_inv in E. destruct E as [steps [Hs E]].
  inversion E; subst; simpl. split; [reflexivity|]. split; [assumption|].
  intros vg Hvg.
  destruct (truthy (x_validate a)).
  - destruct (x_validate a) as [xv|]; [|discriminate].
    destruct (y_validate a) as [yv|]; [|discriminate].
    apply bind_Ok_inv in Hv. destruct Hv as [q [_ Hv]].
    inversion Hv; subst; simpl in Hvg. inversion Hvg; subst. simpl. auto.
  - inversion Hv; subst. discriminate.
Qed.

(** C3.  When the requested batch size exceeds the number of training
    examples, [fit] replaces it by [len(x_train) // 2] before it makes the
    generators and computes [steps_per_epoch]: the training generator, the
    validation generator and [steps_per_epoch] of the [fit_generator] call all
    use the halved value.  With 10 examples and a batch size of 64 it is 5.
    With at least two examples, well-formed targets, no class weighting and
    a [build_model] that succeeds, the call is reached. *)
Theorem fit_halves_oversized_batch (a : fit_args) (self : ClassificationModel) :
  (Z.of_nat (length (x_train a)) < batch_size a)%Z ->
  effective_batch_size (x_train a) (batch_size a)
  = (Z.of_nat (length (x_train a)) / 2)%Z /\
  (forall call self',
     fit build_model a self = (Ok call, self') ->
     train_generator call
     = get_data_generator (x_train a) (y_train a)
         (Z.of_nat (length (x_train a)) / 2) (is_bert (embedding self')) /\
     steps_per_epoch call
     = (Z.of_nat (length (x_train a))
        / (Z.of_nat (length (x_train a)) / 2))%Z /\
     (forall vg, validation_data call = Some vg ->
        gen_batch_size vg = (Z.of_nat (length (x_train a)) / 2)%Z)) /\
  (length (x_train a) = 10 -> batch_size a = 64%Z ->
   effective_batch_size (x_train a) (batch_size a) = 5%Z) /\
  (length (x_train a) = length (y_train a) ->
   (truthy (x_validate a) = true -> y_validate a <> None) ->
   (exists seen,
      observed_labels (multi_label self)
        (fit_targets (y_train a) (x_validate a) (y_validate a)) = Ok seen) ->
   2 <= length (x_train a) ->
   class_weight a = false ->
   (forall s, exists m, build_model s = Ok m) ->
   exists call self', fit build_model a self = (Ok call, self')).
Proof.
  intros Hbig.
  assert (Heff : effective_batch_size (x_train a) (batch_size a)
                 = (Z.of_nat (length (x_train a)) / 2)%Z).
  { unfold effective_batch_size. apply Z.ltb_lt in Hbig. now rewrite Hbig. }
  split; [assumption|]. split; [|split].
  - intros call self' Hfit. apply fit_Ok_inv in Hfit. rewrite Heff in Hfit.
    apply start_training_inv in Hfit. destruct Hfit as [Hg [Hs Hv]].
    split; [assumption|]. split.
    + unfold py_floordiv in Hs.
      destruct (Z.of_nat (length (x_train a)) / 2 =? 0)%Z; [discriminate|].
      now inversion Hs.
    + intros vg Hvg. now apply Hv.
  - intros H10 H64. rewrite Heff, H10. reflexivity.
  - intros Hlen Hy [seen Hseen] H2 Hcw Hbm.
    destruct (build_dict_run self (x_train a) (y_train a) (x_validate a)
                (y_validate a) seen Hy Hseen) as [self1 [Hrun _]].
    rewrite (fit_run build_model a self self1 Hlen Hrun), Heff.
    assert (Hne : x_train a <> []).
    { intros E. rewrite E in H2. simpl in H2. lia. }
    assert (Hhalf : (1 <= Z.of_nat (length (x_train a)) / 2)%Z).
    { apply Z.div_le_lower_bound; lia. }
    assert (Hst : forall s, exists call,
              start_training a (Z.of_nat (length (x_train a)) / 2) s
              = Ok call).
    { intros s. unfold start_training, py_floordiv. rewrite Hcw.
      destruct (Z.eqb_spec (Z.of_nat (length (x_train a)) / 2) 0);
        [lia|].
      destruct (truthy (x_validate a)) eqn:T.
      - destruct (x_validate a) as [xv|]; [|discriminate].
        destruct (y_validate a) as [yv|]; [|exfalso; now apply Hy].
        simpl. eauto.
      - simpl. eauto. }
    unfold build_if_needed, and_then, get_self, ret, lift, assign.
    destruct (model self1).
    + destruct (Hst self1) as [call Hcall]. rewrite Hcall. eauto.
    + destruct (percentile_length_defined (x_train a) Hne) as [n [_ Hn]].
      destruct (sequence_length (embedding self1) =? 0).
      * rewrite Hn. simpl.
        destruct (Hbm (with_sequence_length self1 n)) as [m Hm]. rewrite Hm.
        destruct (Hst (with_model (with_sequence_length self1 n) (Some m)))
          as [call Hcall].
        rewrite Hcall. eauto.
      * simpl. destruct (Hbm self1) as [m Hm]. rewrite Hm.
        destruct (Hst (with_model self1 (Some m))) as [call Hcall].
        rewrite Hcall. eauto.
Qed.

(** [int(0.95 * n)], computed in binary64 as Python does, is the floor of
    [19 n / 20] for every count up to 4000. *)
Lemma int_095_binary64_floor (n : nat) :
  n <= 4000 -> int_095_binary64 n = Z.of_nat (19 * n / 20).
Proof.
  intros Hn.
  assert (H : forallb (fun k => (int_095_binary64 k
                                 =? Z.of_nat (19 * k / 20))%Z)
                      (seq 0 4001) = true)
    by (vm_compute; reflexivity).
  rewrite forallb_forall in H. apply Z.eqb_eq, H, in_seq. lia.
Qed.

(** C7.  When [fit] is called on an object without a network and with the
    sequence length unset (0), it sets the sequence length to the
    95th-percentile length of the N training inputs: the element at index
    [int(0.95 * N)], which is the floor of 19 N / 20, of the lengths put in
    ascending order.  When the network is already built or the sequence
    length is already configured, [fit] leaves the sequence length as it
    is.  The first part is for a call that gets there: arrays of equal
    length, targets the dictionary step accepts, at least one training
    input. *)
Theorem fit_infers_sequence_length (a : fit_args) (self : ClassificationModel) :
  (length (x_train a) = length (y_train a) ->
   (truthy (x_validate a) = true -> y_validate a <> None) ->
   (exists seen,
      observed_labels (multi_label self)
        (fit_targets (y_train a) (x_validate a) (y_validate a)) = Ok seen) ->
   x_train a <> [] ->
   model self = None -> sequence_length (embedding self) = 0 ->
   exists lengths n,
     Permutation (map (@length string) (x_train a)) lengths /\
     Sorted le lengths /\
     nth_error lengths (19 * length (x_train a) / 20) = Some n /\
     sequence_length (embedding (snd (fit build_model a self))) = n /\
     nth_error (sorted (map (@length string) (x_train a)))
               (int_095 (length (x_train a))) = Some n) /\
  (forall N, N <= 4000 -> int_095_binary64 N = Z.of_nat (19 * N / 20)) /\
  (model self <> None \/ sequence_length (embedding self) <> 0 ->
   sequence_length (embedding (snd (fit build_model a self)))
   = sequence_length (embedding self)).
Proof.
  split; [|split].
  - intros Hlen Hy [seen Hseen] Hne Hmodel Hzero.
    destruct (build_dict_run self (x_train a) (y_train a) (x_validate a)
                (y_validate a) seen Hy Hseen)
      as [self1 [Hrun [_ [_ [_ [_ [Hm [Hs _]]]]]]]].
    destruct (percentile_length_defined (x_train a) Hne) as [n [Hnth Hn]].
    exists (sorted (map (@length string) (x_train a))), n.
    split; [apply sorted_Permutation|]. split; [apply sorted_Sorted|].
    split; [exact Hnth|]. split; [|exact Hnth].
    rewrite fit_sequence_length, Hrun.
    apply Nat.eqb_eq in Hlen. rewrite Hlen.
    rewrite build_if_needed_length, Hm, Hmodel, Hs, Hzero, Hn. reflexivity.
  - exact int_095_binary64_floor.
  - intros Hset. rewrite fit_sequence_length.
    destruct (length (x_train a) =? length (y_train a)); [|reflexivity].
    pose proof (build_dict_frame self (x_train a) (y_train a)
                  (x_validate a) (y_validate a)) as [Hs Hm].
    destruct (build_token2id_label2id_dict self (x_train a) (y_train a)
                (x_validate a) (y_validate a)) as [[u|e] self1];
      [|reflexivity].
    simpl in Hs, Hm. rewrite build_if_needed_length, Hm, Hs.
    destruct (model self) as [m|]; [reflexivity|].
    destruct Hset as [Hset|Hset]; [congruence|].
    apply Nat.eqb_neq in Hset. now rewrite Hset.
Qed.

End FitClaims.

(* ================================================================== *)
(** * Prediction *)
(* ================================================================== *)

Section ThresholdFacts.

Lemma Qle_bool_false_lt (t r : Q) : Qle_bool t r = false -> Qlt_bool r t = true.
Proof. unfold Qlt_bool. now intros ->. Qed.

(** With a threshold of at most 1 the two assignments give the multi-hot
    row: a one written by the first is not undone by the second. *)
Lemma apply_threshold_multi_hot (t : Q) (res : list (list Q)) :
  Qle t 1 -> apply_threshold t res = map (multi_hot t) res.
Proof.
  intros Ht. unfold apply_threshold, multi_hot. rewrite map_map.
  apply map_ext. intros row. rewrite map_map. apply map_ext. intros r.
  destruct (Qle_bool t r) eqn:E.
  - unfold Qlt_bool. apply Qle_bool_iff in Ht. now rewrite Ht.
  - now rewrite (Qle_bool_false_lt t r E).
Qed.

(** Whatever the threshold, only zeros and ones are left. *)
Lemma apply_threshold_binary (t : Q) (res : list (list Q)) :
  forallb (forallb is_zero_or_one) (apply_threshold t res) = true.
Proof.
  unfold apply_threshold. rewrite map_map.
  apply forallb_forall. intros row Hrow. apply in_map_iff in Hrow.
  destruct Hrow as [row0 [<- _]]. rewrite map_map.
  apply forallb_forall. intros q Hq. apply in_map_iff in Hq.
  destruct Hq as [r [<- _]].
  destruct (Qle_bool t r) eqn:E.
  - destruct (Qlt_bool 1 t); reflexivity.
  - now rewrite (Qle_bool_false_lt t r E).
Qed.

Lemma apply_threshold_shape (t : Q) (res : list (list Q)) (n : nat) :
  (forall row, In row res -> length row = n) ->
  length (apply_threshold t res) = length res /\
  (forall row, In row (apply_threshold t res) -> length row = n).
Proof.
  intros Hw. unfold apply_threshold. rewrite map_map. split.
  - apply length_map.
  - intros row Hrow. apply in_map_iff in Hrow.
    destruct Hrow as [row0 [<- Hin]]. rewrite !length_map. now apply Hw.
Qed.

(** Decoding a multi-hot row picks the classes at or above the threshold. *)
Lemma compress_multi_hot (t : Q) (cls : list string) (row : list Q) :
  compress cls (multi_hot t row) = labels_at_or_above t cls row.
Proof.
  unfold multi_hot, labels_at_or_above.
  revert row; induction cls as [|c cls IH]; intros [|r row]; simpl;
    try reflexivity.
  destruct (Qle_bool t r); simpl; now rewrite IH.
Qed.

Lemma mlb_inverse_transform_binary (b : MultiLabelBinarizer) (t : Q)
  (res : list (list Q)) :
  fitted b = true ->
  (forall row, In row res -> length row = length (classes b)) ->
  mlb_inverse_transform b (apply_threshold t res)
  = Ok (map (compress (classes b)) (apply_threshold t res)).
Proof.
  intros Hf Hw. unfold mlb_inverse_transform. rewrite Hf. simpl.
  rewrite apply_threshold_binary. simpl.
  destruct (apply_threshold_shape t res _ Hw) as [_ Hw'].
  assert (Hall : forallb (fun row => length row =? length (classes b))
                   (apply_threshold t res) = true).
  { apply forallb_forall. intros row Hrow. apply Nat.eqb_eq. now apply Hw'. }
  now rewrite Hall.
Qed.

End ThresholdFacts.

Section MultiLabelClaims.

Context {emb : BaseEmbedding} {backend : KerasBackend}.

(** C6.  For a multi-label model and the default threshold 0.6 (indeed any
    threshold up to 1), [predict] turns each raw score into 1 when it is
    >= the threshold and into 0 when it is below, label by label, and
    decodes the multi-hot rows with the binarizer: every sentence gets the
    tuple of the classes whose score reaches the threshold.  The scores
    [0.7, 0.4, 0.61] over three labels decode to the labels at indices 0
    and 2. *)
Theorem multi_label_threshold_decoding :
  (forall t res, Qle t 1 -> apply_threshold t res = map (multi_hot t) res) /\
  (forall (self : ClassificationModel) ss bs m b padded,
     multi_label self = true ->
     model self = Some m ->
     multi_label_binarizer self = Some b -> fitted b = true ->
     ss <> [] ->
     pad_sequences (map (tokenize_sentence (token2idx (embedding self))) ss)
       (sequence_length (embedding self)) = Ok padded ->
     let x := if is_bert (embedding self)
              then WithSegments padded
                     (zeros (length padded)
                            (sequence_length (embedding self)))
              else Plain padded in
     (forall row, In row (keras_predict m x bs) ->
                  length row = length (classes b)) ->
     predict self (SentenceList ss) bs false (6 # 10)%Q
     = Ok (Many (map (fun row =>
                        PTuple (labels_at_or_above (6 # 10)%Q (classes b) row))
                     (keras_predict m x bs)))) /\
  (forall b l0 l1 l2,
     classes b = [l0; l1; l2] -> fitted b = true ->
     mlb_inverse_transform b
       (apply_threshold (6 # 10)%Q [[(7 # 10)%Q; (4 # 10)%Q; (61 # 100)%Q]])
     = Ok [[l0; l2]]).
Proof.
  split; [exact apply_threshold_multi_hot|]. split.
  - intros self ss bs m b padded Hmulti Hmodel Hb Hfit Hne Hpad x Hw.
    unfold predict. destruct ss as [|s ss]; [contradiction|].
    simpl is_list_input. cbv beta iota.
    unfold bind at 1. rewrite Hpad. unfold bind at 1.
    rewrite Hmodel. unfold bind at 1. rewrite Hmulti. unfold bind at 1.
    rewrite Hb. fold x.
    rewrite (mlb_inverse_transform_binary b (6 # 10)%Q _ Hfit Hw).
    simpl. do 2 f_equal.
    rewrite apply_threshold_multi_hot by (unfold Qle; simpl; lia).
    rewrite !map_map. apply map_ext. intros row.
    now rewrite compress_multi_hot.
  - intros b l0 l1 l2 Hc Hfit.
    unfold mlb_inverse_transform. rewrite Hfit, Hc. reflexivity.
Qed.

End MultiLabelClaims.

Section PredictFacts.

Context {emb : BaseEmbedding} {backend : KerasBackend}.

Lemma argmax_from_lt (row : list Q) (best_i i : nat) (best : Q) :
  best_i < i -> argmax_from best_i best i row < i + length row.
Proof.
  revert best_i i best; induction row as [|q row IH]; simpl;
    intros best_i i best Hlt; [lia|].
  destruct (Qlt_bool best q).
  - specialize (IH i (S i) q). lia.
  - specialize (IH best_i (S i) best). lia.
Qed.

Lemma argmax_defined (row : list Q) :
  row <> [] -> exists i, argmax row = Ok i /\ i < length row.
Proof.
  destruct row as [|q row]; [contradiction|]. intros _. simpl.
  eexists; split; [reflexivity|].
  pose proof (argmax_from_lt row 0 1 q). lia.
Qed.

Lemma insert_by_In {A} (key : A -> Q) (a x : A) (l : list A) :
  In x (insert_by key a l) <-> x = a \/ In x l.
Proof.
  induction l as [|b l IH]; simpl; [intuition congruence|].
  destruct (Qle_bool (key a) (key b)); simpl; [intuition congruence|].
  rewrite IH. intuition congruence.
Qed.

Lemma sorted_by_In {A} (key : A -> Q) (x : A) (l : list A) :
  In x (sorted_by key l) <-> In x l.
Proof.
  induction l as [|a l IH]; simpl; [tauto|].
  unfold sorted_by in *. simpl. rewrite insert_by_In, IH.
  intuition congruence.
Qed.

Lemma insert_by_length {A} (key : A -> Q) (a : A) (l : list A) :
  length (insert_by key a l) = S (length l).
Proof.
  induction l as [|b l IH]; simpl; [reflexivity|].
  destruct (Qle_bool (key a) (key b)); simpl; [reflexivity | now rewrite IH].
Qed.

Lemma sorted_by_length {A} (key : A -> Q) (l : list A) :
  length (sorted_by key l) = length l.
Proof.
  induction l as [|a l IH]; simpl; [reflexivity|].
  unfold sorted_by in *. simpl. now rewrite insert_by_length, IH.
Qed.

Lemma enumerate_In {A} (l : list A) (i : nat) (a : A) :
  In (i, a) (enumerate l) -> i < length l.
Proof.
  unfold enumerate. intros Hin. apply in_combine_l in Hin.
  apply in_seq in Hin. lia.
Qed.

Lemma enumerate_length {A} (l : list A) : length (enumerate l) = length l.
Proof.
  unfold enumerate. rewrite length_combine, length_seq. lia.
Qed.

(** The dictionary of one input is produced as soon as every score has a
    label and there is at least one score. *)
Lemma format_output_dic_total (self : ClassificationModel)
  (words : list string) (res : list Q) :
  res <> [] ->
  (forall i, i < length res -> exists l, dict_get (_idx2label self) i = Some l) ->
  exists d, _format_output_dic self words res = Ok d.
Proof.
  intros Hne Hlab. unfold _format_output_dic.
  set (results := sorted_by (fun x : nat * Q => Qopp (snd x)) (enumerate res)).
  set (fmt := fun result : nat * Q =>
                names <- convert_idx_to_label self (IdxSeq [fst result]) ;;
                name <- match names with
                        | Labels l => py_getitem l 0
                        | Label s => Ok s
                        end ;;
                Ok {| name := name; confidence := snd result |}).
  destruct (mapM_total fmt results) as [candidates Hc].
  { intros [i q] Hin. unfold results in Hin. apply sorted_by_In in Hin.
    apply enumerate_In in Hin. destruct (Hlab i Hin) as [l Hl].
    unfold fmt, convert_idx_to_label, dict_getitem. simpl.
    rewrite Hl. simpl. eauto. }
  fold fmt. rewrite Hc. simpl.
  assert (Hlen : length candidates = length res).
  { apply mapM_length in Hc. rewrite Hc. unfold results.
    now rewrite sorted_by_length, enumerate_length. }
  destruct candidates as [|c cs].
  - destruct res; [contradiction | discriminate].
  - simpl. eauto.
Qed.

(** A batch of one sentence is padded to one row. *)
Lemma pad_one_row (tokens : list Z) (maxlen : nat) (padded : list (list Z)) :
  pad_sequences [tokens] maxlen = Ok padded -> length padded = 1.
Proof.
  intros E. now apply pad_sequences_shape in E.
Qed.

End PredictFacts.

Section PredictShape.

Context {emb : BaseEmbedding} {backend : KerasBackend}.

(** When the list of results has one element, returning it whole and
    returning its first element give the same result in two shapes. *)
Lemma one_result_two_shapes (results : result (list prediction)) :
  (forall rs, results = Ok rs -> length rs = 1) ->
  (rs <- results ;; Ok (Many rs))
  = match (rs <- results ;; r <- py_getitem rs 0 ;; Ok (One r)) with
    | Ok (One r) => Ok (Many [r])
    | Ok (Many rs) => Ok (Many rs)
    | Raise e => Raise e
    end /\
  (forall rs', (rs <- results ;; r <- py_getitem rs 0 ;; Ok (One r))
               <> Ok (Many rs')).
Proof.
  intros Hone. destruct results as [rs|e]; simpl.
  - specialize (Hone rs eq_refl).
    destruct rs as [|r [|r' rs]]; try discriminate. simpl.
    split; [reflexivity | discriminate].
  - split; [reflexivity | discriminate].
Qed.

Lemma predict_one_vs_list (self : ClassificationModel)
  (w : string) (s : list string) (bs : option Z) (od : bool) (t : Q) :
  predict self (SentenceList [w :: s]) bs od t
  = match predict self (OneSentence (w :: s)) bs od t with
    | Ok (One r) => Ok (Many [r])
    | Ok (Many rs) => Ok (Many rs)
    | Raise e => Raise e
    end /\
  (forall rs, predict self (OneSentence (w :: s)) bs od t <> Ok (Many rs)).
Proof.
  unfold predict. cbn [is_list_input map bind].
  destruct (pad_sequences
              [tokenize_sentence (token2idx (embedding self)) (w :: s)]
              (sequence_length (embedding self))) as [padded|e] eqn:Hpad;
    [|split; [reflexivity | discriminate]].
  apply pad_one_row in Hpad.
  destruct (model self) as [m|]; [|split; [reflexivity | discriminate]].
  cbn [bind]. cbv zeta.
  match goal with
  | |- context [keras_predict m ?x bs] => set (res0 := keras_predict m x bs)
  end.
  assert (Hres0 : length res0 = 1).
  { unfold res0. rewrite keras_predict_rows.
    destruct (is_bert (embedding self)); simpl; assumption. }
  clearbody res0.
  set (res := if multi_label self then apply_threshold t res0 else res0).
  assert (Hres : length res = 1).
  { unfold res. destruct (multi_label self); [|assumption].
    unfold apply_threshold. now rewrite !length_map. }
  clearbody res.
  set (pr := if multi_label self then Ok (inl res)
             else am <- mapM argmax res ;; Ok (inr am)).
  assert (Hpr : forall v, pr = Ok v ->
            match v with
            | inl yt => length yt = 1
            | inr am => length am = 1
            end).
  { unfold pr. intros v. destruct (multi_label self).
    - intros E; inversion E; subst. assumption.
    - intros E. apply bind_Ok_inv in E. destruct E as [am [Ham E]].
      inversion E; subst. apply mapM_length in Ham. congruence. }
  destruct pr as [v|e]; cbn [bind]; [|split; [reflexivity | discriminate]].
  specialize (Hpr v eq_refl).
  destruct od.
  - apply one_result_two_shapes. intros rs Hrs.
    apply mapM_length in Hrs. now rewrite Hrs.
  - apply one_result_two_shapes. intros rs Hrs.
    destruct v as [yt|am].
    + destruct (multi_label_binarizer self) as [b|]; [|discriminate].
      apply bind_Ok_inv in Hrs. destruct Hrs as [tuples [Ht E]].
      inversion E; subst. rewrite length_map.
      unfold mlb_inverse_transform in Ht.
      destruct (negb (fitted b)); [discriminate|].
      destruct (negb (forallb (fun row => length row =? length (classes b)) yt));
        [discriminate|].
      destruct (negb (forallb (forallb is_zero_or_one) yt)); [discriminate|].
      inversion Ht; subst. now rewrite length_map.
    + apply bind_Ok_inv in Hrs. destruct Hrs as [ls [Hl E]].
      unfold convert_idx_to_label in Hl. apply bind_Ok_inv in Hl.
      destruct Hl as [l [Hl El]]. inversion El; subst.
      inversion E; subst. rewrite length_map.
      apply mapM_length in Hl. congruence.
Qed.

(** On a trained object every non-empty sentence gets a result. *)
Lemma predict_trained_total (self : ClassificationModel) (n : nat)
  (w : string) (s : list string) (bs : option Z) (od : bool) (t : Q) :
  trained self n ->
  exists p, predict self (OneSentence (w :: s)) bs od t = Ok p.
Proof.
  intros [Hm [Hn [[m [Hmodel Hw]] [Hlab Hmulti]]]].
  unfold predict. cbn [is_list_input map bind].
  destruct (pad_sequences_total
              [tokenize_sentence (token2idx (embedding self)) (w :: s)]
              _ Hm) as [padded Hpad].
  rewrite Hpad. pose proof (pad_one_row _ _ _ Hpad) as Hone.
  rewrite Hmodel. cbn [bind]. cbv zeta.
  match goal with
  | |- context [keras_predict m ?x bs] => set (res0 := keras_predict m x bs)
  end.
  assert (Hres0 : length res0 = 1).
  { unfold res0. rewrite keras_predict_rows.
    destruct (is_bert (embedding self)); simpl; assumption. }
  assert (Hw0 : forall row, In row res0 -> length row = n).
  { intros row. unfold res0. apply Hw. }
  clearbody res0.
  assert (Hdict : forall res, length res = 1 ->
            (forall row, In row res -> length row = n) ->
            exists rs,
              mapM (fun index =>
                      w0 <- py_getitem [w :: s] index ;;
                      r <- py_getitem res index ;;
                      d <- _format_output_dic self w0 r ;; Ok (PDict d))
                   (seq 0 (length [w :: s])) = Ok rs /\ length rs = 1).
  { intros res Hlen Hrows. destruct res as [|row [|row' res]];
      try discriminate.
    destruct (format_output_dic_total self (w :: s) row) as [d Hd].
    - specialize (Hrows row (or_introl eq_refl)).
      destruct row; [simpl in Hrows; lia | discriminate].
    - intros i Hi. apply Hlab.
      rewrite (Hrows row (or_introl eq_refl)) in Hi. assumption.
    - simpl. rewrite Hd. simpl. eauto. }
  destruct (multi_label self) eqn:Hml.
  - destruct (apply_threshold_shape t res0 n Hw0) as [Hlen Hrows].
    cbn [bind]. destruct od.
    + destruct (Hdict (apply_threshold t res0)) as [rs [Hrs Hl]];
        [congruence | assumption |].
      rewrite Hrs. cbn [bind].
      destruct rs as [|r [|r' rs]]; try discriminate. simpl. eauto.
    + destruct (Hmulti eq_refl) as [b [Hb [Hfit Hcls]]]. rewrite Hb.
      rewrite (mlb_inverse_transform_binary b t res0 Hfit)
        by (intros row Hrow; rewrite Hcls; now apply Hw0).
      cbn [bind]. rewrite Hres0 in Hlen.
      destruct (apply_threshold t res0) as [|row [|row' res]];
        try discriminate.
      simpl. eauto.
  - destruct (mapM_total argmax res0) as [am Ham].
    { intros row Hrow. destruct (argmax_defined row) as [i [Hi _]];
        [|eauto].
      specialize (Hw0 row Hrow). destruct row; [simpl in Hw0; lia|].
      discriminate. }
    rewrite Ham. cbn [bind]. destruct od.
    + destruct (Hdict res0 Hres0 Hw0) as [rs [Hrs Hl]].
      rewrite Hrs. cbn [bind].
      destruct rs as [|r [|r' rs]]; try discriminate. simpl. eauto.
    + unfold convert_idx_to_label.
      destruct (mapM_total (dict_getitem (_idx2label self)) am) as [ls Hls].
      { intros i Hi. destruct (mapM_In _ _ _ _ Ham Hi) as [row [Hrow Harg]].
        destruct (argmax_defined row) as [j [Hj Hlt]].
        - specialize (Hw0 row Hrow). destruct row; [simpl in Hw0; lia|].
          discriminate.
        - rewrite Harg in Hj. inversion Hj; subst j.
          rewrite (Hw0 row Hrow) in Hlt.
          destruct (Hlab i Hlt) as [l Hl]. unfold dict_getitem.
          rewrite Hl. eauto. }
      rewrite Hls. cbn [bind].
      assert (Hlen : length ls = 1).
      { apply mapM_length in Hls. apply mapM_length in Ham. congruence. }
      destruct ls as [|l [|l' ls]]; try discriminate. simpl. eauto.
Qed.

End PredictShape.

Section PredictClaims.

Context {emb : BaseEmbedding} {backend : KerasBackend}.

(** C5 (amended).  For every non-empty tokenized sentence s, [predict] on
    the single sentence s returns a scalar result (a label, a label tuple or
    a dictionary) exactly when [predict] on the one-element list [s] returns
    the one-element list holding that result, and the two calls raise the
    same exception otherwise; the single call never returns a list and the
    list call never returns a scalar.  On a trained object both succeed. *)
Theorem predict_scalar_vs_one_element_list (self : ClassificationModel)
  (s : list string) (bs : option Z) (od : bool) (t : Q) :
  s <> [] ->
  (forall r, predict self (OneSentence s) bs od t = Ok (One r) <->
             predict self (SentenceList [s]) bs od t = Ok (Many [r])) /\
  (forall e, predict self (OneSentence s) bs od t = Raise e <->
             predict self (SentenceList [s]) bs od t = Raise e) /\
  (forall rs, predict self (OneSentence s) bs od t <> Ok (Many rs)) /\
  (forall r, predict self (SentenceList [s]) bs od t <> Ok (One r)) /\
  (forall n, trained self n ->
     exists r, predict self (OneSentence s) bs od t = Ok (One r) /\
               predict self (SentenceList [s]) bs od t = Ok (Many [r])).
Proof.
  intros Hne. destruct s as [|w s]; [contradiction|].
  destruct (predict_one_vs_list self w s bs od t) as [Heq Hnot].
  assert (Hcases :
            (exists r, predict self (OneSentence (w :: s)) bs od t = Ok (One r) /\
                       predict self (SentenceList [w :: s]) bs od t
                       = Ok (Many [r])) \/
            (exists e, predict self (OneSentence (w :: s)) bs od t = Raise e /\
                       predict self (SentenceList [w :: s]) bs od t = Raise e)).
  { destruct (predict self (OneSentence (w :: s)) bs od t) as [[r|rs]|e].
    - left; eauto.
    - exfalso. now apply (Hnot rs).
    - right; eauto. }
  split; [|split; [|split; [|split]]].
  - intros r. destruct Hcases as [[r0 [H1 H2]]|[e [H1 H2]]];
      rewrite H1, H2; split; intros E; inversion E; reflexivity.
  - intros e. destruct Hcases as [[r0 [H1 H2]]|[e0 [H1 H2]]];
      rewrite H1, H2; split; intros E; inversion E; reflexivity.
  - assumption.
  - intros r. destruct Hcases as [[r0 [H1 H2]]|[e [H1 H2]]];
      rewrite H2; discriminate.
  - intros n Htr.
    destruct (predict_trained_total self n w s bs od t Htr) as [p Hp].
    destruct Hcases as [[r0 [H1 H2]]|[e [H1 H2]]].
    + exists r0. split; assumption.
    + rewrite H1 in Hp. discriminate.
Qed.

End PredictClaims.

(* ================================================================== *)
(** * The CNN data loader *)
(* ================================================================== *)

Section LoaderClaims.

Context {tools : TextTools}.

(** C10.  [load_data_and_label] returns a label array as long as twice the
    number of lines of the negative file: as many ones as the negative file
    has lines, then as many zeros; the texts it returns are the positive and
    the negative lines, one text per line.  So texts and labels differ in
    length whenever the two files differ in their number of lines. *)
Theorem load_data_label_lengths (pos_lines neg_lines : list string) :
  let x_text := fst (load_data_and_label pos_lines neg_lines) in
  let y := snd (load_data_and_label pos_lines neg_lines) in
  y = repeat 1%Z (length neg_lines) ++ repeat 0%Z (length neg_lines) /\
  length y = 2 * length neg_lines /\
  length x_text = length pos_lines + length neg_lines /\
  (length pos_lines <> length neg_lines -> length x_text <> length y).
Proof.
  unfold load_data_and_label. simpl.
  assert (Hrep : forall (z : Z) (l : list string),
            map (fun _ => z) l = repeat z (length l)).
  { intros z l. induction l as [|a l IH]; simpl; [reflexivity|].
    now rewrite IH. }
  rewrite !Hrep, !length_app, !repeat_length, !length_map.
  repeat split; lia.
Qed.

End LoaderClaims.

(* ================================================================== *)
(** * Concrete runs *)
(* ================================================================== *)

Module Runs.

Import Samples.

Open Scope string_scope.

Lemma trained_sample_encodable : encodable trained_sample four_y.
Proof.
  unfold encodable. simpl.
  intros t [<-|[<-|[<-|[<-|[]]]]]; eexists; eexists;
    (split; [reflexivity | split; [reflexivity | simpl; lia]]).
Qed.

Lemma trained_sample_trained : trained trained_sample 3.
Proof.
  unfold trained. simpl. split; [lia|]. split; [lia|]. split; [|split].
  - exists tt. split; [reflexivity|].
    intros x bs row Hrow. apply in_map_iff in Hrow.
    destruct Hrow as [_ [<- _]]. reflexivity.
  - intros [|[|[|i]]] Hi; try lia; eexists; reflexivity.
  - intros H. discriminate H.
Qed.





Lemma fit_halves_oversized_batch_witness :
  effective_batch_size ten_x 64 = 5%Z /\
  exists call self',
    fit sample_build_model (sample_args ten_x ten_y 64) (untrained false)
      = (Ok call, self') /\
    gen_batch_size (train_generator call) = 5%Z /\
    steps_per_epoch call = 2%Z.
Proof.
  destruct (fit_halves_oversized_batch sample_build_model
              (sample_args ten_x ten_y 64) (untrained false)
              ltac:(simpl; lia)) as [Heff [Hcall [_ Hrun]]].
  split; [exact Heff|].
  destruct Hrun as [call [self' Hfit]].
  - reflexivity.
  - intros H. discriminate H.
  - exists (repeat "pos" 10). reflexivity.
  - simpl. lia.
  - reflexivity.
  - intros s. exists tt. reflexivity.
  - exists call, self'. split; [exact Hfit|].
    destruct (Hcall call self' Hfit) as [Hg [Hs _]].
    rewrite Hg, Hs. split; reflexivity.
Defined.

(** No inputs at all: page 0 selects an empty slice and the first page
    that replaces it is empty too; [tokenize] looks at [sentence[0]] of the
    empty list, so the first [next] raises [IndexError] instead of
    yielding. *)
Lemma empty_data_raises_IndexError :
  let g := get_data_generator [] [] 1 false in
  page_list (gen_x_data g) (gen_batch_size g) = Ok [0%Z] /\
  py_slice (gen_x_data g) (0 * 1) (0 * 1 + 1) = [] /\
  select_page (gen_x_data g) (gen_y_data g) (gen_batch_size g) 0 = ([], []) /\
  gen_take 2 g trained_sample = [Raised IndexError; Raised StopIteration].
Proof.
  repeat split.
Qed.

Lemma empty_page_takes_first_page_witness :
  let g := get_data_generator four_x four_y 2 false in
  select_page four_x four_y 2 2 = (py_slice four_x 0 2, py_slice four_y 0 2) /\
  Z.of_nat (length (py_slice four_x 0 2)) = 2%Z /\
  run_page g trained_sample 1 2 [] = run_page g trained_sample 1 0 [] /\
  exists b self',
    run_page g trained_sample 1 2 []
    = (Yield b, gen_advance g 1 [] false, self') /\
    Z.of_nat (batch_examples b) = 2%Z.
Proof.
  destruct (empty_page_takes_first_page
              (get_data_generator four_x four_y 2 false) trained_sample
              1 2%Z [] [0; 1; 2]%Z)
    as [Hsel [_ [Hlen [Hrun Hyield]]]].
  - intros H. discriminate H.
  - reflexivity.
  - simpl. auto.
  - reflexivity.
  - split; [exact Hsel|]. split; [exact Hlen|]. split; [exact Hrun|].
    apply Hyield.
    + reflexivity.
    + exact trained_sample_encodable.
    + simpl. lia.
Defined.

(** The empty sentence: as a single sentence it raises, inside a list it
    is classified. *)
Lemma empty_sentence_raises :
  predict trained_sample (OneSentence []) None false (6 # 10)%Q
    = Raise IndexError /\
  predict trained_sample (SentenceList [[]]) None false (6 # 10)%Q
    = Ok (Many [PLabel "pos"]).
Proof. split; reflexivity. Qed.

Lemma predict_scalar_vs_one_element_list_witness :
  exists r,
    predict trained_sample (OneSentence ["fine"]) None true (6 # 10)%Q
      = Ok (One r) /\
    predict trained_sample (SentenceList [["fine"]]) None true (6 # 10)%Q
      = Ok (Many [r]).
Proof.
  destruct (predict_scalar_vs_one_element_list trained_sample ["fine"]
              None true (6 # 10)%Q) as [_ [_ [_ [_ Htrained]]]].
  - intros H. discriminate H.
  - exact (Htrained 3 trained_sample_trained).
Defined.

Lemma multi_label_threshold_decoding_witness :
  predict trained_multi_sample (SentenceList [["fine"]]) None false (6 # 10)%Q
  = Ok (Many [PTuple ["plot"; "music"]]).
Proof.
  apply (proj1 (proj2 multi_label_threshold_decoding)
           trained_multi_sample [["fine"]] None tt
           {| classes := ["plot"; "cast"; "music"]; fitted := true |}
           [[4%Z; 0%Z; 0%Z]]).
  - reflexivity.
  - reflexivity.
  - reflexivity.
  - reflexivity.
  - intros H. discriminate H.
  - reflexivity.
  - intros row Hrow. simpl in Hrow. destruct Hrow as [<-|[]]. reflexivity.
Defined.

Lemma fit_infers_sequence_length_witness :
  exists lengths,
    Permutation [2; 1; 3] lengths /\ Sorted le lengths /\
    nth_error lengths 2 = Some 3 /\
    sequence_length
      (embedding (snd (fit sample_build_model (sample_args sample_x sample_y 2)
                         (untrained false)))) = 3.
Proof.
  destruct (proj1 (fit_infers_sequence_length sample_build_model
                     (sample_args sample_x sample_y 2) (untrained false)))
    as [lengths [n [Hperm [Hsorted [Hnth [Hlen _]]]]]].
  - reflexivity.
  - intros H. discriminate H.
  - exists ["pos"; "neg"; "neutral"]. reflexivity.
  - intros H. discriminate H.
  - reflexivity.
  - reflexivity.
  - vm_compute in Hlen. subst n.
    exists lengths. split; [exact Hperm|]. split; [exact Hsorted|].
    split; [exact Hnth | reflexivity].
Defined.

Lemma label_to_idx_round_trip_witness :
  (exists self',
     build_token2id_label2id_dict (untrained false) sample_x sample_y None None
       = (Ok tt, self') /\
     forall l, In l ["pos"; "neg"; "neutral"] ->
       exists i, convert_label_to_idx self' (LabelStr l) = Ok (Idx i) /\
                 convert_idx_to_label self' (IdxInt i) = Ok (Label l)) /\
  (let self := set_label2idx (untrained false) [("pos", 0); ("neg", 1)] in
   convert_label_to_idx self (LabelStr "neg") = Ok (Idx 1) /\
   convert_idx_to_label self (IdxInt 1) = Ok (Label "neg")).
Proof.
  destruct (label_to_idx_round_trip (untrained false) sample_x sample_y
              None None ["pos"; "neg"; "neutral"])
    as [self' [Hrun [Hone [_ [Hset _]]]]].
  - intros H. discriminate H.
  - reflexivity.
  - split.
    + exists self'. split; [exact Hrun | exact Hone].
    + apply (Hset [("pos", 0); ("neg", 1)] "neg" 1).
      * simpl. repeat constructor; simpl; intuition discriminate.
      * simpl. repeat constructor; simpl; intuition discriminate.
      * simpl. auto.
Defined.

Lemma unseen_label_raises_KeyError_witness :
  convert_label_to_idx trained_sample (LabelStr "mixed") = Raise KeyError /\
  convert_idx_to_label trained_sample (IdxInt 3) = Raise KeyError.
Proof.
  destruct (unseen_label_raises_KeyError trained_sample) as [Hl [Hi _]].
  split.
  - apply Hl. vm_compute. intros [H|[H|[H|[]]]]; discriminate H.
  - apply Hi. vm_compute. intros [H|[H|[H|[]]]]; discriminate H.
Defined.

Lemma load_data_label_lengths_witness :
  let pos_lines := ["good film"; "fine"; "great"] in
  let neg_lines := ["bad"] in
  length (fst (load_data_and_label pos_lines neg_lines)) = 4 /\
  length (snd (load_data_and_label pos_lines neg_lines)) = 2 /\
  length (fst (load_data_and_label pos_lines neg_lines))
  <> length (snd (load_data_and_label pos_lines neg_lines)).
Proof.
  destruct (load_data_label_lengths ["good film"; "fine"; "great"] ["bad"])
    as [_ [Hy [Hx Hneq]]].
  split; [exact Hx|]. split; [exact Hy|].
  apply Hneq. simpl. lia.
Defined.

(** The integer formula for [int(0.95 * n)] agrees with the binary64
    computation on every count up to 4000. *)
Example int_095_agrees_with_binary64 :
  forallb (fun n => (int_095_binary64 n =? Z.of_nat (int_095 n))%Z)
          (seq 0 4001) = true.
Proof. vm_compute. reflexivity. Qed.

End Runs.

(* ================================================================== *)
(** * Further properties: the label index *)
(* ================================================================== *)

Section LabelIndexMore.

Context {emb : BaseEmbedding} {backend : KerasBackend} {pyset : PySet}.

Lemma combine_seq_In {A} (l : list A) (k i : nat) (a : A) :
  nth_error l i = Some a -> In (k + i, a) (combine (seq k (length l)) l).
Proof.
  revert k i; induction l as [|b l IH]; intros k [|i]; simpl;
    try discriminate.
  - intros E; inversion E; subst. left. f_equal. lia.
  - intros E. right. replace (k + S i) with (S k + i) by lia. now apply IH.
Qed.

(** The two dictionaries the dictionary step stores, spelled out. *)
Lemma built_dicts (ls : list string) :
  NoDup ls ->
  index_labels ls = combine ls (seq 0 (length ls)) /\
  inverse_dict (index_labels ls) = combine (seq 0 (length ls)) ls.
Proof.
  intros ND. split; [now apply index_labels_combine|].
  unfold inverse_dict, dict_items.
  rewrite index_labels_combine by assumption.
  rewrite map_swap_combine. apply dict_of_pairs_NoDup.
  rewrite map_fst_combine by (now rewrite length_seq). apply seq_NoDup.
Qed.

Lemma built_dicts_at (ls : list string) (i : nat) (l : string) :
  NoDup ls -> nth_error ls i = Some l ->
  dict_get (index_labels ls) l = Some i /\
  dict_get (inverse_dict (index_labels ls)) i = Some l.
Proof.
  intros ND Hnth. destruct (built_dicts ls ND) as [-> ->].
  pose proof (combine_seq_In ls 0 i l Hnth) as Hin. simpl in Hin.
  split.
  - apply In_dict_get.
    + unfold dict_keys. rewrite map_fst_combine by (now rewrite length_seq).
      assumption.
    + rewrite <- (map_swap_combine (seq 0 (length ls)) ls).
      change (l, i) with ((fun p : nat * string => (snd p, fst p)) (i, l)).
      now apply in_map.
  - apply In_dict_get; [|assumption].
    unfold dict_keys. rewrite map_fst_combine by (now rewrite length_seq).
    apply seq_NoDup.
Qed.


(** X2.  A multi-label object given plain strings as targets indexes their
    characters: every key of the label index is a one-character string, and
    each character of each target string is a key. *)
Theorem multi_label_strings_index_characters (self : ClassificationModel)
  (x_train : list (list string)) (y_train : list target)
  (x_validate : option (list (list string)))
  (y_validate : option (list target)) :
  multi_label self = true ->
  (truthy x_validate = true -> y_validate <> None) ->
  (forall t, In t (fit_targets y_train x_validate y_validate) ->
             exists s, t = TStr s) ->
  exists self',
    build_token2id_label2id_dict self x_train y_train x_validate y_validate
      = (Ok tt, self') /\
    (forall l, In l (dict_keys (label2idx self')) ->
       exists c, l = String c EmptyString) /\
    (forall s c, In (TStr s) (fit_targets y_train x_validate y_validate) ->
       In c (list_ascii_of_string s) ->
       exists i, dict_get (label2idx self') (String c EmptyString) = Some i).
Proof.
  intros Hmulti Hy Hstr.
  set (y_data := fit_targets y_train x_validate y_validate) in *.
  assert (Hseen : observed_labels (multi_label self) y_data
                  = Ok (concat (map labels_of_target y_data))).
  { unfold observed_labels. now rewrite Hmulti. }
  destruct (build_dict_run self x_train y_train x_validate y_validate _
              Hy Hseen) as [self' [Hrun [Hl _]]].
  exists self'. split; [assumption|].
  pose proof (set_iter_NoDup (concat (map labels_of_target y_data))) as ND.
  unfold label2idx. rewrite Hl, (index_labels_keys _ ND).
  assert (Hchars : forall l, In l (concat (map labels_of_target y_data)) <->
            exists s c, In (TStr s) y_data /\
                        In c (list_ascii_of_string s) /\
                        l = String c EmptyString).
  { intros l. rewrite in_concat. split.
    - intros [ls [Hls Hin]]. apply in_map_iff in Hls.
      destruct Hls as [t [<- Ht]]. destruct (Hstr t Ht) as [s ->].
      simpl in Hin. unfold list_of_str in Hin. apply in_map_iff in Hin.
      destruct Hin as [c [<- Hc]]. eauto.
    - intros [s [c [Hs [Hc ->]]]]. exists (list_of_str s). split.
      + change (list_of_str s) with (labels_of_target (TStr s)).
        now apply in_map.
      + unfold list_of_str. apply in_map_iff. exists c. auto. }
  split.
  - intros l Hin. apply (proj1 (set_iter_In _ _)) in Hin.
    apply (proj1 (Hchars _)) in Hin.
    destruct Hin as [s [c [_ [_ ->]]]]. eauto.
  - intros s c Hs Hc. apply dict_get_Some_iff.
    rewrite (index_labels_keys _ ND). apply set_iter_In. apply Hchars. eauto.
Qed.

End LabelIndexMore.

(* ================================================================== *)
(** * Further properties: prediction *)
(* ================================================================== *)

Section ArgmaxFacts.

Lemma Qlt_bool_true (a b : Q) : Qlt_bool a b = true <-> Qlt a b.
Proof.
  unfold Qlt_bool. split.
  - intros E. apply negb_true_iff in E.
    destruct (Qlt_le_dec a b) as [?|Hle]; [assumption|].
    apply Qle_bool_iff in Hle. congruence.
  - intros Hlt. apply negb_true_iff.
    destruct (Qle_bool b a) eqn:E; [|reflexivity].
    apply Qle_bool_iff in E. exfalso. now apply (Qlt_not_le a b).
Qed.

Lemma Qlt_bool_false (a b : Q) : Qlt_bool a b = false <-> Qle b a.
Proof.
  unfold Qlt_bool. rewrite negb_false_iff. apply Qle_bool_iff.
Qed.

Lemma argmax_from_spec (pre row : list Q) (best_i : nat) (best : Q) :
  nth_error pre best_i = Some best ->
  (forall j q, nth_error pre j = Some q -> Qle q best) ->
  (forall j q, j < best_i -> nth_error pre j = Some q -> Qlt q best) ->
  exists q,
    first_maximum (pre ++ row) (argmax_from best_i best (length pre) row) q.
Proof.
  revert pre best_i best.
  induction row as [|r row IH]; intros pre best_i best Hbest Hall Hbefore.
  - simpl. rewrite app_nil_r. exists best. repeat split; assumption.
  - simpl.
    assert (Hlt_pre : best_i < length pre)
      by (apply nth_error_Some; congruence).
    replace (pre ++ r :: row) with ((pre ++ [r]) ++ row)
      by (rewrite <- app_assoc; reflexivity).
    replace (S (length pre)) with (length (pre ++ [r]))
      by (rewrite length_app; simpl; lia).
    assert (Hsplit : forall j q, nth_error (pre ++ [r]) j = Some q ->
              nth_error pre j = Some q \/ (j = length pre /\ q = r)).
    { intros j q Hj. destruct (Nat.lt_ge_cases j (length pre)) as [Hlt|Hge].
      - left. now rewrite nth_error_app1 in Hj.
      - right. rewrite nth_error_app2 in Hj by assumption.
        destruct (j - length pre) as [|k] eqn:Ek; simpl in Hj.
        + inversion Hj. split; [lia | reflexivity].
        + destruct k; discriminate. }
    destruct (Qlt_bool best r) eqn:E.
    + apply Qlt_bool_true in E. apply IH.
      * rewrite nth_error_app2 by lia. now rewrite Nat.sub_diag.
      * intros j q Hj. destruct (Hsplit j q Hj) as [Hp|[_ ->]].
        -- apply Qlt_le_weak. eapply Qle_lt_trans; [now apply (Hall j)|].
           assumption.
        -- apply Qle_refl.
      * intros j q Hlt Hj. destruct (Hsplit j q Hj) as [Hp|[-> _]]; [|lia].
        eapply Qle_lt_trans; [now apply (Hall j)|]. assumption.
    + apply Qlt_bool_false in E. apply IH.
      * now rewrite nth_error_app1.
      * intros j q Hj. destruct (Hsplit j q Hj) as [Hp|[_ ->]];
          [now apply (Hall j) | assumption].
      * intros j q Hlt Hj. destruct (Hsplit j q Hj) as [Hp|[-> _]];
          [now apply (Hbefore j) | lia].
Qed.

(** [argmax] finds the first of the largest scores. *)
Lemma argmax_spec (row : list Q) (idx : nat) :
  argmax row = Ok idx -> exists q, first_maximum row idx q.
Proof.
  destruct row as [|r row]; [discriminate|]. simpl.
  intros E; inversion E; subst; clear E.
  apply (argmax_from_spec [r] row 0 r).
  - reflexivity.
  - intros [|[|j]] q Hj; simpl in Hj; try discriminate.
    inversion Hj. apply Qle_refl.
  - intros j q Hlt. lia.
Qed.

Lemma first_maximum_unique (row : list Q) (i1 i2 : nat) (q1 q2 : Q) :
  first_maximum row i1 q1 -> first_maximum row i2 q2 -> i1 = i2.
Proof.
  intros [H1 [A1 B1]] [H2 [A2 B2]].
  destruct (Nat.lt_trichotomy i1 i2) as [Hlt|[?|Hlt]]; [|assumption|].
  - exfalso. apply (Qlt_not_le q1 q2); [now apply (B2 i1) | now apply (A1 i2)].
  - exfalso. apply (Qlt_not_le q2 q1); [now apply (B1 i2) | now apply (A2 i1)].
Qed.

(** The ranking [_format_output_dic] computes starts with the first of the
    largest scores: the sort is stable and descending. *)
Lemma ranking_head (row : list Q) (k i : nat) (q : Q)
  (rest : list (nat * Q)) :
  sorted_by (fun x : nat * Q => Qopp (snd x)) (combine (seq k (length row)) row)
  = (i, q) :: rest ->
  k <= i /\ first_maximum row (i - k) q.
Proof.
  revert k i q rest. induction row as [|r row IH]; intros k i q rest;
    [discriminate|].
  simpl. unfold sorted_by. simpl.
  fold (sorted_by (fun x : nat * Q => Qopp (snd x))
          (combine (seq (S k) (length row)) row)).
  destruct (sorted_by (fun x : nat * Q => Qopp (snd x))
              (combine (seq (S k) (length row)) row))
    as [|[i' q'] rest'] eqn:Hs.
  - assert (Hrow : row = []).
    { destruct row as [|r' row]; [reflexivity|].
      pose proof (sorted_by_length (fun x : nat * Q => Qopp (snd x))
                    (combine (seq (S k) (length (r' :: row))) (r' :: row)))
        as Hl.
      rewrite Hs in Hl. simpl in Hl. discriminate. }
    simpl. intros E; inversion E; subst.
    split; [lia|]. rewrite Nat.sub_diag. repeat split.
    + intros [|[|j]] q' Hj; simpl in Hj; try discriminate.
      inversion Hj. apply Qle_refl.
    + intros j q' Hlt. lia.
  - destruct (IH (S k) i' q' rest' Hs) as [Hk [Hn [Hall Hbefore]]].
    simpl.
    destruct (Qle_bool (Qopp r) (Qopp q')) eqn:E.
    + intros E'; inversion E'; subst.
      apply Qle_bool_iff in E.
      assert (Hq : Qle q' q) by (unfold Qle, Qopp in *; simpl in *; lia).
      split; [lia|]. rewrite Nat.sub_diag. repeat split.
      * intros [|j] q0 Hj; simpl in Hj.
        -- inversion Hj. apply Qle_refl.
        -- eapply Qle_trans; [now apply (Hall j)|]. assumption.
      * intros j q0 Hlt. lia.
    + intros E'; inversion E'; subst.
      assert (Hq : Qlt r q).
      { destruct (Qlt_le_dec r q) as [?|Hle]; [assumption|].
        assert (Hle' : Qle (Qopp r) (Qopp q))
          by (unfold Qle, Qopp in *; simpl in *; lia).
        apply Qle_bool_iff in Hle'. congruence. }
      split; [lia|].
      replace (i - k) with (S (i - S k)) by lia. repeat split.
      * assumption.
      * intros [|j] q0 Hj; simpl in Hj.
        -- inversion Hj; subst. now apply Qlt_le_weak.
        -- now apply (Hall j).
      * intros [|j] q0 Hlt Hj; simpl in Hj.
        -- inversion Hj; subst. assumption.
        -- apply (Hbefore j); [lia | assumption].
Qed.

End ArgmaxFacts.

Section PredictModes.

Context {emb : BaseEmbedding} {backend : KerasBackend}.

Lemma predict_scores_length (self : ClassificationModel)
  (sentence : sentence_input) (bs : option Z) (t : Q) (res : list (list Q)) :
  predict_scores self sentence bs t = Ok res ->
  length res = length (sentences_of sentence).
Proof.
  unfold predict_scores. intros E.
  apply bind_Ok_inv in E. destruct E as [u [_ E]].
  apply bind_Ok_inv in E. destruct E as [padded [Hpad E]].
  apply bind_Ok_inv in E. destruct E as [m [_ E]].
  apply pad_sequences_shape in Hpad. destruct Hpad as [Hlen _].
  unfold tokenize in Hlen. rewrite length_map in Hlen.
  inversion E; subst; clear E.
  assert (Hrows : forall x, token_rows x = padded ->
            length (keras_predict m x bs) = length (sentences_of sentence))
    by (intros x Hx; now rewrite keras_predict_rows, Hx).
  destruct (multi_label self).
  - unfold apply_threshold. rewrite !length_map.
    apply Hrows. now destruct (is_bert (embedding self)).
  - apply Hrows. now destruct (is_bert (embedding self)).
Qed.

(** [predict] without [output_dict] on a single-label object. *)
Lemma predict_plain_single (self : ClassificationModel)
  (sentence : sentence_input) (bs : option Z) (t : Q) :
  multi_label self = false ->
  predict self sentence bs false t
  = (res <- predict_scores self sentence bs t ;;
     am <- mapM argmax res ;;
     ls <- mapM (dict_getitem (_idx2label self)) am ;;
     return_shape sentence (map PLabel ls)).
Proof.
  intros Hm. unfold predict, predict_scores, return_shape, tokenize.
  rewrite Hm.
  destruct sentence as [[|w s]|[|s ss]];
    cbn [is_list_input sentences_of bind map]; try reflexivity;
    (destruct (pad_sequences _ _); cbn [bind]; [|reflexivity]);
    (destruct (model self); cbn [bind]; [|reflexivity]);
    cbv zeta; (destruct (mapM argmax _); cbn [bind]; [|reflexivity]);
    unfold convert_idx_to_label;
    (destruct (mapM (dict_getitem (_idx2label self)) _); reflexivity).
Qed.

(** [predict] without [output_dict] on a multi-label object. *)
Lemma predict_plain_multi (self : ClassificationModel)
  (sentence : sentence_input) (bs : option Z) (t : Q) :
  multi_label self = true ->
  predict self sentence bs false t
  = (res <- predict_scores self sentence bs t ;;
     tuples <- match multi_label_binarizer self with
               | Some b => mlb_inverse_transform b res
               | None => Raise AttributeError
               end ;;
     return_shape sentence (map PTuple tuples)).
Proof.
  intros Hm. unfold predict, predict_scores, return_shape, tokenize.
  rewrite Hm.
  destruct sentence as [[|w s]|[|s ss]];
    cbn [is_list_input sentences_of bind map]; try reflexivity;
    (destruct (pad_sequences _ _); cbn [bind]; [|reflexivity]);
    (destruct (model self); cbn [bind]; [|reflexivity]);
    cbv zeta;
    (destruct (multi_label_binarizer self); cbn [bind]; [|reflexivity]);
    (destruct (mlb_inverse_transform _ _); reflexivity).
Qed.

(** [predict] with [output_dict]. *)
Lemma predict_dict (self : ClassificationModel)
  (sentence : sentence_input) (bs : option Z) (t : Q) :
  predict self sentence bs true t
  = (res <- predict_scores self sentence bs t ;;
     _ <- (if multi_label self then Ok []
           else mapM argmax res) ;;
     results <-
       mapM (fun index =>
               w <- py_getitem (sentences_of sentence) index ;;
               r <- py_getitem res index ;;
               d <- _format_output_dic self w r ;;
               Ok (PDict d))
            (seq 0 (length (sentences_of sentence))) ;;
     return_shape sentence results).
Proof.
  unfold predict, predict_scores, return_shape, tokenize.
  destruct sentence as [[|w s]|[|s ss]];
    cbn [is_list_input sentences_of bind map]; try reflexivity;
    (destruct (pad_sequences _ _); cbn [bind]; [|reflexivity]);
    (destruct (model self); cbn [bind]; [|reflexivity]);
    cbv zeta;
    (destruct (multi_label self); cbn [bind]; [reflexivity|]);
    (destruct (mapM argmax _); reflexivity).
Qed.

End PredictModes.

Section PredictMore.

Context {emb : BaseEmbedding} {backend : KerasBackend}.

Lemma Forall2_nth_error_l {A B} (R : A -> B -> Prop) (l : list A)
  (l' : list B) (i : nat) (a : A) :
  Forall2 R l l' -> nth_error l i = Some a ->
  exists b, nth_error l' i = Some b /\ R a b.
Proof.
  intros H; revert i. induction H as [|x y l l' Hxy _ IH]; intros [|i];
    simpl; try discriminate.
  - intros E; inversion E; subst. eauto.
  - apply IH.
Qed.

Lemma Forall2_of_nth_error {A B} (R : A -> B -> Prop) (l : list A)
  (l' : list B) :
  length l = length l' ->
  (forall i a b, nth_error l i = Some a -> nth_error l' i = Some b -> R a b) ->
  Forall2 R l l'.
Proof.
  revert l'; induction l as [|a l IH]; intros [|b l']; simpl;
    try discriminate; intros Hlen H; constructor.
  - now apply (H 0).
  - apply IH; [lia|]. intros i x y Hx Hy. now apply (H (S i)).
Qed.

Lemma Forall2_compose {A B C} (R1 : A -> B -> Prop) (R2 : B -> C -> Prop)
  (l1 : list A) (l2 : list B) (l3 : list C) :
  Forall2 R1 l1 l2 -> Forall2 R2 l2 l3 ->
  Forall2 (fun a c => exists b, R1 a b /\ R2 b c) l1 l3.
Proof.
  intros H; revert l3. induction H as [|a b l1 l2 Hab _ IH]; intros l3 H2;
    inversion H2; subst; constructor; eauto.
Qed.

(** The results behind either return shape are the whole list of results:
    a single sentence has exactly one. *)
Lemma return_shape_results (sentence : sentence_input)
  (results : list prediction) (r : predict_result) :
  length results = length (sentences_of sentence) ->
  return_shape sentence results = Ok r ->
  results_of r = results.
Proof.
  intros Hlen. unfold return_shape. destruct sentence as [s|ss]; simpl in *.
  - destruct results as [|p [|p' results]]; try discriminate. simpl.
    intros E; inversion E; reflexivity.
  - intros E; inversion E; reflexivity.
Qed.

Lemma predict_plain_single_results (self : ClassificationModel)
  (sentence : sentence_input) (bs : option Z) (t : Q) (r : predict_result) :
  multi_label self = false ->
  predict self sentence bs false t = Ok r ->
  exists res,
    predict_scores self sentence bs t = Ok res /\
    Forall2 (fun row p =>
               exists idx q l,
                 first_maximum row idx q /\
                 dict_get (_idx2label self) idx = Some l /\
                 p = PLabel l)
            res (results_of r).
Proof.
  intros Hm. rewrite (predict_plain_single self sentence bs t Hm). intros E.
  apply bind_Ok_inv in E. destruct E as [res [Hres E]].
  apply bind_Ok_inv in E. destruct E as [am [Ham E]].
  apply bind_Ok_inv in E. destruct E as [ls [Hls E]].
  exists res. split; [assumption|].
  pose proof (predict_scores_length _ _ _ _ _ Hres) as Hlen.
  pose proof (mapM_length _ _ _ Ham) as Hlam.
  pose proof (mapM_length _ _ _ Hls) as Hlls.
  rewrite (return_shape_results sentence (map PLabel ls) r)
    by (rewrite ?length_map; congruence || assumption).
  apply mapM_Forall2 in Ham. apply mapM_Forall2 in Hls.
  pose proof (Forall2_compose _ _ _ _ _ Ham Hls) as Hc.
  clear - Hc. induction Hc as [|row l res ls [idx [Harg Hget]] _ IH]; simpl;
    constructor; [|assumption].
  destruct (argmax_spec row idx Harg) as [q Hq].
  exists idx, q, l. split; [assumption|]. split; [|reflexivity].
  unfold dict_getitem in Hget.
  destruct (dict_get (_idx2label self) idx); [|discriminate].
  now inversion Hget.
Qed.

(** X3.  Without [output_dict], a single-label object answers each sentence
    with the label whose id is the position of the first of the largest
    scores the network gives that sentence; there is one answer per
    sentence. *)
Theorem predict_label_of_first_maximum (self : ClassificationModel)
  (sentence : sentence_input) (bs : option Z) (t : Q) (r : predict_result) :
  multi_label self = false ->
  predict self sentence bs false t = Ok r ->
  exists res,
    predict_scores self sentence bs t = Ok res /\
    length (results_of r) = length (sentences_of sentence) /\
    Forall2 (fun row p =>
               exists idx q l,
                 first_maximum row idx q /\
                 dict_get (_idx2label self) idx = Some l /\
                 p = PLabel l)
            res (results_of r).
Proof.
  intros Hm Hp.
  destruct (predict_plain_single_results self sentence bs t r Hm Hp)
    as [res [Hres Hall]].
  exists res. split; [assumption|]. split; [|assumption].
  apply Forall2_length in Hall. rewrite <- Hall.
  now apply (predict_scores_length self sentence bs t).
Qed.

End PredictMore.

Section OutputDict.

Context {emb : BaseEmbedding} {backend : KerasBackend}.

Lemma format_output_dic_inv (self : ClassificationModel)
  (w : list string) (row : list Q) (d : output_dic) :
  _format_output_dic self w row = Ok d ->
  words d = w /\
  Forall2 (fun iq c => dict_get (_idx2label self) (fst iq) = Some (name c) /\
                       confidence c = snd iq)
          (sorted_by (fun x : nat * Q => Qopp (snd x)) (enumerate row))
          (class_candidates d) /\
  exists rest, class_candidates d = class d :: rest.
Proof.
  unfold _format_output_dic. intros E.
  apply bind_Ok_inv in E. destruct E as [candidates [Hc E]].
  apply bind_Ok_inv in E. destruct E as [top [Htop E]].
  inversion E; subst; clear E. simpl. split; [reflexivity|]. split.
  - apply mapM_Forall2 in Hc. revert Hc. apply Forall2_impl.
    intros [i q] c Hf. simpl. simpl in Hf.
    unfold convert_idx_to_label, dict_getitem in Hf. simpl in Hf.
    destruct (dict_get (_idx2label self) i) as [l|] eqn:Hget; simpl in Hf;
      [|discriminate].
    inversion Hf; subst. simpl. auto.
  - unfold py_getitem in Htop. destruct candidates as [|c rest];
      [discriminate|].
    simpl in Htop. inversion Htop; subst. eauto.
Qed.

Lemma format_output_dic_top (self : ClassificationModel)
  (w : list string) (row : list Q) (d : output_dic) :
  _format_output_dic self w row = Ok d ->
  exists idx, first_maximum row idx (confidence (class d)) /\
              dict_get (_idx2label self) idx = Some (name (class d)).
Proof.
  intros E. destruct (format_output_dic_inv self w row d E)
    as [_ [Hrank [rest Hrest]]].
  rewrite Hrest in Hrank.
  inversion Hrank as [|[i q] c ranking cs [Hn Hc] Htail Heq1]; subst.
  simpl in Hn, Hc. symmetry in Heq1. unfold enumerate in Heq1.
  destruct (ranking_head row 0 i q ranking Heq1) as [_ Hmax].
  rewrite Nat.sub_0_r in Hmax.
  exists i. rewrite Hc. split; assumption.
Qed.

(** X4.  The dictionary [_format_output_dic] returns lists every score of
    the row exactly once in [class_candidates], each with the label of its
    position, ordered by descending confidence with equal scores in label-id
    order; [class] is the first candidate, the label of the first of the
    largest scores. *)
Theorem format_output_dic_ranks_all_labels (self : ClassificationModel)
  (w : list string) (row : list Q) (d : output_dic) :
  _format_output_dic self w row = Ok d ->
  words d = w /\
  (exists ranking,
     Permutation (enumerate row) ranking /\
     (forall k, filter (fun x : nat * Q => Qeq_bool k (Qopp (snd x))) ranking
                = filter (fun x : nat * Q => Qeq_bool k (Qopp (snd x)))
                         (enumerate row)) /\
     Forall2 (fun iq c =>
                dict_get (_idx2label self) (fst iq) = Some (name c) /\
                confidence c = snd iq)
             ranking (class_candidates d)) /\
  Sorted (fun a b => Qle (confidence b) (confidence a)) (class_candidates d) /\
  (exists rest, class_candidates d = class d :: rest) /\
  (exists idx, first_maximum row idx (confidence (class d)) /\
               dict_get (_idx2label self) idx = Some (name (class d))).
Proof.
  intros E. destruct (format_output_dic_inv self w row d E)
    as [Hw [Hrank [rest Hrest]]].
  set (key := fun x : nat * Q => Qopp (snd x)) in *.
  split; [assumption|]. split; [|split; [|split]].
  - exists (sorted_by key (enumerate row)). split; [|split].
    + apply sorted_by_Permutation.
    + intros k. apply sorted_by_stable.
    + assumption.
  - pose proof (sorted_by_Sorted key (enumerate row)) as Hs.
    revert Hrank Hs. generalize (sorted_by key (enumerate row)).
    generalize (class_candidates d). clear.
    intros cs ranking H. induction H as [|iq c ranking cs [_ Hc] Hrest IH];
      intros Hs; [constructor|].
    inversion Hs as [|? ? Hs' Hhd]; subst. constructor; [now apply IH|].
    destruct Hrest as [|iq' c' ranking' cs' [_ Hc'] _]; constructor.
    inversion Hhd as [|? ? Hle]; subst. unfold key in Hle.
    rewrite Hc, Hc'. unfold Qle, Qopp in *. simpl in *. lia.
  - eauto.
  - now apply (format_output_dic_top self w).
Qed.

(** X5.  For a single-label object the two output modes agree: the [class]
    of each dictionary [predict] returns with [output_dict] names the label
    it returns for that sentence without [output_dict]. *)
Theorem output_dict_class_is_predicted_label (self : ClassificationModel)
  (sentence : sentence_input) (bs : option Z) (t : Q)
  (rd rp : predict_result) :
  multi_label self = false ->
  predict self sentence bs true t = Ok rd ->
  predict self sentence bs false t = Ok rp ->
  Forall2 (fun pd pl => exists d, pd = PDict d /\ pl = PLabel (name (class d)))
          (results_of rd) (results_of rp).
Proof.
  intros Hm Hd Hp.
  destruct (predict_plain_single_results self sentence bs t rp Hm Hp)
    as [res [Hres Hplain]].
  rewrite predict_dict, Hres, Hm in Hd. cbn [bind] in Hd.
  apply bind_Ok_inv in Hd. destruct Hd as [am [_ Hd]].
  apply bind_Ok_inv in Hd. destruct Hd as [results [Hresults Hd]].
  pose proof (predict_scores_length _ _ _ _ _ Hres) as Hlen.
  pose proof (mapM_length _ _ _ Hresults) as Hlr. rewrite length_seq in Hlr.
  rewrite (return_shape_results sentence results rd Hlr Hd).
  apply Forall2_of_nth_error.
  - apply Forall2_length in Hplain. congruence.
  - intros i pd pl Hpd Hpl.
    apply mapM_Forall2 in Hresults.
    assert (Hi : i < length (sentences_of sentence)).
    { rewrite <- Hlr. apply nth_error_Some. congruence. }
    destruct (nth_error res i) as [row|] eqn:Hrow;
      [|apply nth_error_None in Hrow; lia].
    destruct (Forall2_nth_error_l _ _ _ i row Hplain Hrow)
      as [pl' [Hpl' [idx [q [l [Hmax [Hget ->]]]]]]].
    rewrite Hpl in Hpl'. inversion Hpl'; subst pl; clear Hpl'.
    assert (Hseq : nth_error (seq 0 (length (sentences_of sentence))) i
                   = Some i).
    { rewrite nth_error_seq. apply Nat.ltb_lt in Hi. now rewrite Hi. }
    destruct (Forall2_nth_error_l _ _ _ i i Hresults Hseq)
      as [pd' [Hpd' Hf]].
    rewrite Hpd in Hpd'. inversion Hpd'; subst pd'; clear Hpd'.
    apply bind_Ok_inv in Hf. destruct Hf as [w [_ Hf]].
    apply bind_Ok_inv in Hf. destruct Hf as [row' [Hrow' Hf]].
    apply bind_Ok_inv in Hf. destruct Hf as [d [Hfmt Hf]].
    inversion Hf; subst pd; clear Hf.
    unfold py_getitem in Hrow'. rewrite Hrow in Hrow'.
    inversion Hrow'; subst row'; clear Hrow'.
    destruct (format_output_dic_top self w row d Hfmt)
      as [idx' [Hmax' Hget']].
    rewrite (first_maximum_unique row idx idx' _ _ Hmax Hmax') in Hget.
    exists d. split; [reflexivity|]. congruence.
Qed.

(** X6.  For a multi-label object the dictionaries of [predict] carry the
    thresholded scores, not the raw ones: every confidence, the one of
    [class] included, is 0 or 1. *)
Theorem multi_label_dict_confidences_are_binary (self : ClassificationModel)
  (sentence : sentence_input) (bs : option Z) (t : Q) (r : predict_result) :
  multi_label self = true ->
  predict self sentence bs true t = Ok r ->
  forall p, In p (results_of r) ->
    exists d, p = PDict d /\
      is_zero_or_one (confidence (class d)) = true /\
      forall c, In c (class_candidates d) ->
                is_zero_or_one (confidence c) = true.
Proof.
  intros Hm Hd. rewrite predict_dict in Hd.
  apply bind_Ok_inv in Hd. destruct Hd as [res [Hres Hd]].
  rewrite Hm in Hd. cbn [bind] in Hd.
  apply bind_Ok_inv in Hd. destruct Hd as [results [Hresults Hd]].
  pose proof (mapM_length _ _ _ Hresults) as Hlr. rewrite length_seq in Hlr.
  rewrite (return_shape_results sentence results r Hlr Hd).
  assert (Hbin : forallb (forallb is_zero_or_one) res = true).
  { unfold predict_scores in Hres.
    apply bind_Ok_inv in Hres. destruct Hres as [u [_ Hres]].
    apply bind_Ok_inv in Hres. destruct Hres as [padded [_ Hres]].
    apply bind_Ok_inv in Hres. destruct Hres as [m [_ Hres]].
    rewrite Hm in Hres. inversion Hres. apply apply_threshold_binary. }
  intros p Hp. destruct (mapM_In _ _ _ _ Hresults Hp) as [i [_ Hf]].
  apply bind_Ok_inv in Hf. destruct Hf as [w [_ Hf]].
  apply bind_Ok_inv in Hf. destruct Hf as [row [Hrow Hf]].
  apply bind_Ok_inv in Hf. destruct Hf as [d [Hfmt Hf]].
  inversion Hf; subst p; clear Hf.
  unfold py_getitem in Hrow.
  destruct (nth_error res i) as [row'|] eqn:Hnth; [|discriminate].
  inversion Hrow; subst row'; clear Hrow.
  apply nth_error_In in Hnth.
  rewrite forallb_forall in Hbin. specialize (Hbin row Hnth).
  rewrite forallb_forall in Hbin.
  destruct (format_output_dic_inv self w row d Hfmt)
    as [_ [Hrank [rest Hrest]]].
  assert (Hall : forall c, In c (class_candidates d) ->
            is_zero_or_one (confidence c) = true).
  { intros c Hc. apply In_nth_error in Hc. destruct Hc as [j Hj].
    apply Forall2_flip in Hrank.
    destruct (Forall2_nth_error_l _ _ _ j c Hrank Hj)
      as [[k q] [Hkq [_ Hconf]]].
    simpl in Hconf. rewrite Hconf. apply Hbin.
    apply nth_error_In in Hkq. apply sorted_by_In in Hkq.
    unfold enumerate in Hkq. now apply in_combine_r in Hkq. }
  exists d. split; [reflexivity|]. split; [|assumption].
  apply Hall. rewrite Hrest. now left.
Qed.

End OutputDict.

(* ================================================================== *)
(** * Further properties: encoding targets and decoding scores *)
(* ================================================================== *)

Section RoundTrips.

Context {emb : BaseEmbedding} {backend : KerasBackend} {pyset : PySet}.

Lemma apply_threshold_above_one (t : Q) (res : list (list Q)) :
  Qlt 1 t -> apply_threshold t res = map (map (fun _ => 0%Q)) res.
Proof.
  intros Ht. unfold apply_threshold. rewrite map_map.
  apply map_ext. intros row. rewrite map_map. apply map_ext. intros r.
  destruct (Qle_bool t r) eqn:E.
  - apply Qlt_bool_true in Ht. now rewrite Ht.
  - now rewrite (Qle_bool_false_lt t r E).
Qed.

Lemma compress_zeros (cls : list string) (row : list Q) :
  compress cls (map (fun _ => 0%Q) row) = [].
Proof.
  revert row; induction cls as [|c cls IH]; intros [|r row]; simpl; auto.
Qed.

Lemma mlb_inverse_transform_inv (b : MultiLabelBinarizer)
  (yt : list (list Q)) (tuples : list (list string)) :
  mlb_inverse_transform b yt = Ok tuples ->
  tuples = map (compress (classes b)) yt.
Proof.
  unfold mlb_inverse_transform.
  destruct (negb (fitted b)); [discriminate|].
  destruct (negb (forallb (fun row => length row =? length (classes b)) yt));
    [discriminate|].
  destruct (negb (forallb (forallb is_zero_or_one) yt)); [discriminate|].
  intros E; now inversion E.
Qed.

(** X7.  With a threshold above 1 a multi-label [predict] decodes every
    sentence to the empty tuple, whatever the scores: a score that reaches
    the threshold is set to 1 by the first assignment and, 1 being below the
    threshold, to 0 by the second.  On a trained object that is what a
    sentence gets. *)
Theorem threshold_above_one_decodes_nothing (self : ClassificationModel)
  (bs : option Z) (t : Q) :
  multi_label self = true -> Qlt 1 t ->
  (forall sentence r,
     predict self sentence bs false t = Ok r ->
     forall p, In p (results_of r) -> p = PTuple []) /\
  (forall n s, trained self n -> s <> [] ->
     predict self (OneSentence s) bs false t = Ok (One (PTuple []))).
Proof.
  intros Hm Ht.
  assert (Hall : forall sentence r,
            predict self sentence bs false t = Ok r ->
            forall p, In p (results_of r) -> p = PTuple []).
  { intros sentence r Hp. rewrite (predict_plain_multi _ _ _ _ Hm) in Hp.
    apply bind_Ok_inv in Hp. destruct Hp as [res [Hres Hp]].
    apply bind_Ok_inv in Hp. destruct Hp as [tuples [Htuples Hp]].
    destruct (multi_label_binarizer self) as [b|]; [|discriminate].
    apply mlb_inverse_transform_inv in Htuples.
    pose proof (predict_scores_length _ _ _ _ _ Hres) as Hlen.
    rewrite (return_shape_results sentence (map PTuple tuples) r) in *;
      [|rewrite Htuples, !length_map; assumption | assumption].
    unfold predict_scores in Hres.
    apply bind_Ok_inv in Hres. destruct Hres as [u [_ Hres]].
    apply bind_Ok_inv in Hres. destruct Hres as [padded [_ Hres]].
    apply bind_Ok_inv in Hres. destruct Hres as [m [_ Hres]].
    rewrite Hm in Hres. inversion Hres as [Hr]; clear Hres.
    rewrite (apply_threshold_above_one t _ Ht) in Hr.
    intros p Hin. apply in_map_iff in Hin. destruct Hin as [tp [<- Htp]].
    rewrite Htuples in Htp. apply in_map_iff in Htp.
    destruct Htp as [row [<- Hrow]]. rewrite <- Hr in Hrow.
    apply in_map_iff in Hrow. destruct Hrow as [row0 [<- _]].
    now rewrite compress_zeros. }
  split; [assumption|].
  intros n s Htr Hne. destruct s as [|w s]; [contradiction|].
  destruct (predict_trained_total self n w s bs false t Htr) as [r Hr].
  destruct (predict_one_vs_list self w s bs false t) as [_ Hnot].
  destruct r as [p|rs]; [|exfalso; now apply (Hnot rs)].
  rewrite Hr. do 2 f_equal. apply (Hall _ _ Hr). now left.
Qed.

Lemma compress_indicator (cls : list string) (k : nat) (m : nat -> bool) :
  compress cls (map (fun j => if m j then 1%Q else 0%Q) (seq k (length cls)))
  = map fst (filter (fun cj => m (snd cj)) (combine cls (seq k (length cls)))).
Proof.
  revert k; induction cls as [|c cls IH]; intros k; simpl; [reflexivity|].
  destruct (m k); simpl; now rewrite IH.
Qed.

Lemma threshold_indicator (t : Q) (m : nat -> bool) (l : list nat) :
  Qlt 0 t -> Qle t 1 ->
  apply_threshold t
    [map inject_Z (map (fun j => if m j then 1%Z else 0%Z) l)]
  = [map (fun j => if m j then 1%Q else 0%Q) l].
Proof.
  intros H0 H1. rewrite apply_threshold_multi_hot by assumption.
  unfold multi_hot. simpl. f_equal. rewrite !map_map. apply map_ext.
  intros j. destruct (m j).
  - apply Qle_bool_iff in H1. change (inject_Z 1) with 1%Q. now rewrite H1.
  - change (inject_Z 0) with 0%Q.
    destruct (Qle_bool t 0) eqn:E; [|reflexivity].
    apply Qle_bool_iff in E. exfalso. now apply (Qlt_not_le 0 t).
Qed.

Lemma existsb_eqb_In (c : string) (T : list string) :
  existsb (String.eqb c) T = true <-> In c T.
Proof.
  rewrite existsb_exists. split.
  - intros [x [Hin E]]. apply String.eqb_eq in E. now subst.
  - intros Hin. exists c. split; [assumption | apply String.eqb_refl].
Qed.

(** X8.  Multi-label targets survive the trip through the binarizer: when
    the classes are distinct and the threshold lies in (0, 1], the row
    [fit_transform] makes for a tuple of known labels, read back as scores
    by [predict]'s thresholding and [inverse_transform], yields exactly the
    labels of the tuple, each once, in class order. *)
Theorem multi_hot_round_trip (b : MultiLabelBinarizer) (T : list string)
  (t : Q) :
  NoDup (classes b) ->
  (forall l, In l T -> In l (classes b)) ->
  Qlt 0 t -> Qle t 1 ->
  exists row decoded,
    mlb_fit_transform b [TSeq T] = (Ok [row], mlb_fit b) /\
    length row = length (classes b) /\
    mlb_inverse_transform (mlb_fit b) (apply_threshold t [map inject_Z row])
      = Ok [decoded] /\
    decoded = filter (fun c => existsb (String.eqb c) T) (classes b) /\
    (forall l, In l decoded <-> In l T) /\
    NoDup decoded.
Proof.
  intros ND Hknown H0 H1.
  set (cls := classes b). set (n := length cls).
  assert (Hci : class_to_index (mlb_fit b) = combine cls (seq 0 n)).
  { unfold class_to_index. simpl. apply dict_of_pairs_NoDup.
    rewrite map_fst_combine by (now rewrite length_seq). assumption. }
  assert (Hkeys : dict_keys (combine cls (seq 0 n)) = cls).
  { unfold dict_keys. apply map_fst_combine. unfold n. now rewrite length_seq. }
  destruct (mapM_total (dict_getitem (class_to_index (mlb_fit b))) T)
    as [idxs Hidxs].
  { intros l Hl. rewrite Hci. unfold dict_getitem.
    destruct (proj1 (dict_get_Some_iff (combine cls (seq 0 n)) l)) as [i Hi].
    - rewrite Hkeys. now apply Hknown.
    - rewrite Hi. eauto. }
  set (m := fun j => existsb (Nat.eqb j) idxs).
  exists (map (fun j => if m j then 1%Z else 0%Z) (seq 0 n)).
  exists (filter (fun c => existsb (String.eqb c) T) cls).
  assert (Hm : forall c j, In (c, j) (combine cls (seq 0 n)) ->
            m j = existsb (String.eqb c) T).
  { intros c j Hin.
    assert (Hget : dict_get (combine cls (seq 0 n)) c = Some j)
      by (apply In_dict_get; [rewrite Hkeys; assumption | assumption]).
    apply mapM_Forall2 in Hidxs. rewrite Hci in Hidxs.
    apply eq_true_iff_eq. unfold m. rewrite existsb_exists, existsb_eqb_In.
    split.
    - intros [i [Hi E]]. apply Nat.eqb_eq in E. subst i.
      apply In_nth_error in Hi. destruct Hi as [k Hk].
      apply Forall2_flip in Hidxs.
      destruct (Forall2_nth_error_l _ _ _ k j Hidxs Hk) as [l [Hl Hlj]].
      unfold dict_getitem in Hlj.
      destruct (dict_get (combine cls (seq 0 n)) l) as [j'|] eqn:Hl';
        [|discriminate].
      inversion Hlj; subst j'.
      assert (l = c); [|subst; now apply nth_error_In in Hl].
      eapply dict_get_injective; [|exact Hl'|exact Hget].
      rewrite map_snd_combine by (unfold n; now rewrite length_seq).
      apply seq_NoDup.
    - intros Hc. apply In_nth_error in Hc. destruct Hc as [k Hk].
      destruct (Forall2_nth_error_l _ _ _ k c Hidxs Hk) as [i [Hi Hci']].
      unfold dict_getitem in Hci'. rewrite Hget in Hci'.
      inversion Hci'; subst i. exists j. split.
      + now apply nth_error_In in Hi.
      + apply Nat.eqb_refl. }
  split; [|split; [|split; [|split; [|split]]]].
  - unfold mlb_fit_transform, mlb_row. simpl mapM.
    cbn [labels_of_target]. rewrite Hidxs. reflexivity.
  - rewrite length_map, length_seq. reflexivity.
  - rewrite threshold_indicator by assumption.
    unfold mlb_inverse_transform. simpl fitted. cbn [negb].
    replace (classes (mlb_fit b)) with cls by reflexivity.
    assert (Hw : forallb (fun row : list Q => length row =? length cls)
                   [map (fun j => if m j then 1%Q else 0%Q) (seq 0 n)] = true).
    { simpl. rewrite length_map, length_seq. unfold n.
      now rewrite Nat.eqb_refl. }
    assert (Hb : forallb (forallb is_zero_or_one)
                   [map (fun j => if m j then 1%Q else 0%Q) (seq 0 n)] = true).
    { simpl. rewrite andb_true_r. apply forallb_forall. intros q Hq.
      apply in_map_iff in Hq. destruct Hq as [j [<- _]].
      destruct (m j); reflexivity. }
    rewrite Hw, Hb. simpl. do 2 f_equal. unfold n.
    rewrite compress_indicator. fold n.
    rewrite (filter_ext_in (fun cj => m (snd cj))
               (fun cj => existsb (String.eqb (fst cj)) T)).
    + clear. unfold n. generalize 0. induction cls as [|c cls IH]; intros k;
        simpl; [reflexivity|].
      destruct (existsb (String.eqb c) T); simpl; now rewrite IH.
    + intros [c j] Hin. simpl. now apply Hm.
  - reflexivity.
  - intros l. rewrite filter_In, existsb_eqb_In. split; [tauto|].
    intros Hl. split; [now apply Hknown | assumption].
  - now apply NoDup_filter.
Qed.

End RoundTrips.

(* ================================================================== *)
(** * Further properties: a pass of the generator *)
(* ================================================================== *)

Section ChunkFacts.

Lemma firstn_split {A} (a b : nat) (l : list A) :
  a <= b -> firstn a l ++ firstn (b - a) (skipn a l) = firstn b l.
Proof.
  intros Hab. rewrite <- (firstn_skipn a (firstn b l)) at 1.
  rewrite firstn_firstn, skipn_firstn_comm.
  now rewrite Nat.min_l by assumption.
Qed.

(** The slices of the first [k] pages, in page order, are the first
    [k * batch_size] elements. *)
Lemma chunks_prefix {A} (l : list A) (batch_size : Z) (k : nat) :
  (1 <= batch_size)%Z ->
  concat (map (fun p => py_slice l (p * batch_size)
                          (p * batch_size + batch_size))
              (map Z.of_nat (seq 0 k)))
  = firstn (Z.to_nat (Z.of_nat k * batch_size)) l.
Proof.
  intros Hpos. induction k as [|k IH]; [reflexivity|].
  replace (Z.of_nat (S k) * batch_size)%Z
    with (Z.of_nat k * batch_size + batch_size)%Z by lia.
  rewrite seq_S, !map_app, concat_app, IH.
  cbn [map concat Nat.add]. rewrite app_nil_r.
  unfold py_slice, py_clamp.
  assert (H0 : (0 <= Z.of_nat k * batch_size)%Z)
    by (apply Z.mul_nonneg_nonneg; lia).
  destruct (Z.ltb_spec (Z.of_nat k * batch_size) 0); [lia|].
  destruct (Z.ltb_spec (Z.of_nat k * batch_size + batch_size) 0); [lia|].
  set (n := Z.of_nat (length l)).
  set (s := (Z.of_nat k * batch_size)%Z) in *.
  destruct (Z.le_gt_cases n s) as [Hfull|Hpart].
  - rewrite !Z.min_r by lia. rewrite Z.sub_diag. simpl. rewrite app_nil_r.
    rewrite !firstn_all2 by (subst n; lia). reflexivity.
  - rewrite (Z.min_l s n) by lia.
    destruct (Z.le_gt_cases n (s + batch_size)) as [Hlast|Hmore].
    + rewrite Z.min_r by lia.
      rewrite (firstn_all2 (n := Z.to_nat (s + batch_size)))
        by (subst n; lia).
      rewrite <- (firstn_all l) at 3.
      rewrite <- (firstn_split (Z.to_nat s) (length l) l) by (subst n; lia).
      f_equal. f_equal. subst n. lia.
    + rewrite Z.min_l by lia.
      rewrite <- (firstn_split (Z.to_nat s) (Z.to_nat (s + batch_size)) l)
        by lia.
      f_equal. f_equal. lia.
Qed.

Lemma list_sum_constant {A} (h : A -> nat) (c : nat) (l : list A) :
  (forall x, In x l -> h x = c) -> list_sum (map h l) = length l * c.
Proof.
  induction l as [|x l IH]; intros Hall; simpl; [reflexivity|].
  rewrite (Hall x (or_introl eq_refl)), IH; [reflexivity|].
  intros y Hy. apply Hall. now right.
Qed.

Lemma list_sum_Permutation {A} (h : A -> nat) (l l' : list A) :
  Permutation l l' -> list_sum (map h l) = list_sum (map h l').
Proof.
  induction 1; simpl; lia.
Qed.

Lemma list_sum_Forall2 {A B} (h : A -> nat) (k : B -> nat)
  (l : list A) (l' : list B) :
  Forall2 (fun a b => k b = h a) l l' ->
  list_sum (map k l') = list_sum (map h l).
Proof.
  induction 1; simpl; [reflexivity | congruence].
Qed.

End ChunkFacts.

Section PassFacts.

Context {emb : BaseEmbedding} {backend : KerasBackend} {pyrandom : PyRandom}.

Lemma encode_batch_keeps (self self' : ClassificationModel) (is_bert : bool)
  (target_x : list (list string)) (target_y : list target)
  (r : result batch) :
  encode_batch self is_bert target_x target_y = (r, self') ->
  embedding self' = embedding self /\
  forall y_data, encodable self y_data -> encodable self' y_data.
Proof.
  unfold encode_batch.
  destruct (tokenize self target_x) as [tokenized|e].
  2:{ intros E; inversion E; subst. auto. }
  destruct (pad_sequences tokenized (sequence_length (embedding self)))
    as [padded|e].
  2:{ intros E; inversion E; subst. auto. }
  unfold encode_targets.
  destruct (multi_label self) eqn:Hm.
  - destruct (multi_label_binarizer self) as [b|] eqn:Hb.
    + unfold mlb_fit_transform.
      destruct (mapM (mlb_row (mlb_fit b)) target_y);
        intros E; inversion E; subst; (split; [reflexivity|]);
        intros y_data; unfold encodable; simpl; rewrite Hm, Hb;
        intros [b0 [E0 Hall]]; inversion E0; subst b0;
        exists (mlb_fit b); split; auto.
    + intros E; inversion E; subst; auto.
  - destruct (bind (convert_label_to_idx self (LabelSeq target_y))
                (fun tokenized_y =>
                   to_categorical (idx_list tokenized_y)
                     (length (label2idx self))));
      intros E; inversion E; subst; auto.
Qed.

Variables (x_data : list (list string)) (y_data : list target).
Variables (batch_size : Z) (is_bert : bool).

Hypothesis batch_size_positive : (1 <= batch_size)%Z.
Hypothesis data_not_empty : x_data <> [].
Hypothesis parallel_arrays : length y_data = length x_data.

(** One page of the loop body, for an object that can encode the targets:
    it yields, and the object can still encode them. *)
Lemma run_page_yields (g : generator) (self : ClassificationModel)
  (passes : nat) (page : Z) (rest : list Z) :
  gen_x_data g = x_data -> gen_y_data g = y_data ->
  gen_batch_size g = batch_size -> gen_is_bert g = is_bert ->
  (0 <= page <= Z.of_nat (length x_data) / batch_size)%Z ->
  encodable self y_data -> 0 < sequence_length (embedding self) ->
  exists b self',
    run_page g self passes page rest
      = (Yield b, gen_advance g passes rest false, self') /\
    batch_examples b
      = length (fst (select_page x_data y_data batch_size page)) /\
    encodable self' y_data /\
    embedding self' = embedding self.
Proof.
  intros Hx Hy Hb Hi Hrange Henc Hm. unfold run_page.
  rewrite Hx, Hy, Hb, Hi.
  pose proof (select_page_inputs x_data y_data batch_size
                batch_size_positive page data_not_empty Hrange) as Hsize.
  pose proof (select_page_targets x_data y_data batch_size page
                parallel_arrays) as Hty.
  pose proof (select_page_In_targets x_data y_data batch_size page) as Hsub.
  destruct (select_page x_data y_data batch_size page) as [tx ty].
  simpl in *.
  destruct (encode_batch_total self is_bert tx ty Hm) as [b [self' Hb']].
  - intros ->. simpl in Hsize.
    destruct Hsize as [?|[_ [? ?]]]; lia.
  - intros ->. simpl in Hty.
    pose proof (Z.mod_pos_bound (Z.of_nat (length x_data)) batch_size
                  ltac:(lia)).
    destruct Hsize as [?|[_ [? ?]]]; lia.
  - unfold encodable in *. destruct (multi_label self).
    + destruct Henc as [bz [Hbz Hall]]. exists bz. split; [assumption|].
      intros t l Ht. apply Hall. now apply Hsub.
    + intros t Ht. apply Henc. now apply Hsub.
  - rewrite Hb'. exists b, self'.
    destruct (encode_batch_keeps _ _ _ _ _ _ Hb') as [He Hk].
    destruct (encode_batch_shape _ _ _ _ _ _ Hb') as [Hex _].
    repeat split; auto.
Qed.

(** The pending pages of a pass, taken one [next] at a time. *)
Lemma gen_take_pending (pending : list Z) :
  forall (g : generator) (self : ClassificationModel),
  gen_x_data g = x_data -> gen_y_data g = y_data ->
  gen_batch_size g = batch_size -> gen_is_bert g = is_bert ->
  gen_finished g = false -> gen_pending g = pending ->
  (forall p, In p pending ->
     (0 <= p <= Z.of_nat (length x_data) / batch_size)%Z) ->
  encodable self y_data -> 0 < sequence_length (embedding self) ->
  exists batches,
    gen_take (length pending) g self = map Yield batches /\
    Forall2 (fun p b =>
               batch_examples b
               = length (fst (select_page x_data y_data batch_size p)))
            pending batches.
Proof.
  induction pending as [|page rest IH];
    intros g self Hx Hy Hb Hi Hlive Hpend Hrange Henc Hm.
  - exists []. split; [reflexivity | constructor].
  - simpl. unfold gen_next. rewrite Hlive, Hpend.
    destruct (run_page_yields g self (gen_passes g) page rest Hx Hy Hb Hi
                (Hrange page (or_introl eq_refl)) Henc Hm)
      as [b [self' [Hrun [Hex [Henc' He]]]]].
    rewrite Hrun.
    destruct (IH (gen_advance g (gen_passes g) rest false) self')
      as [batches [Htake Hall]]; auto.
    + intros p Hp. apply Hrange. now right.
    + now rewrite He.
    + exists (b :: batches). simpl. rewrite Htake.
      split; [reflexivity | now constructor].
Qed.

(** A live generator keeps yielding, whatever number of batches is asked
    for, as the object it encodes with is handed from one [next] to the
    following one. *)
Lemma gen_take_yields (n : nat) :
  forall (g : generator) (self : ClassificationModel),
  gen_keeps x_data y_data batch_size is_bert g -> gen_finished g = false ->
  encodable self y_data -> 0 < sequence_length (embedding self) ->
  exists batches, gen_take n g self = map Yield batches.
Proof.
  induction n as [|n IH]; intros g self Hkeep Hlive Henc Hm.
  - now exists [].
  - simpl.
    assert (Hstep : exists b g' self',
              gen_next g self = (Yield b, g', self') /\
              gen_finished g' = false /\ encodable self' y_data /\
              embedding self' = embedding self).
    { pose proof Hkeep as [Hx [Hy [Hb [Hi Hp]]]]. unfold gen_next.
      rewrite Hlive.
      destruct (gen_pending g) as [|page rest] eqn:Hpend.
      - rewrite Hx, Hb. unfold page_list, py_floordiv.
        destruct (Z.eqb_spec batch_size 0) as [?|_]; [lia|]. simpl.
        set (pages := py_range (Z.of_nat (length x_data) / batch_size + 1)).
        assert (Hin0 : In 0%Z pages).
        { apply In_py_range.
          pose proof (Z.div_pos (Z.of_nat (length x_data)) batch_size
                        ltac:(lia) ltac:(lia)). lia. }
        destruct (shuffle (gen_passes g) pages) as [|page rest] eqn:Hsh.
        + exfalso.
          eapply Permutation_in in Hin0;
            [|apply (shuffle_perm (gen_passes g) pages)].
          rewrite Hsh in Hin0. contradiction.
        + assert (Hin : In page pages).
          { eapply Permutation_in;
              [apply Permutation_sym, (shuffle_perm (gen_passes g) pages)|].
            rewrite Hsh. now left. }
          apply In_py_range in Hin.
          destruct (run_page_yields g self (S (gen_passes g)) page rest
                      Hx Hy Hb Hi ltac:(lia) Henc Hm)
            as [b [self' [Hrun [_ [Henc' He]]]]].
          rewrite Hrun. eexists b, _, self'. auto.
      - destruct (Hp page (or_introl eq_refl)) as [pages [Hpages Hin]].
        destruct (page_list_pages _ _ _ _ Hpages Hin) as [_ Hrange].
        destruct (run_page_yields g self (gen_passes g) page rest
                    Hx Hy Hb Hi Hrange Henc Hm)
          as [b [self' [Hrun [_ [Henc' He]]]]].
        rewrite Hrun. eexists b, _, self'. auto. }
    destruct Hstep as [b [g' [self' [Hstep [Hlive' [Henc' He]]]]]].
    rewrite Hstep.
    destruct (IH g' self') as [batches Hrest]; auto.
    + now apply (gen_next_inv x_data y_data batch_size is_bert g g' self
                   self' (Yield b)).
    + now rewrite He.
    + exists (b :: batches). simpl. now rewrite Hrest.
Qed.

(** Examples selected by the pages of a pass, summed. *)
Lemma pages_examples_sum :
  Z.of_nat
    (list_sum
       (map (fun p => length (fst (select_page x_data y_data batch_size p)))
            (py_range (Z.of_nat (length x_data) / batch_size + 1))))
  = if (Z.of_nat (length x_data) mod batch_size =? 0)%Z
    then (Z.of_nat (length x_data) + batch_size)%Z
    else Z.of_nat (length x_data).
Proof.
  set (N := Z.of_nat (length x_data)).
  assert (Hq : (0 <= N / batch_size)%Z)
    by (apply Z.div_pos; subst N; lia).
  pose proof (Z.div_mod N batch_size ltac:(lia)) as Hdm.
  unfold py_range.
  replace (Z.to_nat (N / batch_size + 1)) with (S (Z.to_nat (N / batch_size)))
    by lia.
  rewrite seq_S, !map_app, list_sum_app. simpl.
  rewrite (list_sum_constant
             (fun p => length (fst (select_page x_data y_data batch_size p)))
             (Z.to_nat batch_size)).
  - rewrite length_map, length_seq, Nat.add_0_r.
    rewrite Nat2Z.inj_add, Nat2Z.inj_mul, !Z2Nat.id by lia.
    rewrite (page_examples x_data y_data batch_size batch_size_positive
               (N / batch_size) data_not_empty) by (fold N; lia). fold N.
    rewrite Z.ltb_irrefl.
    destruct (Z.eqb_spec (N mod batch_size) 0); lia.
  - intros p Hp. apply in_map_iff in Hp. destruct Hp as [k [<- Hk]].
    apply in_seq in Hk.
    apply Nat2Z.inj.
    rewrite (page_examples x_data y_data batch_size batch_size_positive
               (Z.of_nat k) data_not_empty) by (fold N; lia). fold N.
    destruct (Z.ltb_spec (Z.of_nat k) (N / batch_size)); lia.
Qed.

End PassFacts.

Section PassContent.

Context {emb : BaseEmbedding} {backend : KerasBackend} {pyrandom : PyRandom}.

Lemma map_combine_agree {A B C} (f : B -> C) (g : A -> C) (l : list A)
  (l' : list B) :
  length l = length l' ->
  (forall a b, In (a, b) (combine l l') -> f b = g a) ->
  map f l' = map g l.
Proof.
  revert l'. induction l as [|a l IH]; intros [|b l'] Hlen Hall;
    simpl in *; try discriminate; [reflexivity|].
  f_equal; [apply Hall; now left|].
  apply IH; [lia|]. intros a' b' Hin. apply Hall. now right.
Qed.

(** A row of [transform] over distinct classes marks the classes among the
    target's labels. *)
Lemma mlb_row_indicator (b : MultiLabelBinarizer) (t : target)
  (row : list Z) :
  NoDup (classes b) ->
  mlb_row (mlb_fit b) t = Ok row ->
  row = map (fun c => if existsb (String.eqb c) (labels_of_target t)
                      then 1%Z else 0%Z) (classes b).
Proof.
  intros ND Hrow.
  set (cls := classes b) in *. set (n := length cls).
  set (T := labels_of_target t) in *.
  assert (Hci : class_to_index (mlb_fit b) = combine cls (seq 0 n)).
  { unfold class_to_index. simpl. apply dict_of_pairs_NoDup.
    rewrite map_fst_combine by (now rewrite length_seq). assumption. }
  assert (Hkeys : dict_keys (combine cls (seq 0 n)) = cls).
  { unfold dict_keys. apply map_fst_combine. unfold n. now rewrite length_seq. }
  unfold mlb_row in Hrow. fold T in Hrow.
  apply bind_Ok_inv in Hrow. destruct Hrow as [idxs [Hidxs Hrow]].
  inversion Hrow as [Hr]; clear Hrow.
  replace (classes (mlb_fit b)) with cls by reflexivity. fold n.
  assert (Hm : forall c j, In (c, j) (combine cls (seq 0 n)) ->
            existsb (Nat.eqb j) idxs = existsb (String.eqb c) T).
  { intros c j Hin.
    assert (Hget : dict_get (combine cls (seq 0 n)) c = Some j)
      by (apply In_dict_get; [rewrite Hkeys; assumption | assumption]).
    apply mapM_Forall2 in Hidxs. rewrite Hci in Hidxs.
    apply eq_true_iff_eq. rewrite existsb_exists, existsb_eqb_In.
    split.
    - intros [i [Hi E]]. apply Nat.eqb_eq in E. subst i.
      apply In_nth_error in Hi. destruct Hi as [k Hk].
      apply Forall2_flip in Hidxs.
      destruct (Forall2_nth_error_l _ _ _ k j Hidxs Hk) as [l [Hl Hlj]].
      unfold dict_getitem in Hlj.
      destruct (dict_get (combine cls (seq 0 n)) l) as [j'|] eqn:Hl';
        [|discriminate].
      inversion Hlj; subst j'.
      assert (l = c); [|subst; now apply nth_error_In in Hl].
      eapply dict_get_injective; [|exact Hl'|exact Hget].
      rewrite map_snd_combine by (unfold n; now rewrite length_seq).
      apply seq_NoDup.
    - intros Hc. apply In_nth_error in Hc. destruct Hc as [k Hk].
      destruct (Forall2_nth_error_l _ _ _ k c Hidxs Hk) as [i [Hi Hci']].
      unfold dict_getitem in Hci'. rewrite Hget in Hci'.
      inversion Hci'; subst i. exists j. split.
      + now apply nth_error_In in Hi.
      + apply Nat.eqb_refl. }
  change (length (classes b)) with n.
  apply (map_combine_agree _ _ cls (seq 0 n)).
  - unfold n. now rewrite length_seq.
  - intros c j Hin. now rewrite (Hm c j Hin).
Qed.

(** What the rows of [encode_targets] are. *)
Lemma encode_targets_rows (self self' : ClassificationModel)
  (target_y : list target) (rows : list (list Z)) :
  (forall b, multi_label_binarizer self = Some b -> NoDup (classes b)) ->
  encode_targets self target_y = (Ok rows, self') ->
  target_rows self target_y rows.
Proof.
  intros ND. unfold encode_targets, target_rows.
  destruct (multi_label self).
  - destruct (multi_label_binarizer self) as [b|] eqn:Hb; [|discriminate].
    unfold mlb_fit_transform. intros E. injection E as Hrows Hself.
    exists b. split; [reflexivity|].
    apply mapM_Forall2 in Hrows.
    clear - Hrows ND. induction Hrows as [|t row ts rows Hrow _ IH];
      constructor; [|assumption].
    apply mlb_row_indicator; [now apply ND | assumption].
  - intros E. injection E as Hrows Hself. subst self'.
    apply bind_Ok_inv in Hrows. destruct Hrows as [r [Hconv Hcat]].
    unfold convert_label_to_idx in Hconv.
    apply bind_Ok_inv in Hconv. destruct Hconv as [ids [Hids Hr]].
    inversion Hr; subst r; clear Hr. cbn [idx_list] in Hcat.
    unfold to_categorical in Hcat.
    apply bind_Ok_inv in Hcat. destruct Hcat as [nc [Hnc Hcat]].
    assert (Hn : nc = length (label2idx self)).
    { destruct (Nat.eqb_spec (length (label2idx self)) 0) as [Hz|Hnz];
        [|now inversion Hnc].
      exfalso. destruct ids as [|i ids]; [discriminate|].
      destruct target_y as [|t ts]; [discriminate|].
      simpl in Hids. apply bind_Ok_inv in Hids.
      destruct Hids as [i' [Hlook _]].
      unfold lookup_label in Hlook. apply bind_Ok_inv in Hlook.
      destruct Hlook as [s' [_ Hget]].
      destruct (label2idx self); [discriminate | simpl in Hz; lia]. }
    subst nc.
    apply mapM_Forall2 in Hids. apply mapM_Forall2 in Hcat.
    pose proof (Forall2_compose _ _ _ _ _ Hids Hcat) as Hc.
    clear - Hc. induction Hc as [|t row ts rows [i [Hlook Hrow]] _ IH];
      constructor; [|assumption].
    unfold lookup_label in Hlook. apply bind_Ok_inv in Hlook.
    destruct Hlook as [s [Hs Hget]].
    destruct t as [s0|ls]; [|discriminate]. inversion Hs; subst s0.
    unfold dict_getitem in Hget.
    destruct (dict_get (label2idx self) s) as [j|] eqn:Hj; [|discriminate].
    inversion Hget; subst j.
    destruct (i <? length (label2idx self)); [|discriminate].
    inversion Hrow. exists s, i. auto.
Qed.

(** Encoding a batch leaves an object that encodes alike. *)
Lemma encode_batch_alike (self self' : ClassificationModel) (is_bert : bool)
  (target_x : list (list string)) (target_y : list target)
  (r : result batch) :
  encode_batch self is_bert target_x target_y = (r, self') ->
  encodes_alike self self'.
Proof.
  unfold encode_batch, encodes_alike.
  destruct (tokenize self target_x) as [tokenized|e].
  2:{ intros E; inversion E; subst. auto. }
  destruct (pad_sequences tokenized (sequence_length (embedding self)))
    as [padded|e].
  2:{ intros E; inversion E; subst. auto. }
  unfold encode_targets.
  destruct (multi_label self) eqn:Hm.
  - destruct (multi_label_binarizer self) as [b|] eqn:Hb.
    + unfold mlb_fit_transform.
      destruct (mapM (mlb_row (mlb_fit b)) target_y);
        intros E; inversion E; subst; simpl; rewrite ?Hb, ?Hm; auto.
    + intros E; inversion E; subst; rewrite ?Hb, ?Hm; auto.
  - destruct (bind (convert_label_to_idx self (LabelSeq target_y))
                (fun tokenized_y =>
                   to_categorical (idx_list tokenized_y)
                     (length (label2idx self))));
      intros E; inversion E; subst; rewrite ?Hm; auto.
Qed.

Lemma encodes_alike_trans (s1 s2 s3 : ClassificationModel) :
  encodes_alike s1 s2 -> encodes_alike s2 s3 -> encodes_alike s1 s3.
Proof.
  unfold encodes_alike. intros [A1 [A2 [A3 A4]]] [B1 [B2 [B3 B4]]].
  repeat split; congruence.
Qed.

(** What a batch encodes does not depend on which of two like states is
    asked. *)
Lemma batch_encodes_alike (self self' : ClassificationModel)
  (target_x : list (list string)) (target_y : list target) (b : batch) :
  encodes_alike self self' ->
  batch_encodes self' target_x target_y b ->
  batch_encodes self target_x target_y b.
Proof.
  unfold encodes_alike, batch_encodes, target_rows, tokenize, label2idx.
  intros [He [Hm [Hl Hc]]] [Htok Hy]. rewrite He, Hm, Hl in *.
  split; [assumption|].
  destruct (multi_label self); [|assumption].
  destruct Hy as [b' [Hb' Hall]]. rewrite Hb' in Hc. simpl in Hc.
  destruct (multi_label_binarizer self) as [b0|]; [|discriminate].
  simpl in Hc. inversion Hc as [Hcls]. exists b0. split; [reflexivity|].
  now rewrite <- Hcls.
Qed.

(** The content of a yielded batch: the inputs and targets that went into
    [encode_batch]. *)
Lemma encode_batch_content (self self' : ClassificationModel)
  (is_bert : bool) (target_x : list (list string)) (target_y : list target)
  (b : batch) :
  (forall b0, multi_label_binarizer self = Some b0 -> NoDup (classes b0)) ->
  encode_batch self is_bert target_x target_y = (Ok b, self') ->
  batch_encodes self target_x target_y b.
Proof.
  intros ND Henc. unfold batch_encodes.
  destruct (encode_batch_shape _ _ _ _ _ _ Henc) as [_ [_ [Htok _]]].
  split; [assumption|].
  revert Henc. unfold encode_batch.
  destruct (tokenize self target_x) as [tokenized|e]; [|discriminate].
  destruct (pad_sequences tokenized (sequence_length (embedding self)))
    as [padded|e]; [|discriminate].
  destruct (encode_targets self target_y) as [[rows|e] self1] eqn:Hrows;
    [|discriminate].
  intros E; inversion E; subst; simpl.
  now apply (encode_targets_rows self self' target_y rows).
Qed.

Variables (x_data : list (list string)) (y_data : list target).
Variables (batch_size : Z) (is_bert : bool).

Hypothesis batch_size_positive : (1 <= batch_size)%Z.
Hypothesis data_not_empty : x_data <> [].
Hypothesis parallel_arrays : length y_data = length x_data.

(** The pending pages of a pass, taken one [next] at a time: each batch
    holds the examples its page selects. *)
Lemma gen_take_pending_content (self0 : ClassificationModel)
  (pending : list Z) :
  (forall b0, multi_label_binarizer self0 = Some b0 -> NoDup (classes b0)) ->
  forall (g : generator) (self : ClassificationModel),
  encodes_alike self0 self ->
  gen_x_data g = x_data -> gen_y_data g = y_data ->
  gen_batch_size g = batch_size -> gen_is_bert g = is_bert ->
  gen_finished g = false -> gen_pending g = pending ->
  (forall p, In p pending ->
     (0 <= p <= Z.of_nat (length x_data) / batch_size)%Z) ->
  encodable self y_data -> 0 < sequence_length (embedding self) ->
  exists batches,
    gen_take (length pending) g self = map Yield batches /\
    Forall2 (fun p b =>
               batch_examples b
               = length (fst (select_page x_data y_data batch_size p)) /\
               batch_encodes self0
                 (fst (select_page x_data y_data batch_size p))
                 (snd (select_page x_data y_data batch_size p)) b)
            pending batches.
Proof.
  intros ND0.
  induction pending as [|page rest IH];
    intros g self Halike Hx Hy Hb Hi Hlive Hpend Hrange Henc Hm.
  - exists []. split; [reflexivity | constructor].
  - simpl. unfold gen_next. rewrite Hlive, Hpend.
    destruct (run_page_yields x_data y_data batch_size is_bert
                batch_size_positive data_not_empty parallel_arrays
                g self (gen_passes g) page rest Hx Hy Hb Hi
                (Hrange page (or_introl eq_refl)) Henc Hm)
      as [b [self' [Hrun [Hex [Henc' He]]]]].
    rewrite Hrun.
    assert (Hcontent : batch_encodes self0
              (fst (select_page x_data y_data batch_size page))
              (snd (select_page x_data y_data batch_size page)) b /\
            encodes_alike self self').
    { pose proof Hrun as E. unfold run_page in E.
      rewrite Hx, Hy, Hb, Hi in E.
      destruct (select_page x_data y_data batch_size page) as [tx ty].
      destruct (encode_batch self is_bert tx ty) as [[b0|e] s1] eqn:Hb0;
        [|discriminate].
      assert (Eb : b0 = b) by congruence.
      assert (Es : s1 = self') by congruence.
      rewrite Eb, Es in Hb0. clear E Eb Es. simpl. split.
      - apply (batch_encodes_alike self0 self _ _ _ Halike).
        apply (encode_batch_content self self' is_bert tx ty b); [|assumption].
        intros b1 Hb1. destruct Halike as [_ [_ [_ Hc]]].
        rewrite Hb1 in Hc. simpl in Hc.
        destruct (multi_label_binarizer self0) as [b2|] eqn:Hb2;
          [|discriminate].
        simpl in Hc. inversion Hc as [Hcls]. rewrite Hcls.
        now apply ND0.
      - now apply (encode_batch_alike self self' is_bert tx ty (Ok b)). }
    destruct Hcontent as [Hcontent Hstep].
    destruct (IH (gen_advance g (gen_passes g) rest false) self')
      as [batches [Htake Hall]]; auto.
    + now apply (encodes_alike_trans self0 self self').
    + intros p Hp. apply Hrange. now right.
    + now rewrite He.
    + exists (b :: batches). simpl. rewrite Htake.
      split; [reflexivity | now constructor].
Qed.

End PassContent.

Section PassTheorems.

Context {emb : BaseEmbedding} {backend : KerasBackend} {pyrandom : PyRandom}.

(** X9.  One pass of [get_data_generator].  The slices of the pages, in page
    order, are the data, inputs and targets alike: every example is on
    exactly one page, and a page whose slice is not empty selects that slice.
    With an object that can encode the targets, the first [N // B + 1] calls
    of [next] all yield, one batch per page in the shuffled order.  Each
    batch holds the examples its page selects: its token rows are the padded
    token ids of the page's inputs, in their order, and its target rows
    encode the page's targets, in their order.  The batches of the pass hold
    N examples together when B does not divide N, and N + B when it does:
    the trailing page is then empty and the first page is yielded a second
    time. *)
Theorem generator_pass_covers_data
  (x_data : list (list string)) (y_data : list target)
  (batch_size : Z) (is_bert : bool) (self : ClassificationModel) :
  (1 <= batch_size)%Z -> x_data <> [] -> length y_data = length x_data ->
  encodable self y_data -> 0 < sequence_length (embedding self) ->
  (forall b0, multi_label_binarizer self = Some b0 -> NoDup (classes b0)) ->
  let pages := py_range (Z.of_nat (length x_data) / batch_size + 1) in
  concat (map (fun p => py_slice x_data (p * batch_size)
                          (p * batch_size + batch_size)) pages) = x_data /\
  concat (map (fun p => py_slice y_data (p * batch_size)
                          (p * batch_size + batch_size)) pages) = y_data /\
  (forall p,
     py_slice x_data (p * batch_size) (p * batch_size + batch_size) <> [] ->
     select_page x_data y_data batch_size p
     = (py_slice x_data (p * batch_size) (p * batch_size + batch_size),
        py_slice y_data (p * batch_size) (p * batch_size + batch_size))) /\
  exists batches,
    gen_take (length pages)
      (get_data_generator x_data y_data batch_size is_bert) self
      = map Yield batches /\
    Forall2 (fun p b =>
               batch_examples b
               = length (fst (select_page x_data y_data batch_size p)) /\
               batch_encodes self
                 (fst (select_page x_data y_data batch_size p))
                 (snd (select_page x_data y_data batch_size p)) b)
            (shuffle 0 pages) batches /\
    Z.of_nat (list_sum (map batch_examples batches))
    = if (Z.of_nat (length x_data) mod batch_size =? 0)%Z
      then (Z.of_nat (length x_data) + batch_size)%Z
      else Z.of_nat (length x_data).
Proof.
  intros Hpos Hne Hlen Henc Hm ND pages.
  set (N := Z.of_nat (length x_data)).
  assert (Hq : (0 <= N / batch_size)%Z)
    by (apply Z.div_pos; subst N; lia).
  assert (Hcover : forall A (l : list A), length l = length x_data ->
            concat (map (fun p => py_slice l (p * batch_size)
                                    (p * batch_size + batch_size)) pages)
            = l).
  { intros A l Hl. unfold pages, py_range.
    rewrite chunks_prefix by assumption.
    apply firstn_all2. rewrite Hl. fold N.
    pose proof (Z.div_mod N batch_size ltac:(lia)) as Hdm.
    pose proof (Z.mod_pos_bound N batch_size ltac:(lia)) as Hmod.
    rewrite Z2Nat.id by lia.
    assert (N < (N / batch_size + 1) * batch_size)%Z by lia.
    subst N. lia. }
  split; [now apply Hcover|]. split; [now apply Hcover|]. split.
  { intros p Hslice. unfold select_page.
    destruct (Nat.eqb_spec
                (length (py_slice x_data (p * batch_size)
                           (p * batch_size + batch_size))) 0) as [E|_];
      [|reflexivity].
    exfalso. apply Hslice. now apply length_zero_iff_nil. }
  assert (Hrange : forall p, In p (shuffle 0 pages) ->
            (0 <= p <= N / batch_size)%Z).
  { intros p Hp.
    eapply Permutation_in in Hp;
      [|apply Permutation_sym, (shuffle_perm 0 pages)].
    apply In_py_range in Hp. subst N. lia. }
  assert (Hshlen : length (shuffle 0 pages) = length pages).
  { symmetry. apply Permutation_length, shuffle_perm. }
  assert (Hpages : page_list x_data batch_size = Ok pages).
  { unfold page_list, py_floordiv.
    destruct (Z.eqb_spec batch_size 0) as [?|_]; [lia | reflexivity]. }
  destruct (shuffle 0 pages) as [|page rest] eqn:Hsh.
  { exfalso. unfold pages, py_range in Hshlen.
    rewrite length_map, length_seq in Hshlen. cbn [length] in Hshlen.
    subst N. lia. }
  rewrite <- Hshlen. simpl length. simpl gen_take.
  unfold gen_next. simpl gen_finished. simpl gen_pending.
  simpl gen_x_data. simpl gen_batch_size. simpl gen_passes.
  rewrite Hpages, Hsh.
  destruct (run_page_yields x_data y_data batch_size is_bert Hpos Hne Hlen
              (get_data_generator x_data y_data batch_size is_bert)
              self 1 page rest eq_refl eq_refl eq_refl eq_refl
              (Hrange page (or_introl eq_refl)) Henc Hm)
    as [b [self' [Hrun [Hex [Henc' He]]]]].
  rewrite Hrun.
  assert (Hcontent : batch_encodes self
            (fst (select_page x_data y_data batch_size page))
            (snd (select_page x_data y_data batch_size page)) b /\
          encodes_alike self self').
  { pose proof Hrun as E. unfold run_page in E.
    simpl gen_x_data in E. simpl gen_y_data in E.
    simpl gen_batch_size in E. simpl gen_is_bert in E.
    destruct (select_page x_data y_data batch_size page) as [tx ty].
    destruct (encode_batch self is_bert tx ty) as [[b0|e] s1] eqn:Hb0;
      [|discriminate].
    assert (Eb : b0 = b) by congruence.
    assert (Es : s1 = self') by congruence.
    rewrite Eb, Es in Hb0. clear E Eb Es. simpl. split.
    - now apply (encode_batch_content self self' is_bert tx ty b).
    - now apply (encode_batch_alike self self' is_bert tx ty (Ok b)). }
  destruct Hcontent as [Hcontent Halike].
  destruct (gen_take_pending_content x_data y_data batch_size is_bert
              Hpos Hne Hlen self rest ND
              (gen_advance
                 (get_data_generator x_data y_data batch_size is_bert)
                 1 rest false) self')
    as [batches [Htake Hall]]; auto.
  { intros p Hp. apply Hrange. now right. }
  { now rewrite He. }
  exists (b :: batches). split; [simpl; now rewrite Htake|].
  assert (Hall' : Forall2
            (fun p b0 =>
               batch_examples b0
               = length (fst (select_page x_data y_data batch_size p)) /\
               batch_encodes self
                 (fst (select_page x_data y_data batch_size p))
                 (snd (select_page x_data y_data batch_size p)) b0)
            (page :: rest) (b :: batches)) by (constructor; auto).
  split; [assumption|].
  assert (Hsizes : Forall2
            (fun p b0 =>
               batch_examples b0
               = length (fst (select_page x_data y_data batch_size p)))
            (page :: rest) (b :: batches)).
  { clear - Hall'. induction Hall' as [|? ? ? ? [? _] _ IH];
      constructor; assumption. }
  rewrite (list_sum_Forall2 _ _ _ _ Hsizes), <- Hsh.
  rewrite <- (list_sum_Permutation _ _ _ (shuffle_perm 0 pages)).
  apply (pages_examples_sum x_data y_data batch_size Hpos Hne); assumption.
Qed.

End PassTheorems.

(* ================================================================== *)
(** * Further properties: what [fit] leaves behind *)
(* ================================================================== *)

Section FitMore.

Context {emb : BaseEmbedding} {backend : KerasBackend} {pyset : PySet}
        {pyrandom : PyRandom}.

Variable build_model : ClassificationModel -> result keras_model.

Lemma mapM_In_l {A B} (f : A -> result B) (l : list A) (l' : list B) (a : A) :
  mapM f l = Ok l' -> In a l -> exists b, f a = Ok b /\ In b l'.
Proof.
  intros H. apply mapM_Forall2 in H. induction H as [|x y l l' Hxy _ IH].
  - contradiction.
  - intros [->|Hin].
    + exists y. split; [assumption | now left].
    + destruct (IH Hin) as [b [Hb Hin']]. exists b. split; [assumption|].
      now right.
Qed.

Lemma gen_take_length (n : nat) (g : generator) (self : ClassificationModel) :
  length (gen_take n g self) = n.
Proof.
  revert g self. induction n as [|n IH]; intros g self; simpl;
    [reflexivity|].
  destruct (gen_next g self) as [[out g'] self']. simpl. now rewrite IH.
Qed.

(** When the dictionary step returns, its arguments were well formed. *)
Lemma build_dict_Ok_inv (self self1 : ClassificationModel)
  (x_train : list (list string)) (y_train : list target)
  (x_validate : option (list (list string)))
  (y_validate : option (list target)) (u : unit) :
  build_token2id_label2id_dict self x_train y_train x_validate y_validate
    = (Ok u, self1) ->
  (truthy x_validate = true -> y_validate <> None) /\
  exists seen,
    observed_labels (multi_label self)
      (fit_targets y_train x_validate y_validate) = Ok seen.
Proof.
  unfold build_token2id_label2id_dict, fit_targets.
  destruct (truthy x_validate) eqn:T.
  - destruct x_validate as [xv|]; [|discriminate].
    destruct y_validate as [yv|]; [|discriminate].
    simpl. intros E. split; [discriminate|].
    destruct (observed_labels (multi_label self) (y_train ++ yv))
      as [seen|e]; [eauto | discriminate].
  - simpl. intros E. split; [discriminate|].
    destruct (observed_labels (multi_label self) y_train)
      as [seen|e]; [eauto | discriminate].
Qed.

(** The steps a returning [fit] has gone through. *)
Lemma fit_Ok_steps (a : fit_args) (self self' : ClassificationModel)
  (call : fit_generator_call) :
  fit build_model a self = (Ok call, self') ->
  length (x_train a) = length (y_train a) /\
  exists self1,
    build_token2id_label2id_dict self (x_train a) (y_train a)
      (x_validate a) (y_validate a) = (Ok tt, self1) /\
    build_if_needed build_model (x_train a) self1 = (Ok tt, self') /\
    start_training a (effective_batch_size (x_train a) (batch_size a)) self'
    = Ok call.
Proof.
  unfold fit, and_then, lift, get_self.
  destruct (Nat.eqb_spec (length (x_train a)) (length (y_train a)));
    [|discriminate].
  destruct (build_token2id_label2id_dict self (x_train a) (y_train a)
              (x_validate a) (y_validate a)) as [[[]|e'] self1];
    [|discriminate].
  destruct (build_if_needed build_model (x_train a) self1)
    as [[[]|e'] self2] eqn:Hneed; [|discriminate].
  intros E. injection E as Hstart Hself. subst self2.
  split; [assumption|]. exists self1. auto.
Qed.

(** The block under [if not self.model:] assigns the sequence length and
    the network, nothing else. *)
Lemma build_if_needed_frame (x_train : list (list string))
  (self self' : ClassificationModel) (r : result unit) :
  build_if_needed build_model x_train self = (r, self') ->
  _label2idx self' = _label2idx self /\
  _idx2label self' = _idx2label self /\
  multi_label self' = multi_label self /\
  multi_label_binarizer self' = multi_label_binarizer self /\
  is_bert (embedding self') = is_bert (embedding self) /\
  token2idx (embedding self') = token2idx (embedding self).
Proof.
  unfold build_if_needed, and_then, get_self, ret, lift, assign.
  destruct (model self).
  - intros E; inversion E; subst. repeat split.
  - destruct (sequence_length (embedding self) =? 0).
    + destruct (percentile_length x_train) as [n|e]; simpl.
      * destruct (build_model (with_sequence_length self n));
          intros E; inversion E; subst; repeat split.
      * intros E; inversion E; subst; repeat split.
    + simpl. destruct (build_model self);
        intros E; inversion E; subst; repeat split.
Qed.

(** The index the dictionary step builds encodes every target it was built
    from. *)
Lemma built_index_encodable (self : ClassificationModel)
  (seen : list string) (y_all y_data : list target) :
  observed_labels (multi_label self) y_all = Ok seen ->
  (forall t, In t y_data -> In t y_all) ->
  _label2idx self = index_labels (set_iter seen) ->
  multi_label_binarizer self
    = Some {| classes := set_iter seen; fitted := false |} ->
  encodable self y_data.
Proof.
  intros Hseen Hsub Hidx Hbin. unfold encodable, observed_labels in *.
  destruct (multi_label self).
  - eexists. split; [exact Hbin|]. simpl. intros t l Ht Hl.
    apply set_iter_In. inversion Hseen; subst seen.
    apply in_concat. exists (labels_of_target t). split; [|assumption].
    apply in_map. now apply Hsub.
  - intros t Ht. apply Hsub in Ht.
    destruct (mapM_In_l _ _ _ t Hseen Ht) as [s [Hs Hin]].
    destruct t as [s'|ls]; [|discriminate]. inversion Hs; subst s'.
    apply (proj2 (set_iter_In seen s)) in Hin.
    apply In_nth_error in Hin. destruct Hin as [i Hi].
    exists s, i. split; [reflexivity|].
    unfold label2idx. rewrite Hidx.
    destruct (built_dicts_at (set_iter seen) i s (set_iter_NoDup seen) Hi)
      as [Hget _].
    split; [assumption|].
    rewrite index_labels_combine by apply set_iter_NoDup.
    rewrite length_combine, length_seq, Nat.min_id.
    apply nth_error_Some. congruence.
Qed.

Lemma effective_batch_size_zero (x_train : list (list string))
  (batch_size : Z) :
  effective_batch_size x_train batch_size = 0%Z <->
  batch_size = 0%Z \/
  ((Z.of_nat (length x_train) < batch_size)%Z /\ length x_train <= 1).
Proof.
  unfold effective_batch_size.
  destruct (Z.ltb_spec (Z.of_nat (length x_train)) batch_size).
  - split.
    + intros E. right. split; [assumption|].
      destruct (le_gt_dec (length x_train) 1); [assumption|].
      assert (1 <= Z.of_nat (length x_train) / 2)%Z
        by (apply Z.div_le_lower_bound; lia).
      lia.
    + intros [->|[_ Hle]]; [lia|].
      apply Z.div_small. lia.
  - split; [auto|]. intros [?|[? _]]; lia.
Qed.

(** X10.  After a [fit] that reached its [fit_generator] call with a
    positive batch size, the training generator it handed over never
    stops: as long as the sequence length of the object is positive, any
    number of [next] calls all yield a batch.  The index [fit] built covers
    every training target, so no batch fails to encode. *)
Theorem fit_generator_never_stops (a : fit_args)
  (self self' : ClassificationModel) (call : fit_generator_call) (n : nat) :
  fit build_model a self = (Ok call, self') ->
  (0 < batch_size a)%Z ->
  0 < sequence_length (embedding self') ->
  exists batches,
    gen_take n (train_generator call) self' = map Yield batches /\
    length batches = n.
Proof.
  intros Hfit Hbs Hm.
  destruct (fit_Ok_steps a self self' call Hfit)
    as [Hlen [self1 [Hbuild [Hneed Hstart]]]].
  destruct (build_dict_Ok_inv _ _ _ _ _ _ _ Hbuild) as [Hy [seen Hseen]].
  destruct (build_dict_run self (x_train a) (y_train a) (x_validate a)
              (y_validate a) seen Hy Hseen)
    as [self1' [Hrun [Hidx [_ [Hbin [Hml _]]]]]].
  rewrite Hbuild in Hrun. inversion Hrun; subst self1'. clear Hrun.
  destruct (build_if_needed_frame _ _ _ _ Hneed)
    as [Hidx' [_ [Hml' [Hbin' _]]]].
  apply start_training_inv in Hstart. destruct Hstart as [Hgen [Hsteps _]].
  set (bs := effective_batch_size (x_train a) (batch_size a)) in *.
  assert (Hbs' : (1 <= bs)%Z).
  { unfold py_floordiv in Hsteps.
    destruct (Z.eqb_spec bs 0) as [|Hnz]; [discriminate|].
    assert (0 <= bs)%Z; [|lia].
    unfold bs, effective_batch_size.
    destruct (Z.of_nat (length (x_train a)) <? batch_size a)%Z; [|lia].
    apply Z.div_pos; lia. }
  assert (Hne : x_train a <> []).
  { intros E. unfold py_floordiv in Hsteps.
    destruct (Z.eqb_spec bs 0) as [|Hnz]; [discriminate|].
    apply Hnz. apply effective_batch_size_zero. right.
    rewrite E. simpl. lia. }
  assert (Henc : encodable self' (y_train a)).
  { apply (built_index_encodable self' seen
             (fit_targets (y_train a) (x_validate a) (y_validate a))).
    - now rewrite Hml', Hml.
    - intros t Ht. unfold fit_targets.
      destruct (truthy (x_validate a)); [|assumption].
      apply in_or_app. now left.
    - congruence.
    - congruence. }
  rewrite Hgen.
  destruct (gen_take_yields (x_train a) (y_train a) bs
              (is_bert (embedding self')) Hbs' Hne (eq_sym Hlen) n
              (get_data_generator (x_train a) (y_train a) bs
                 (is_bert (embedding self'))) self')
    as [batches Htake]; auto.
  - unfold gen_keeps; simpl. repeat split; auto; contradiction.
  - exists batches. split; [assumption|].
    apply (f_equal (@length gen_outcome)) in Htake.
    now rewrite length_map, gen_take_length in Htake.
Qed.

(** X11.  [fit] checks its arguments before it touches the object: with
    inputs and targets of different lengths it raises [AssertionError], with
    validation inputs but no validation targets [TypeError], and in both
    cases the object is as it was.  A list used as the target of a
    single-label object is found later, by the dictionary step: the
    [TypeError] then leaves the label index, the binarizer, the network and
    the sequence length as they were. *)
Theorem fit_rejects_malformed_arguments (a : fit_args)
  (self : ClassificationModel) :
  (length (x_train a) <> length (y_train a) ->
   fit build_model a self = (Raise AssertionError, self)) /\
  (length (x_train a) = length (y_train a) ->
   truthy (x_validate a) = true -> y_validate a = None ->
   fit build_model a self = (Raise TypeError, self)) /\
  (length (x_train a) = length (y_train a) ->
   (truthy (x_validate a) = true -> y_validate a <> None) ->
   multi_label self = false ->
   (exists ls, In (TSeq ls)
                  (fit_targets (y_train a) (x_validate a) (y_validate a))) ->
   exists self',
     fit build_model a self = (Raise TypeError, self') /\
     _label2idx self' = _label2idx self /\
     _idx2label self' = _idx2label self /\
     multi_label_binarizer self' = multi_label_binarizer self /\
     model self' = model self /\
     sequence_length (embedding self') = sequence_length (embedding self)).
Proof.
  split; [|split].
  - intros Hlen. unfold fit, and_then, lift.
    apply Nat.eqb_neq in Hlen. now rewrite Hlen.
  - intros Hlen T Hy. unfold fit, and_then, lift.
    apply Nat.eqb_eq in Hlen. rewrite Hlen.
    unfold build_token2id_label2id_dict. rewrite T, Hy.
    destruct (x_validate a); reflexivity.
  - intros Hlen Hy Hsingle [ls Hin]. unfold fit, and_then, lift.
    apply Nat.eqb_eq in Hlen. rewrite Hlen.
    unfold build_token2id_label2id_dict. unfold fit_targets in Hin.
    assert (Hraise : forall y_data, In (TSeq ls) y_data ->
              observed_labels false y_data = Raise TypeError).
    { intros y_data Hy_in. unfold observed_labels.
      apply mapM_Raise.
      - intros t _. destruct t; simpl; eauto.
      - exists (TSeq ls). auto. }
    destruct (truthy (x_validate a)) eqn:T.
    + destruct (x_validate a) as [xv|]; [|discriminate].
      destruct (y_validate a) as [yv|]; [|exfalso; now apply Hy].
      simpl. rewrite Hsingle, (Hraise _ Hin).
      eexists. split; [reflexivity|]. repeat split.
    + simpl. rewrite Hsingle, (Hraise _ Hin).
      eexists. split; [reflexivity|]. repeat split.
Qed.

(** X12.  When [build_model] raises, as the base class's does with
    [NotImplementedError], [fit] on an object without a network passes the
    exception on after the dictionary step and the choice of the sequence
    length: the object keeps the new label index and binarizer, its
    sequence length is the percentile length if it was unset, and it still
    has no network, so a later [fit] builds again. *)
Theorem fit_build_failure_keeps_index (a : fit_args)
  (self : ClassificationModel) (seen : list string) (e : py_error) :
  length (x_train a) = length (y_train a) ->
  (truthy (x_validate a) = true -> y_validate a <> None) ->
  observed_labels (multi_label self)
    (fit_targets (y_train a) (x_validate a) (y_validate a)) = Ok seen ->
  x_train a <> [] ->
  model self = None ->
  (forall s, build_model s = Raise e) ->
  exists self',
    fit build_model a self = (Raise e, self') /\
    label2idx self' = index_labels (set_iter seen) /\
    multi_label_binarizer self'
      = Some {| classes := set_iter seen; fitted := false |} /\
    model self' = None /\
    (sequence_length (embedding self) = 0 ->
     percentile_length (x_train a)
     = Ok (sequence_length (embedding self'))) /\
    (sequence_length (embedding self) <> 0 ->
     sequence_length (embedding self') = sequence_length (embedding self)).
Proof.
  intros Hlen Hy Hseen Hne Hmodel Hbm.
  destruct (build_dict_run self (x_train a) (y_train a) (x_validate a)
              (y_validate a) seen Hy Hseen)
    as [self1 [Hrun [Hidx [_ [Hbin [_ [Hm [Hs _]]]]]]]].
  rewrite (fit_run build_model a self self1 Hlen Hrun).
  unfold build_if_needed, and_then, get_self, ret, lift, assign.
  rewrite Hm, Hmodel, Hs.
  destruct (percentile_length_defined (x_train a) Hne) as [n [_ Hn]].
  destruct (Nat.eqb_spec (sequence_length (embedding self)) 0) as [E|E].
  - rewrite Hn. simpl. rewrite Hbm.
    exists (with_sequence_length self1 n). simpl.
    repeat split; try assumption; try congruence.
  - simpl. rewrite Hbm. exists self1.
    repeat split; try assumption; try congruence.
Qed.

(** X13.  The batch size [fit] divides by is zero exactly when the
    requested one is zero, or exceeds a training set of at most one
    example (halving rounds down to zero).  With well-formed arguments and
    a [build_model] that succeeds, what [fit] then raises depends on the
    percentile step.  When the training set is not empty, or the object has
    a network or a sequence length already, [fit] raises
    [ZeroDivisionError] when it computes the steps, after the dictionaries
    and the network have been built: the object it leaves has a network.  On
    an empty training set, for an object without network and sequence
    length, the percentile index [sorted([])[0]] raises [IndexError] first,
    and the object is left without a network. *)
Theorem fit_zero_batch_size_raises (a : fit_args)
  (self : ClassificationModel) (seen : list string) :
  (effective_batch_size (x_train a) (batch_size a) = 0%Z <->
   batch_size a = 0%Z \/
   ((Z.of_nat (length (x_train a)) < batch_size a)%Z /\
    length (x_train a) <= 1)) /\
  (effective_batch_size (x_train a) (batch_size a) = 0%Z ->
   length (x_train a) = length (y_train a) ->
   (truthy (x_validate a) = true -> y_validate a <> None) ->
   observed_labels (multi_label self)
     (fit_targets (y_train a) (x_validate a) (y_validate a)) = Ok seen ->
   x_train a <> [] \/ model self <> None \/
   sequence_length (embedding self) <> 0 ->
   class_weight a = false \/ truthy (x_validate a) = true ->
   (forall s, exists m, build_model s = Ok m) ->
   exists self',
     fit build_model a self = (Raise ZeroDivisionError, self') /\
     model self' <> None /\
     label2idx self' = index_labels (set_iter seen)) /\
  (x_train a = [] -> y_train a = [] ->
   (truthy (x_validate a) = true -> y_validate a <> None) ->
   observed_labels (multi_label self)
     (fit_targets (y_train a) (x_validate a) (y_validate a)) = Ok seen ->
   model self = None -> sequence_length (embedding self) = 0 ->
   (0 < batch_size a)%Z ->
   effective_batch_size (x_train a) (batch_size a) = 0%Z /\
   exists self',
     fit build_model a self = (Raise IndexError, self') /\
     model self' = None /\
     label2idx self' = index_labels (set_iter seen)).
Proof.
  split; [apply effective_batch_size_zero|]. split.
  - intros Hzero Hlen Hy Hseen Hne Hcw Hbm.
    destruct (build_dict_run self (x_train a) (y_train a) (x_validate a)
                (y_validate a) seen Hy Hseen)
      as [self1 [Hrun [Hidx [_ [_ [_ [Hm1 [Hs1 _]]]]]]]].
    rewrite (fit_run build_model a self self1 Hlen Hrun), Hzero.
    assert (Hst : forall s,
              start_training a 0 s = Raise ZeroDivisionError).
    { intros s. unfold start_training.
      destruct (truthy (x_validate a)) eqn:T.
      - destruct (x_validate a) as [xv|]; [|discriminate].
        destruct (y_validate a) as [yv|]; [|exfalso; now apply Hy].
        reflexivity.
      - destruct Hcw as [Hcw|Hcw]; [|discriminate].
        rewrite Hcw. reflexivity. }
    unfold build_if_needed, and_then, get_self, ret, lift, assign.
    destruct (model self1) as [m1|] eqn:Hmodel1.
    + exists self1. rewrite Hst. split; [reflexivity|].
      split; [congruence | exact Hidx].
    + destruct (Nat.eqb_spec (sequence_length (embedding self1)) 0)
        as [Hz|Hnz].
      * assert (Hne' : x_train a <> []).
        { destruct Hne as [?|[?|?]]; [assumption | congruence | congruence]. }
        destruct (percentile_length_defined (x_train a) Hne')
          as [n [_ Hn]].
        rewrite Hn. simpl.
        destruct (Hbm (with_sequence_length self1 n)) as [m Hbuilt].
        rewrite Hbuilt. simpl. rewrite Hst.
        eexists. split; [reflexivity|]. simpl.
        split; [discriminate | exact Hidx].
      * simpl. destruct (Hbm self1) as [m Hbuilt]. rewrite Hbuilt. simpl.
        rewrite Hst. eexists. split; [reflexivity|]. simpl.
        split; [discriminate | exact Hidx].
  - intros Hx Hyt Hy Hseen Hmodel Hzero Hbs.
    split.
    { apply effective_batch_size_zero. right. rewrite Hx. simpl. lia. }
    destruct (build_dict_run self (x_train a) (y_train a) (x_validate a)
                (y_validate a) seen Hy Hseen)
      as [self1 [Hrun [Hidx [_ [_ [_ [Hm1 [Hs1 _]]]]]]]].
    rewrite (fit_run build_model a self self1); [|now rewrite Hx, Hyt|exact Hrun].
    unfold build_if_needed, and_then, get_self, ret, lift, assign.
    rewrite Hm1, Hmodel, Hs1, Hzero, Hx. simpl.
    exists self1. split; [reflexivity|].
    split; [congruence | exact Hidx].
Qed.

End FitMore.

(* ================================================================== *)
(** * Further properties: one-hot targets *)
(* ================================================================== *)

Section OneHot.

Context {emb : BaseEmbedding} {backend : KerasBackend} {pyset : PySet}.

Lemma nth_error_one_hot (n i j : nat) (q : Q) :
  nth_error (map inject_Z (one_hot n i)) j = Some q ->
  j < n /\ q = if j =? i then 1%Q else 0%Q.
Proof.
  intros H.
  assert (Hj : j < n).
  { assert (Hlt : j < length (map inject_Z (one_hot n i)))
      by (apply nth_error_Some; congruence).
    unfold one_hot in Hlt. now rewrite !length_map, length_seq in Hlt. }
  split; [assumption|].
  unfold one_hot in H. rewrite map_map, nth_error_map, nth_error_seq in H.
  apply Nat.ltb_lt in Hj. rewrite Hj in H. simpl in H.
  inversion H. destruct (j =? i); reflexivity.
Qed.

(** The only one of a one-hot row is where [argmax] points. *)
Lemma argmax_one_hot (n i : nat) :
  i < n -> argmax (map inject_Z (one_hot n i)) = Ok i.
Proof.
  intros Hi.
  assert (Hmax : first_maximum (map inject_Z (one_hot n i)) i 1%Q).
  { unfold first_maximum. split; [|split].
    - unfold one_hot. rewrite map_map, nth_error_map, nth_error_seq.
      apply Nat.ltb_lt in Hi. rewrite Hi. simpl.
      now rewrite Nat.eqb_refl.
    - intros j q Hq. apply nth_error_one_hot in Hq. destruct Hq as [_ ->].
      destruct (j =? i); [apply Qle_refl | discriminate].
    - intros j q Hlt Hq. apply nth_error_one_hot in Hq.
      destruct Hq as [_ ->].
      destruct (Nat.eqb_spec j i); [lia | reflexivity]. }
  destruct (argmax (map inject_Z (one_hot n i))) as [idx|e] eqn:E.
  - destruct (argmax_spec _ _ E) as [q Hq].
    f_equal. exact (first_maximum_unique _ _ _ _ _ Hq Hmax).
  - exfalso. unfold one_hot in E. destruct n as [|n]; [lia|].
    simpl in E. discriminate.
Qed.

(** X14.  Single-label targets survive the trip through the one-hot rows:
    on the index [build_token2id_label2id_dict] stores, the generator
    encodes an observed label as the one-hot row of its id, as wide as the
    number of labels; [argmax] on that row gives the id back, and
    [convert_idx_to_label] the label.  A network that reproduces a training
    target is therefore decoded to the training label. *)
Theorem one_hot_target_round_trip (self : ClassificationModel)
  (x_train : list (list string)) (y_train : list target)
  (x_validate : option (list (list string)))
  (y_validate : option (list target)) (seen : list string) :
  multi_label self = false ->
  (truthy x_validate = true -> y_validate <> None) ->
  observed_labels (multi_label self)
    (fit_targets y_train x_validate y_validate) = Ok seen ->
  exists self',
    build_token2id_label2id_dict self x_train y_train x_validate y_validate
      = (Ok tt, self') /\
    forall l, In l seen ->
      exists i,
        i < length (set_iter seen) /\
        encode_targets self' [TStr l]
          = (Ok [one_hot (length (set_iter seen)) i], self') /\
        argmax (map inject_Z (one_hot (length (set_iter seen)) i)) = Ok i /\
        convert_idx_to_label self' (IdxInt i) = Ok (Label l).
Proof.
  intros Hsingle Hy Hseen.
  destruct (build_dict_run self x_train y_train x_validate y_validate seen
              Hy Hseen)
    as [self' [Hrun [Hidx [Hinv [_ [Hml _]]]]]].
  exists self'. split; [assumption|].
  intros l Hl. apply (proj2 (set_iter_In seen l)) in Hl.
  apply In_nth_error in Hl. destruct Hl as [i Hi].
  assert (Hlt : i < length (set_iter seen))
    by (apply nth_error_Some; congruence).
  destruct (built_dicts_at (set_iter seen) i l (set_iter_NoDup seen) Hi)
    as [Hget Hback].
  assert (Hn : length (label2idx self') = length (set_iter seen)).
  { unfold label2idx. rewrite Hidx.
    rewrite index_labels_combine by apply set_iter_NoDup.
    now rewrite length_combine, length_seq, Nat.min_id. }
  exists i. split; [assumption|]. split; [|split].
  - unfold encode_targets. rewrite Hml, Hsingle.
    unfold convert_label_to_idx, lookup_label. simpl.
    unfold dict_getitem, label2idx in *. rewrite Hidx in *.
    rewrite Hget. simpl. unfold to_categorical. rewrite Hn.
    destruct (Nat.eqb_spec (length (set_iter seen)) 0); [lia|].
    simpl. apply Nat.ltb_lt in Hlt. now rewrite Hlt.
  - now apply argmax_one_hot.
  - unfold convert_idx_to_label, dict_getitem. rewrite Hinv, Hback.
    reflexivity.
Qed.

End OneHot.

(* ================================================================== *)
(** * Further properties: the binarizer between training and prediction *)
(* ================================================================== *)

Section BinarizerState.

Context {emb : BaseEmbedding} {backend : KerasBackend} {pyset : PySet}
        {pyrandom : PyRandom}.

Lemma encode_batch_fits (self self' : ClassificationModel) (is_bert : bool)
  (target_x : list (list string)) (target_y : list target) (b : batch) :
  encode_batch self is_bert target_x target_y = (Ok b, self') ->
  multi_label self = true ->
  exists b0,
    multi_label_binarizer self = Some b0 /\
    self' = with_binarizer self (Some (mlb_fit b0)).
Proof.
  unfold encode_batch.
  destruct (tokenize self target_x) as [tokenized|e]; [|discriminate].
  destruct (pad_sequences tokenized (sequence_length (embedding self)))
    as [padded|e]; [|discriminate].
  unfold encode_targets. intros E Hm. rewrite Hm in E.
  destruct (multi_label_binarizer self) as [b0|]; [|discriminate].
  unfold mlb_fit_transform in E.
  destruct (mapM (mlb_row (mlb_fit b0)) target_y); [|discriminate].
  inversion E; subst. eauto.
Qed.

(** X15.  The binarizer of a multi-label object is fitted by the batch
    generator, not by the dictionary step.  Straight after
    [build_token2id_label2id_dict] a [predict] whose network returns scores
    raises [NotFittedError]; every batch the generator yields leaves a
    fitted binarizer over the same classes, with the rest of the object
    unchanged. *)
Theorem multi_label_predict_needs_a_batch (self : ClassificationModel)
  (x_train : list (list string)) (y_train : list target)
  (x_validate : option (list (list string)))
  (y_validate : option (list target)) (seen : list string) :
  multi_label self = true ->
  (truthy x_validate = true -> y_validate <> None) ->
  observed_labels (multi_label self)
    (fit_targets y_train x_validate y_validate) = Ok seen ->
  exists self1,
    build_token2id_label2id_dict self x_train y_train x_validate y_validate
      = (Ok tt, self1) /\
    (forall sentence bs t res,
       predict_scores self1 sentence bs t = Ok res ->
       predict self1 sentence bs false t = Raise NotFittedError) /\
    (forall g g' self2 b,
       gen_next g self1 = (Yield b, g', self2) ->
       self2 = with_binarizer self1
                 (Some {| classes := set_iter seen; fitted := true |})).
Proof.
  intros Hm Hy Hseen.
  destruct (build_dict_run self x_train y_train x_validate y_validate seen
              Hy Hseen)
    as [self1 [Hrun [_ [_ [Hbin [Hml _]]]]]].
  exists self1. split; [assumption|]. split.
  - intros sentence bs t res Hres.
    rewrite predict_plain_multi by congruence.
    rewrite Hres, Hbin. reflexivity.
  - intros g g' self2 b Hstep.
    assert (Henc : exists tx ty,
              encode_batch self1 (gen_is_bert g) tx ty = (Ok b, self2)).
    { revert Hstep. unfold gen_next.
      destruct (gen_finished g); [discriminate|].
      assert (Hrun' : forall passes page rest,
                run_page g self1 passes page rest = (Yield b, g', self2) ->
                exists tx ty,
                  encode_batch self1 (gen_is_bert g) tx ty = (Ok b, self2)).
      { intros passes page rest. unfold run_page.
        destruct (select_page (gen_x_data g) (gen_y_data g)
                    (gen_batch_size g) page) as [tx ty].
        destruct (encode_batch self1 (gen_is_bert g) tx ty)
          as [[b0|e] s] eqn:E; intros E'; inversion E'; subst. eauto. }
      destruct (gen_pending g) as [|page rest]; [|apply Hrun'].
      destruct (page_list (gen_x_data g) (gen_batch_size g)) as [pages|e];
        [|discriminate].
      destruct (shuffle (gen_passes g) pages) as [|page rest];
        [discriminate | apply Hrun']. }
    destruct Henc as [tx [ty Henc]].
    destruct (encode_batch_fits _ _ _ _ _ _ Henc) as [b0 [Hb0 ->]];
      [congruence|].
    rewrite Hbin in Hb0. inversion Hb0; subst b0. reflexivity.
Qed.

End BinarizerState.

(* ================================================================== *)
(** * Further properties: construction and loading *)
(* ================================================================== *)

Section DictUpdate.

Context {K V : Type} `{Key K}.

Lemma dict_get_set_same (d : dict K V) (k : K) (v : V) :
  dict_get (dict_set d k v) k = Some v.
Proof.
  induction d as [|[k' v'] d IH]; simpl.
  - now rewrite keyb_refl.
  - destruct (keyb k' k) eqn:E; simpl; rewrite E; [reflexivity | exact IH].
Qed.

Lemma dict_get_set_other (d : dict K V) (k k' : K) (v : V) :
  k <> k' -> dict_get (dict_set d k v) k' = dict_get d k'.
Proof.
  intros Hne. induction d as [|[k0 v0] d IH]; simpl.
  - now rewrite (keyb_neq k k' Hne).
  - destruct (keyb k0 k) eqn:E; simpl.
    + apply keyb_eq in E. subst k0. now rewrite (keyb_neq k k' Hne).
    + now rewrite IH.
Qed.

End DictUpdate.

Section ConstructionFacts.

Context {emb : BaseEmbedding} {backend : KerasBackend}.

(** A nested assignment changes the entry it names and no other. *)
Lemma set_nested_get (hp hp' : hp_dict) (section key : string)
  (value : hp_value) (section' key' : string) :
  set_nested hp section key value = Ok hp' ->
  nested_get hp' section' key'
  = if andb (String.eqb section section') (String.eqb key key')
    then Some value else nested_get hp section' key'.
Proof.
  unfold set_nested, nested_get.
  destruct (dict_get hp section) as [[| | |d]|] eqn:Hsec; try discriminate.
  intros E; inversion E; subst; clear E.
  destruct (String.eqb_spec section section') as [<-|Hs]; simpl.
  - rewrite dict_get_set_same, Hsec.
    destruct (String.eqb_spec key key') as [<-|Hk].
    + apply dict_get_set_same.
    + now apply dict_get_set_other.
  - now rewrite dict_get_set_other.
Qed.

Lemma set_nested_total (hp : hp_dict) (section key : string)
  (value : hp_value) (d : list (string * hp_value)) :
  dict_get hp section = Some (HDict d) ->
  exists hp', set_nested hp section key value = Ok hp' /\
    forall section',
      (exists d', dict_get hp section' = Some (HDict d')) ->
      exists d', dict_get hp' section' = Some (HDict d').
Proof.
  intros Hsec. unfold set_nested. rewrite Hsec. eexists. split; [reflexivity|].
  intros section' [d' Hd'].
  destruct (String.eqb_spec section section') as [<-|Hs].
  - rewrite dict_get_set_same. eauto.
  - rewrite dict_get_set_other by assumption. eauto.
Qed.

(** X16.  A multi-label object made without hyper-parameters of the
    user's ([None] or an empty dictionary) gets the three multi-label
    settings: loss [binary_crossentropy], metrics [categorical_accuracy]
    and activation [sigmoid], whatever the base class had there; every
    other entry stays, nothing is logged, and the binarizer is [None].  The
    base class must provide both sections: without [compile_params] the
    constructor raises [KeyError]. *)
Theorem init_multi_label_defaults (base : ClassificationModel)
  (base_hp : hp_dict) (user : option hp_dict) :
  user = None \/ user = Some [] ->
  (forall cp al,
     dict_get base_hp "compile_params"%string = Some (HDict cp) ->
     dict_get base_hp "activation_layer"%string = Some (HDict al) ->
     exists c,
       __init__ base base_hp user true = Ok c /\
       warnings c = [] /\
       multi_label (object c) = true /\
       multi_label_binarizer (object c) = None /\
       nested_get (hyper_parameters c) "compile_params" "loss"
         = Some (HStr "binary_crossentropy") /\
       nested_get (hyper_parameters c) "compile_params" "metrics"
         = Some (HList ["categorical_accuracy"%string]) /\
       nested_get (hyper_parameters c) "activation_layer" "activation"
         = Some (HStr "sigmoid") /\
       (forall section key,
          (section, key) <> ("compile_params", "loss")%string ->
          (section, key) <> ("compile_params", "metrics")%string ->
          (section, key) <> ("activation_layer", "activation")%string ->
          nested_get (hyper_parameters c) section key
          = nested_get base_hp section key)) /\
  (dict_get base_hp "compile_params"%string = None ->
   __init__ base base_hp user true = Raise KeyError).
Proof.
  intros Huser.
  assert (Hunset : forall section key, unset user section key = Ok true)
    by (intros section key; destruct Huser as [->| ->]; reflexivity).
  split.
  - intros cp al Hcp Hal. unfold __init__. rewrite !Hunset. cbn [bind].
    destruct (set_nested_total base_hp "compile_params" "loss"
                (HStr "binary_crossentropy") cp Hcp) as [hp1 [H1 K1]].
    rewrite H1. cbn [bind fst snd].
    destruct (K1 "compile_params"%string (ex_intro _ cp Hcp)) as [cp1 Hcp1].
    destruct (set_nested_total hp1 "compile_params" "metrics"
                (HList ["categorical_accuracy"%string]) cp1 Hcp1)
      as [hp2 [H2 K2]].
    rewrite H2. cbn [bind fst snd].
    destruct (K2 "activation_layer"%string
                (K1 "activation_layer"%string (ex_intro _ al Hal)))
      as [al2 Hal2].
    destruct (set_nested_total hp2 "activation_layer" "activation"
                (HStr "sigmoid") al2 Hal2) as [hp3 [H3 _]].
    rewrite H3. cbn [bind fst snd].
    eexists. split; [reflexivity|]. cbn [warnings object hyper_parameters].
    repeat split.
    + rewrite (set_nested_get _ _ _ _ _ _ _ H3),
              (set_nested_get _ _ _ _ _ _ _ H2),
              (set_nested_get _ _ _ _ _ _ _ H1). reflexivity.
    + rewrite (set_nested_get _ _ _ _ _ _ _ H3),
              (set_nested_get _ _ _ _ _ _ _ H2). reflexivity.
    + rewrite (set_nested_get _ _ _ _ _ _ _ H3). reflexivity.
    + intros section key N1 N2 N3.
      rewrite (set_nested_get _ _ _ _ _ _ _ H3),
              (set_nested_get _ _ _ _ _ _ _ H2),
              (set_nested_get _ _ _ _ _ _ _ H1).
      destruct (String.eqb_spec "activation_layer" section) as [E1|E1];
        destruct (String.eqb_spec "activation" key) as [E2|E2];
        destruct (String.eqb_spec "compile_params" section) as [E3|E3];
        destruct (String.eqb_spec "metrics" key) as [E4|E4];
        destruct (String.eqb_spec "loss" key) as [E5|E5];
        cbn [andb]; try reflexivity; exfalso; subst; congruence.
  - intros Hcp. unfold __init__. rewrite !Hunset. cbn [bind].
    unfold set_nested. rewrite Hcp. reflexivity.
Qed.


(** X18.  [load_model] restores the multi-label flag [info] stored, and a
    multi-label agent gets a binarizer over the keys of its label index
    that is already fitted: unlike after the dictionary step of [fit], a
    [predict] whose network returns scores cannot fail with
    [NotFittedError].  An agent with an empty label index cannot be loaded
    as multi-label ([keys[0]] is an [IndexError]); without the flag the
    agent is single-label and keeps its binarizer. *)
Theorem load_model_restores_binarizer (agent : ClassificationModel)
  (model_info : dict string bool) :
  (dict_get model_info "multi_label"%string = Some true ->
   label2idx agent <> [] ->
   exists a,
     load_model agent model_info = Ok a /\
     a = with_binarizer (with_multi_label agent true)
           (Some {| classes := dict_keys (label2idx agent);
                    fitted := true |}) /\
     forall sentence bs t res,
       predict_scores a sentence bs t = Ok res ->
       predict a sentence bs false t <> Raise NotFittedError) /\
  (dict_get model_info "multi_label"%string = Some true ->
   label2idx agent = [] ->
   load_model agent model_info = Raise IndexError) /\
  (dict_get model_info "multi_label"%string <> Some true ->
   load_model agent model_info = Ok (with_multi_label agent false)) /\
  (forall self base_info stored,
     info self base_info = Ok stored ->
     exists flags,
       dict_get stored "model_info"%string = Some flags /\
       dict_get flags "multi_label"%string = Some (multi_label self)).
Proof.
  split; [|split; [|split]].
  - intros Hflag Hne. unfold load_model. rewrite Hflag.
    cbn [with_multi_label multi_label label2idx _label2idx].
    destruct (_label2idx agent) as [|[l i] d] eqn:Hd;
      [exfalso; apply Hne; exact Hd|].
    cbn [dict_keys map fst py_getitem nth_error bind].
    eexists. split; [reflexivity|]. split.
    + unfold label2idx. rewrite Hd. reflexivity.
    + intros sentence bs t res Hres.
      rewrite predict_plain_multi by reflexivity.
      rewrite Hres. cbn [bind with_binarizer multi_label_binarizer].
      unfold mlb_inverse_transform. cbn [mlb_fit fitted negb].
      destruct (negb (forallb _ res)); [discriminate|].
      destruct (negb (forallb (forallb is_zero_or_one) res));
        [discriminate|].
      cbn [bind]. unfold return_shape.
      destruct sentence; [|discriminate].
      destruct (py_getitem _ 0) as [p|e] eqn:E; [discriminate|].
      unfold py_getitem in E.
      destruct (nth_error _ 0); [discriminate|].
      inversion E. discriminate.
  - intros Hflag Hempty. unfold load_model. rewrite Hflag.
    cbn [with_multi_label multi_label label2idx _label2idx].
    unfold label2idx in Hempty. rewrite Hempty. reflexivity.
  - intros Hflag. unfold load_model.
    destruct (dict_get model_info "multi_label"%string) as [[|]|];
      [congruence | reflexivity | reflexivity].
  - intros self base_info stored. unfold info.
    destruct (dict_get base_info "model_info"%string) as [flags|];
      [|discriminate].
    intros E; inversion E; subst; clear E.
    exists (dict_set flags "multi_label"%string (multi_label self)).
    split; apply dict_get_set_same.
Qed.

End ConstructionFacts.

(* ================================================================== *)
(** * Further properties: evaluation *)
(* ================================================================== *)

Section EvaluationFacts.

Context {emb : BaseEmbedding} {backend : KerasBackend}
        {tools : EvaluationTools}.

(** For a list of inputs [predict] returns a list, one result per input. *)
Lemma predict_list_length (self : ClassificationModel)
  (ss : list (list string)) (bs : option Z) (t : Q) (r : predict_result) :
  predict self (SentenceList ss) bs false t = Ok r ->
  length (prediction_list r) = length ss.
Proof.
  intros Hp. destruct (multi_label self) eqn:Hm.
  - rewrite (predict_plain_multi _ _ _ _ Hm) in Hp.
    apply bind_Ok_inv in Hp. destruct Hp as [res [Hres Hp]].
    apply bind_Ok_inv in Hp. destruct Hp as [tuples [Htuples Hp]].
    destruct (multi_label_binarizer self) as [b|]; [|discriminate].
    apply mlb_inverse_transform_inv in Htuples.
    apply predict_scores_length in Hres.
    simpl in Hp, Hres. inversion Hp; subst. simpl.
    now rewrite !length_map.
  - rewrite (predict_plain_single _ _ _ _ Hm) in Hp.
    apply bind_Ok_inv in Hp. destruct Hp as [res [Hres Hp]].
    apply bind_Ok_inv in Hp. destruct Hp as [am [Ham Hp]].
    apply bind_Ok_inv in Hp. destruct Hp as [ls [Hls Hp]].
    apply predict_scores_length in Hres.
    apply mapM_length in Ham. apply mapM_length in Hls.
    simpl in Hp, Hres. inversion Hp; subst. simpl.
    rewrite length_map. congruence.
Qed.

(** The loop over indices that all three arrays have. *)
Lemma log_samples_run (x_data : list (list string)) (y_data : list target)
  (y_pred : list prediction) (indices : list nat) :
  (forall i, In i indices ->
     i < length x_data /\ i < length y_data /\ i < length y_pred) ->
  forall log,
    log_samples x_data y_data y_pred indices log
    = (log ++ concat (map (sample_lines x_data y_data y_pred) indices),
       Ok tt).
Proof.
  induction indices as [|i indices IH]; intros Hall log; simpl.
  - now rewrite app_nil_r.
  - destruct (Hall i (or_introl eq_refl)) as [Hx [Hy Hp]].
    unfold py_getitem, sample_lines at 1.
    apply nth_error_Some in Hx, Hy, Hp.
    destruct (nth_error x_data i) as [x|]; [|congruence].
    destruct (nth_error y_data i) as [y|]; [|congruence].
    destruct (nth_error y_pred i) as [p|]; [|congruence].
    rewrite IH by (intros j Hj; apply Hall; now right).
    rewrite <- !app_assoc. reflexivity.
Qed.

(** X19.  [evaluate] passes an exception of [predict] on before anything
    is printed.  With [debug_info] it needs at least five inputs: on fewer,
    [random.sample] raises [ValueError] after the report has been printed.
    On five or more inputs with as many targets it logs five different
    samples, four lines each, every line taken at the index of its sample,
    and returns. *)
Theorem evaluate_debug_needs_five_inputs (self : ClassificationModel)
  (x_data : list (list string)) (y_data : list target)
  (bs : option Z) (digits : nat) :
  (forall e debug_info,
     predict self (SentenceList x_data) bs false (6 # 10)%Q = Raise e ->
     evaluate self x_data y_data bs digits debug_info
     = {| printed := []; debug_lines := []; returned := Raise e |}) /\
  (forall r report,
     predict self (SentenceList x_data) bs false (6 # 10)%Q = Ok r ->
     classification_report y_data (prediction_list r) digits = Ok report ->
     evaluate self x_data y_data bs digits false
     = {| printed := [report]; debug_lines := []; returned := Ok tt |} /\
     (length x_data < 5 ->
      evaluate self x_data y_data bs digits true
      = {| printed := [report]; debug_lines := [];
           returned := Raise ValueError |}) /\
     (5 <= length x_data -> length y_data = length x_data ->
      exists indices,
        length indices = 5 /\ NoDup indices /\
        (forall i, In i indices -> i < length x_data) /\
        evaluate self x_data y_data bs digits true
        = {| printed := [report];
             debug_lines :=
               concat (map (sample_lines x_data y_data (prediction_list r))
                           indices);
             returned := Ok tt |} /\
        length (debug_lines
                  (evaluate self x_data y_data bs digits true)) = 20)).
Proof.
  split.
  - intros e debug_info Hp. unfold evaluate. now rewrite Hp.
  - intros r report Hp Hrep. unfold evaluate. rewrite Hp, Hrep.
    split; [reflexivity|]. split.
    + intros Hlt. unfold py_random_sample. rewrite length_seq.
      apply Nat.ltb_lt in Hlt. now rewrite Hlt.
    + intros Hge Hlen. unfold py_random_sample. rewrite length_seq.
      destruct (Nat.ltb_spec (length x_data) 5) as [?|_]; [lia|].
      destruct (@random_sample_spec tools (seq 0 (length x_data)) 5)
        as [Hfive [Hincl Hnd]]; [now rewrite length_seq|].
      set (indices := random_sample (seq 0 (length x_data)) 5) in *.
      assert (Hin : forall i, In i indices -> i < length x_data).
      { intros i Hi. apply Hincl in Hi. apply in_seq in Hi. lia. }
      pose proof (predict_list_length _ _ _ _ _ Hp) as Hpl.
      assert (Hrun := log_samples_run x_data y_data (prediction_list r)
                        indices).
      rewrite Hrun by (intros i Hi; apply Hin in Hi; lia).
      exists indices. split; [assumption|].
      split; [apply Hnd, seq_NoDup|]. split; [assumption|].
      split; [reflexivity|]. cbn [debug_lines app].
      assert (Hfour : forall i, In i indices ->
                length (sample_lines x_data y_data (prediction_list r) i)
                = 4).
      { intros i Hi. apply Hin in Hi. unfold sample_lines.
        assert (Hx : i < length x_data) by lia.
        assert (Hy : i < length y_data) by lia.
        assert (Hq : i < length (prediction_list r)) by lia.
        apply nth_error_Some in Hx, Hy, Hq.
        destruct (nth_error x_data i); [|congruence].
        destruct (nth_error y_data i); [|congruence].
        destruct (nth_error (prediction_list r) i); [|congruence].
        reflexivity. }
      assert (Hall : length (concat (map (sample_lines x_data y_data
                                            (prediction_list r)) indices))
                     = 4 * length indices).
      { clear - Hfour.
        induction indices as [|i indices IH]; [reflexivity|].
        cbn [map concat]. rewrite length_app, Hfour by now left.
        rewrite IH by (intros j Hj; apply Hfour; now right).
        simpl. lia. }
      rewrite Hall, Hfive. reflexivity.
Qed.

End EvaluationFacts.

(* ================================================================== *)
(** * Further properties: the data set of the CNN script *)
(* ================================================================== *)

Section LoaderMore.

Context {tools : TextTools}.

Lemma combine_app_same {A B} (a a' : list A) (b b' : list B) :
  length a = length b ->
  combine (a ++ a') (b ++ b') = combine a b ++ combine a' b'.
Proof.
  revert b. induction a as [|x a IH]; intros [|y b] Hlen; simpl in *;
    try discriminate; [reflexivity|].
  f_equal. apply IH. lia.
Qed.

Lemma combine_constant {A B C} (f : A -> B) (z : C) (l : list A)
  (l' : list B) :
  length l = length l' ->
  combine (map f l) (map (fun _ => z) l') = map (fun a => (f a, z)) l.
Proof.
  revert l'. induction l as [|a l IH]; intros [|b l'] Hlen; simpl in *;
    try discriminate; [reflexivity|].
  f_equal. apply IH. lia.
Qed.

Lemma nth_error_combine {A B} (a : list A) (b : list B) (i : nat)
  (x : A) (y : B) :
  nth_error a i = Some x -> nth_error b i = Some y ->
  nth_error (combine a b) i = Some (x, y).
Proof.
  revert a b. induction i as [|i IH]; intros [|x' a] [|y' b]; simpl;
    try discriminate.
  - intros E1 E2. inversion E1; inversion E2; reflexivity.
  - apply IH.
Qed.

Lemma nth_error_constant {A} (z : Z) (l : list A) (i : nat) :
  i < length l -> nth_error (map (fun _ => z) l) i = Some z.
Proof.
  intros Hi. rewrite nth_error_map.
  destruct (nth_error l i) eqn:E; [reflexivity|].
  apply nth_error_None in E. lia.
Qed.

(** X20.  The labels of [load_data_and_label] follow the negative file
    alone.  With equally many lines in both files every positive text is
    paired with 1 and every negative text with 0.  When the positive file
    has more lines, the positive texts from position [len(negative)] on
    stand against the label 0; when it has fewer, the first negative texts
    stand against the label 1. *)
Theorem load_data_labels_follow_negative_file
  (pos_lines neg_lines : list string) :
  let x_text := fst (load_data_and_label pos_lines neg_lines) in
  let y := snd (load_data_and_label pos_lines neg_lines) in
  (length pos_lines = length neg_lines ->
   combine x_text y
   = map (fun line => (segment_line line, 1%Z)) pos_lines
     ++ map (fun line => (segment_line line, 0%Z)) neg_lines) /\
  (forall i line,
     length neg_lines <= i -> i < 2 * length neg_lines ->
     nth_error pos_lines i = Some line ->
     nth_error (combine x_text y) i = Some (segment_line line, 0%Z)) /\
  (forall j line,
     length pos_lines + j < length neg_lines ->
     nth_error neg_lines j = Some line ->
     nth_error (combine x_text y) (length pos_lines + j)
     = Some (segment_line line, 1%Z)).
Proof.
  unfold load_data_and_label. cbn [fst snd]. split; [|split].
  - intros Hlen.
    rewrite combine_app_same by (rewrite !length_map; assumption).
    rewrite combine_constant by (rewrite length_map; assumption).
    rewrite combine_constant by (now rewrite length_map).
    reflexivity.
  - intros i line Hge Hlt Hnth. apply nth_error_combine.
    + rewrite nth_error_app1
        by (rewrite length_map; apply nth_error_Some; congruence).
      now rewrite nth_error_map, Hnth.
    + rewrite nth_error_app2 by (rewrite !length_map; assumption).
      apply nth_error_constant. rewrite !length_map. lia.
  - intros j line Hlt Hnth. apply nth_error_combine.
    + rewrite nth_error_app2 by (rewrite length_map; lia).
      rewrite length_map.
      replace (length pos_lines + j - length pos_lines) with j by lia.
      now rewrite nth_error_map, Hnth.
    + rewrite nth_error_app1 by (rewrite !length_map; lia).
      apply nth_error_constant. rewrite length_map. lia.
Qed.

End LoaderMore.

Section DatasetFacts.

Context {tools : TextTools} {tokenizer : KerasTokenizer}
        {nprandom : NumpyRandom} {selection : ModelSelection}.

Lemma split_from_length (cur text : string) :
  1 <= length (split_from cur text).
Proof.
  revert cur. induction text as [|c text IH]; intros cur; simpl; [lia|].
  destruct (Ascii.eqb c " "%char); simpl; [lia | apply IH].
Qed.

Lemma py_max_defined (l : list nat) :
  l <> [] -> (forall n, In n l -> 1 <= n) ->
  py_max l = Ok (list_max l) /\ 1 <= list_max l.
Proof.
  destruct l as [|a l]; [contradiction|]. intros _ Hall.
  split; [reflexivity|].
  pose proof (Hall a (or_introl eq_refl)). simpl. lia.
Qed.

Lemma pad_row_pre_width (maxlen : nat) (s row : list Z) :
  pad_row_pre maxlen s = Ok row -> length row = maxlen.
Proof.
  unfold pad_row_pre. destruct s as [|t s].
  - intros E; inversion E. apply repeat_length.
  - set (trunc := py_slice (t :: s) (- Z.of_nat maxlen)
                    (Z.of_nat (length (t :: s)))).
    destruct (Nat.leb_spec (length trunc) maxlen) as [Hle|Hgt].
    + intros E; inversion E. rewrite length_app, repeat_length. lia.
    + destruct (length trunc =? 1); intros E; inversion E.
      apply repeat_length.
Qed.

Lemma pad_row_pre_total (maxlen : nat) (s : list Z) :
  0 < maxlen -> exists row, pad_row_pre maxlen s = Ok row.
Proof.
  intros Hm. unfold pad_row_pre. destruct s as [|t s]; [eauto|].
  set (trunc := py_slice (t :: s) (- Z.of_nat maxlen)
                  (Z.of_nat (length (t :: s)))).
  assert (Hlen : length trunc <= maxlen).
  { unfold trunc. rewrite py_slice_length. unfold py_clamp.
    destruct (Z.ltb_spec (- Z.of_nat maxlen) 0);
      destruct (Z.ltb_spec (Z.of_nat (length (t :: s))) 0); lia. }
  apply Nat.leb_le in Hlen. rewrite Hlen. eauto.
Qed.

Lemma pad_sequences_pre_shape (seqs padded : list (list Z)) (maxlen : nat) :
  pad_sequences_pre seqs maxlen = Ok padded ->
  length padded = length seqs /\
  Forall (fun row => length row = maxlen) padded.
Proof.
  unfold pad_sequences_pre. intros E. split; [now apply mapM_length in E|].
  apply Forall_forall. intros row Hin.
  destruct (mapM_In _ _ _ _ E Hin) as [s [_ Hs]].
  now apply pad_row_pre_width in Hs.
Qed.

Lemma take_total {A} (a : list A) (indices : list nat) :
  (forall i, In i indices -> i < length a) ->
  exists rows, take a indices = Ok rows.
Proof.
  intros Hall. apply mapM_total. intros i Hi. unfold py_getitem.
  destruct (nth_error a i) eqn:E; [eauto|].
  apply nth_error_None in E. apply Hall in Hi. lia.
Qed.

Lemma take_out_of_range {A} (a : list A) (indices : list nat) (i : nat) :
  In i indices -> length a <= i -> take a indices = Raise IndexError.
Proof.
  intros Hin Hge. apply mapM_Raise.
  - intros j _. unfold py_getitem. destruct (nth_error a j); eauto.
  - exists i. split; [assumption|]. unfold py_getitem.
    apply nth_error_None in Hge. now rewrite Hge.
Qed.

(** The steps of [construct_dataset] up to the padded array, over texts
    that are not all missing. *)
Lemma dataset_padded (pos_lines neg_lines : list string) :
  pos_lines ++ neg_lines <> [] ->
  let x_text := fst (load_data_and_label pos_lines neg_lines) in
  let widths := map (fun text => length (py_split_space text)) x_text in
  exists x,
    py_max widths = Ok (list_max widths) /\
    1 <= list_max widths /\
    pad_sequences_pre (texts_to_sequences x_text x_text) (list_max widths)
      = Ok x /\
    length x = length pos_lines + length neg_lines /\
    Forall (fun row => length row = list_max widths) x.
Proof.
  intros Hne. unfold load_data_and_label. cbn [fst].
  set (x_text := map segment_line pos_lines ++ map segment_line neg_lines).
  set (widths := map (fun text => length (py_split_space text)) x_text).
  assert (Hx : length x_text = length pos_lines + length neg_lines)
    by (unfold x_text; now rewrite length_app, !length_map).
  destruct (py_max_defined widths) as [Hmax Hpos].
  { intros E. apply (f_equal (@length nat)) in E.
    unfold widths in E. rewrite length_map, Hx in E. simpl in E.
    apply Hne. destruct pos_lines, neg_lines; simpl in *; try lia.
    reflexivity. }
  { intros n Hn. unfold widths in Hn. apply in_map_iff in Hn.
    destruct Hn as [text [<- _]]. apply split_from_length. }
  destruct (mapM_total (pad_row_pre (list_max widths))
              (texts_to_sequences x_text x_text)) as [x Hpad].
  { intros s _. apply pad_row_pre_total. lia. }
  exists x. split; [assumption|]. split; [assumption|].
  split; [assumption|].
  destruct (pad_sequences_pre_shape _ _ _ Hpad) as [Hlen Hw].
  split; [|assumption].
  now rewrite Hlen, texts_to_sequences_length.
Qed.

(** X21.  [construct_dataset] needs two files with equally many lines.  The
    labels are twice as many as the negative lines, so with more negative
    than positive lines the shuffled index array reaches past the padded
    texts and [x[shuffle_indices]] raises [IndexError]; with fewer,
    [train_test_split] refuses the arrays of different lengths with
    [ValueError].  Two empty files fail at once: [max] of no lengths is a
    [ValueError]. *)
Theorem construct_dataset_needs_equal_line_counts
  (pos_lines neg_lines : list string) :
  (length pos_lines < length neg_lines ->
   construct_dataset pos_lines neg_lines = Raise IndexError) /\
  (length neg_lines < length pos_lines ->
   construct_dataset pos_lines neg_lines = Raise ValueError) /\
  (pos_lines = [] -> neg_lines = [] ->
   construct_dataset pos_lines neg_lines = Raise ValueError).
Proof.
  assert (Hy : length (snd (load_data_and_label pos_lines neg_lines))
               = 2 * length neg_lines).
  { unfold load_data_and_label. cbn [snd].
    rewrite length_app, !length_map. lia. }
  split; [|split].
  - intros Hlt.
    destruct (dataset_padded pos_lines neg_lines)
      as [x [Hmax [_ [Hpad [Hlen _]]]]].
    { destruct neg_lines; [simpl in Hlt; lia|].
      intros E. apply app_eq_nil in E. destruct E; discriminate. }
    unfold construct_dataset.
    destruct (load_data_and_label pos_lines neg_lines) as [x_text y].
    cbn [fst snd] in *. rewrite Hmax. cbn [bind]. rewrite Hpad. cbn [bind].
    rewrite (take_out_of_range x _ (2 * length neg_lines - 1));
      [reflexivity | | lia].
    eapply Permutation_in; [apply permutation_perm|].
    rewrite Hy. apply in_seq. lia.
  - intros Hlt.
    destruct (dataset_padded pos_lines neg_lines)
      as [x [Hmax [_ [Hpad [Hlen _]]]]].
    { destruct pos_lines; [simpl in Hlt; lia|]. discriminate. }
    unfold construct_dataset.
    destruct (load_data_and_label pos_lines neg_lines) as [x_text y].
    cbn [fst snd] in *. rewrite Hmax. cbn [bind]. rewrite Hpad. cbn [bind].
    assert (Hin : forall i, In i (permutation (seq 0 (length y))) ->
              i < length y).
    { intros i Hi.
      eapply Permutation_in in Hi;
        [|apply Permutation_sym, permutation_perm].
      apply in_seq in Hi. lia. }
    destruct (take_total x (permutation (seq 0 (length y)))) as [xs Hxs].
    { intros i Hi. apply Hin in Hi. lia. }
    destruct (take_total y (permutation (seq 0 (length y)))) as [ys Hys];
      [assumption|].
    rewrite Hxs. cbn [bind]. rewrite Hys. cbn [bind].
    rewrite split_checks_lengths by lia. reflexivity.
  - intros -> ->. reflexivity.
Qed.

(** The steps a returning [construct_dataset] has gone through. *)
Lemma construct_dataset_inv (pos_lines neg_lines : list string)
  (x_train : list (list Z)) (y_train : list Z) (x_dev : list (list Z))
  (y_dev : list Z) (word_index : dict string nat) :
  construct_dataset pos_lines neg_lines
  = Ok (x_train, y_train, x_dev, y_dev, word_index) ->
  let x_text := fst (load_data_and_label pos_lines neg_lines) in
  let y := snd (load_data_and_label pos_lines neg_lines) in
  let widths := map (fun text => length (py_split_space text)) x_text in
  exists x,
    pad_sequences_pre (texts_to_sequences x_text x_text) (list_max widths)
      = Ok x /\
    train_test_split x y = Ok (x_train, x_dev, y_train, y_dev) /\
    (exists row v, nth_error x_train 1 = Some row /\
                   nth_error row 1 = Some v) /\
    word_index = word_index_of x_text.
Proof.
  unfold construct_dataset.
  destruct (load_data_and_label pos_lines neg_lines) as [x_text y].
  cbn [fst snd]. intros E.
  apply bind_Ok_inv in E. destruct E as [m [Hmax E]].
  assert (Hm : m = list_max
                     (map (fun text => length (py_split_space text)) x_text)).
  { unfold py_max in Hmax.
    destruct (map (fun text => length (py_split_space text)) x_text);
      [discriminate | now inversion Hmax]. }
  subst m.
  apply bind_Ok_inv in E. destruct E as [x [Hpad E]].
  apply bind_Ok_inv in E. destruct E as [xs [_ E]].
  apply bind_Ok_inv in E. destruct E as [ys [_ E]].
  apply bind_Ok_inv in E. destruct E as [[[[xt xd] yt] yd] [Hsplit E]].
  apply bind_Ok_inv in E. destruct E as [row [Hrow E]].
  apply bind_Ok_inv in E. destruct E as [v [Hv E]].
  apply bind_Ok_inv in E. destruct E as [v' [_ E]].
  inversion E; subst; clear E.
  exists x. split; [assumption|]. split; [assumption|].
  split; [|reflexivity].
  unfold py_getitem in Hrow, Hv.
  destruct (nth_error x_train 1) as [row'|] eqn:Hr; [|discriminate].
  inversion Hrow; subst row'.
  destruct (nth_error row 1) as [v0|] eqn:Hv0; [|discriminate].
  eauto.
Qed.

(** X22.  What [construct_dataset] returns, when it returns: the two files
    had equally many lines, every row of the training and the development
    inputs is as wide as the longest text has pieces between spaces, every
    label is 0 or 1, and the word index is the tokenizer's.  It looks at
    [x_train[1][1]] before it returns, so over texts that are single words
    it never returns. *)
Theorem construct_dataset_result (pos_lines neg_lines : list string) :
  let x_text := fst (load_data_and_label pos_lines neg_lines) in
  let widths := map (fun text => length (py_split_space text)) x_text in
  (forall x_train y_train x_dev y_dev word_index,
     construct_dataset pos_lines neg_lines
     = Ok (x_train, y_train, x_dev, y_dev, word_index) ->
     length pos_lines = length neg_lines /\
     2 <= list_max widths /\
     2 <= length x_train /\
     Forall (fun row => length row = list_max widths) (x_train ++ x_dev) /\
     Forall (fun label => label = 0%Z \/ label = 1%Z) (y_train ++ y_dev) /\
     word_index = word_index_of x_text) /\
  (Forall (fun text => length (py_split_space text) < 2) x_text ->
   forall dataset, construct_dataset pos_lines neg_lines <> Ok dataset).
Proof.
  intros x_text widths.
  assert (Hret : forall x_train y_train x_dev y_dev word_index,
            construct_dataset pos_lines neg_lines
            = Ok (x_train, y_train, x_dev, y_dev, word_index) ->
            length pos_lines = length neg_lines /\
            2 <= list_max widths /\
            2 <= length x_train /\
            Forall (fun row => length row = list_max widths)
                   (x_train ++ x_dev) /\
            Forall (fun label => label = 0%Z \/ label = 1%Z)
                   (y_train ++ y_dev) /\
            word_index = word_index_of x_text).
  { intros x_train y_train x_dev y_dev word_index Hc.
    destruct (construct_dataset_inv _ _ _ _ _ _ _ Hc)
      as [x [Hpad [Hsplit [[row [v [Hrow Hv]]] Hwi]]]].
    fold x_text in Hpad, Hsplit, Hwi. fold widths in Hpad.
    destruct (pad_sequences_pre_shape _ _ _ Hpad) as [Hlen Hw].
    rewrite texts_to_sequences_length in Hlen.
    assert (Hxt : length x_text = length pos_lines + length neg_lines).
    { unfold x_text, load_data_and_label. cbn [fst].
      now rewrite length_app, !length_map. }
    set (y := snd (load_data_and_label pos_lines neg_lines)) in *.
    assert (Hy : length y = 2 * length neg_lines).
    { unfold y, load_data_and_label. cbn [snd].
      rewrite length_app, !length_map. lia. }
    assert (Hlabels : forall label, In label y ->
              label = 0%Z \/ label = 1%Z).
    { intros label. unfold y, load_data_and_label. cbn [snd].
      intros Hin. apply in_app_or in Hin.
      destruct Hin as [Hin|Hin]; apply in_map_iff in Hin;
        destruct Hin as [a [<- _]]; auto. }
    destruct (@split_rows _ _ _ _ _ _ _ Hsplit) as [Ixt [Ixd [Iyt Iyd]]].
    rewrite Forall_forall in Hw.
    split.
    { destruct (Nat.eq_dec (length x) (length y)) as [E|N]; [lia|].
      rewrite (@split_checks_lengths _ _ _ N) in Hsplit. discriminate. }
    split.
    { assert (Hin : In row x)
        by (apply Ixt; eapply nth_error_In; exact Hrow).
      rewrite <- (Hw row Hin).
      assert (1 < length row) by (apply nth_error_Some; congruence). lia. }
    split.
    { assert (1 < length x_train) by (apply nth_error_Some; congruence).
      lia. }
    split.
    { apply Forall_forall. intros r Hr. apply Hw.
      apply in_app_or in Hr. destruct Hr; auto. }
    split; [|assumption].
    apply Forall_forall. intros label Hl. apply Hlabels.
    apply in_app_or in Hl. destruct Hl; auto. }
  split; [assumption|].
  intros Hsingle [[[[x_train y_train] x_dev] y_dev] word_index] Hc.
  destruct (Hret _ _ _ _ _ Hc) as [_ [Htwo _]].
  assert (Hle : list_max widths <= 1).
  { apply list_max_le. unfold widths. apply Forall_forall.
    intros n Hn. apply in_map_iff in Hn. destruct Hn as [text [<- Ht]].
    rewrite Forall_forall in Hsingle. apply Hsingle in Ht. lia. }
  lia.
Qed.

End DatasetFacts.

(* ================================================================== *)
(** * Further properties: the embedding matrix of the CNN script *)
(* ================================================================== *)

Section EmbeddingMatrix.

Lemma nth_error_update {A} (m : list A) (i j : nat) (v : A) :
  i < length m ->
  nth_error (firstn i m ++ v :: skipn (S i) m) j
  = if j =? i then Some v else nth_error m j.
Proof.
  revert m j. induction i as [|i IH]; intros [|a m] j Hi; simpl in Hi;
    try lia.
  - destruct j; reflexivity.
  - destruct j as [|j]; [reflexivity|].
    cbn [firstn skipn app nth_error]. rewrite IH by lia. reflexivity.
Qed.

Lemma length_update {A} (m : list A) (i : nat) (v : A) :
  i < length m -> length (firstn i m ++ v :: skipn (S i) m) = length m.
Proof.
  intros Hi. rewrite length_app, length_firstn. cbn [length].
  rewrite length_skipn. lia.
Qed.

(** The loop over a word index with distinct ids inside the matrix and
    vectors as wide as the rows: the row of an id holds the vector of the
    id's word if there is one, every other row is left alone. *)
Lemma fill_rows_spec (embeddings_index : dict string (list Q)) (dim : nat)
  (items : list (string * nat)) :
  forall matrix,
  NoDup (map snd items) ->
  (forall w i, In (w, i) items -> i < length matrix) ->
  (forall w i v, In (w, i) items ->
     dict_get embeddings_index w = Some v -> length v = dim) ->
  exists matrix',
    fill_rows embeddings_index dim items matrix = Ok matrix' /\
    length matrix' = length matrix /\
    (forall w i, In (w, i) items ->
       nth_error matrix' i
       = match dict_get embeddings_index w with
         | Some v => Some v
         | None => nth_error matrix i
         end) /\
    (forall j, ~ In j (map snd items) ->
       nth_error matrix' j = nth_error matrix j).
Proof.
  induction items as [|[w0 i0] items IH]; intros matrix ND Hbound Hwidth.
  - exists matrix. simpl. repeat split; auto. contradiction.
  - cbn [map snd] in ND. inversion ND as [|? ? Hfresh ND']; subst.
    assert (Hi0 : i0 < length matrix) by (apply (Hbound w0); now left).
    cbn [fill_rows].
    destruct (dict_get embeddings_index w0) as [v0|] eqn:Hv0.
    + assert (Hw0 : length v0 = dim)
        by (apply (Hwidth w0 i0); [now left | assumption]).
      unfold set_row.
      destruct (Nat.leb_spec (length matrix) i0) as [?|_]; [lia|].
      apply Nat.eqb_eq in Hw0. rewrite Hw0. cbn [bind].
      set (m1 := firstn i0 matrix ++ v0 :: skipn (S i0) matrix).
      assert (Hlen1 : length m1 = length matrix)
        by now apply length_update.
      destruct (IH m1 ND') as [matrix' [Hrun [Hlen [Hids Hrest]]]].
      { intros w i Hin. rewrite Hlen1. apply (Hbound w). now right. }
      { intros w i v Hin. apply (Hwidth w i). now right. }
      exists matrix'. split; [assumption|]. split; [congruence|]. split.
      * intros w i [E|Hin].
        -- inversion E; subst w i. rewrite Hv0, (Hrest i0 Hfresh).
           unfold m1. rewrite nth_error_update by assumption.
           now rewrite Nat.eqb_refl.
        -- rewrite (Hids w i Hin).
           destruct (dict_get embeddings_index w); [reflexivity|].
           unfold m1. rewrite nth_error_update by assumption.
           destruct (Nat.eqb_spec i i0) as [->|]; [|reflexivity].
           exfalso. apply Hfresh. apply in_map_iff.
           exists (w, i0). auto.
      * intros j Hj. rewrite Hrest by (intros Hin; apply Hj; now right).
        unfold m1. rewrite nth_error_update by assumption.
        destruct (Nat.eqb_spec j i0) as [->|]; [|reflexivity].
        exfalso. apply Hj. now left.
    + destruct (IH matrix ND') as [matrix' [Hrun [Hlen [Hids Hrest]]]].
      { intros w i Hin. apply (Hbound w). now right. }
      { intros w i v Hin. apply (Hwidth w i). now right. }
      exists matrix'. split; [assumption|]. split; [assumption|]. split.
      * intros w i [E|Hin].
        -- inversion E; subst w i. rewrite Hv0. now apply Hrest.
        -- now apply Hids.
      * intros j Hj. apply Hrest. intros Hin. apply Hj. now right.
Qed.

(** A word with a vector and an id past the last row stops the loop. *)
Lemma fill_rows_index_error (embeddings_index : dict string (list Q))
  (dim : nat) (items : list (string * nat)) :
  forall matrix,
  (forall w i v, In (w, i) items ->
     dict_get embeddings_index w = Some v -> length v = dim) ->
  (exists w i v, In (w, i) items /\ length matrix <= i /\
                 dict_get embeddings_index w = Some v) ->
  fill_rows embeddings_index dim items matrix = Raise IndexError.
Proof.
  induction items as [|[w0 i0] items IH];
    intros matrix Hwidth [w [i [v [Hin [Hge Hv]]]]]; [contradiction|].
  cbn [fill_rows].
  destruct (dict_get embeddings_index w0) as [v0|] eqn:Hv0.
  - unfold set_row.
    destruct (Nat.leb_spec (length matrix) i0) as [?|Hlt]; [reflexivity|].
    assert (Hw0 : length v0 = dim)
      by (apply (Hwidth w0 i0); [now left | assumption]).
    apply Nat.eqb_eq in Hw0. rewrite Hw0. cbn [bind].
    apply IH.
    + intros w' i' v' Hin'. apply (Hwidth w' i'). now right.
    + exists w, i, v. rewrite length_update by assumption.
      destruct Hin as [E|Hin]; [inversion E; subst; lia | auto].
  - apply IH.
    + intros w' i' v' Hin'. apply (Hwidth w' i'). now right.
    + exists w, i, v.
      destruct Hin as [E|Hin]; [inversion E; subst; congruence | auto].
Qed.

(** X23.  The matrix [word_embedding] hands to the layer.  For a word
    index with distinct ids up to its size, as the tokenizer makes it, and
    vectors of the embedding dimension, the matrix has one row more than
    there are words, every row is as wide as the dimension, the row of a
    word's id is the word's vector, or zero when the word has none, and
    the rows no id names (row 0) are zero; the layer is not trainable.  When
    every vector has the embedding dimension, a word with a vector whose
    id lies past the last row makes the call raise [IndexError]. *)
Theorem word_embedding_rows (Max_Sequence_Length embedding_dim : nat)
  (word_index : dict string nat) (embeddings_index : dict string (list Q)) :
  (forall w i v, In (w, i) word_index ->
     dict_get embeddings_index w = Some v -> length v = embedding_dim) ->
  (NoDup (map snd word_index) ->
   (forall w i, In (w, i) word_index -> i <= length word_index) ->
   exists layer,
     word_embedding Max_Sequence_Length embedding_dim word_index
       embeddings_index = Ok layer /\
     input_dim layer = length word_index + 1 /\
     output_dim layer = embedding_dim /\
     input_length layer = Max_Sequence_Length /\
     trainable layer = false /\
     length (embedding_matrix layer) = length word_index + 1 /\
     Forall (fun row => length row = embedding_dim)
            (embedding_matrix layer) /\
     (forall w i, In (w, i) word_index ->
        nth_error (embedding_matrix layer) i
        = Some (match dict_get embeddings_index w with
                | Some v => v
                | None => repeat 0%Q embedding_dim
                end)) /\
     (forall j, j <= length word_index -> ~ In j (map snd word_index) ->
        nth_error (embedding_matrix layer) j
        = Some (repeat 0%Q embedding_dim))) /\
  ((exists w i v, In (w, i) word_index /\ length word_index < i /\
                  dict_get embeddings_index w = Some v) ->
   word_embedding Max_Sequence_Length embedding_dim word_index
     embeddings_index = Raise IndexError).
Proof.
  intros Hwidth.
  set (zero_matrix :=
         repeat (repeat 0%Q embedding_dim) (length word_index + 1)).
  assert (Hz : length zero_matrix = length word_index + 1)
    by apply repeat_length.
  assert (Hzrow : forall j, j <= length word_index ->
            nth_error zero_matrix j = Some (repeat 0%Q embedding_dim)).
  { intros j Hj. apply nth_error_repeat. lia. }
  split.
  - intros ND Hbound.
    destruct (fill_rows_spec embeddings_index embedding_dim word_index
                zero_matrix ND) as [matrix [Hrun [Hlen [Hids Hrest]]]].
    { intros w i Hin. rewrite Hz. apply Hbound in Hin. lia. }
    { assumption. }
    unfold word_embedding, dict_items. fold zero_matrix. rewrite Hrun.
    cbn [bind]. eexists. split; [reflexivity|].
    cbn [input_dim output_dim input_length trainable embedding_matrix].
    assert (Hword : forall w i, In (w, i) word_index ->
              nth_error matrix i
              = Some (match dict_get embeddings_index w with
                      | Some v => v
                      | None => repeat 0%Q embedding_dim
                      end)).
    { intros w i Hin. rewrite (Hids w i Hin).
      destruct (dict_get embeddings_index w); [reflexivity|].
      apply Hzrow. now apply (Hbound w). }
    assert (Hother : forall j, j <= length word_index ->
              ~ In j (map snd word_index) ->
              nth_error matrix j = Some (repeat 0%Q embedding_dim)).
    { intros j Hj Hfree. rewrite (Hrest j Hfree). now apply Hzrow. }
    repeat split; try assumption; try congruence.
    apply Forall_forall. intros row Hrow.
    apply In_nth_error in Hrow. destruct Hrow as [j Hj].
    assert (Hjlt : j < length matrix) by (apply nth_error_Some; congruence).
    destruct (in_dec Nat.eq_dec j (map snd word_index)) as [Hin|Hfree].
    + apply in_map_iff in Hin. destruct Hin as [[w i] [E Hin]].
      simpl in E. subst i. rewrite (Hword w j Hin) in Hj.
      inversion Hj; subst row.
      destruct (dict_get embeddings_index w) as [v|] eqn:Hv.
      * now apply (Hwidth w j).
      * apply repeat_length.
    + rewrite Hother in Hj by (assumption || lia).
      inversion Hj. apply repeat_length.
  - intros [w [i [v [Hin [Hgt Hv]]]]].
    unfold word_embedding, dict_items. fold zero_matrix.
    rewrite (fill_rows_index_error embeddings_index embedding_dim
               word_index zero_matrix Hwidth); [reflexivity|].
    exists w, i, v. rewrite Hz. repeat split; try assumption. lia.
Qed.

End EmbeddingMatrix.

(* ================================================================== *)
(** * The further properties on the sample data *)
(* ================================================================== *)

Module MoreRuns.

Import Samples.
Import MoreSamples.

Open Scope string_scope.

Lemma trained_sample_encodes_sample_y : encodable trained_sample sample_y.
Proof.
  unfold encodable. simpl.
  intros t [<-|[<-|[<-|[]]]]; eexists; eexists;
    (split; [reflexivity | split; [reflexivity | simpl; lia]]).
Qed.


Lemma multi_label_strings_index_characters_witness :
  exists self',
    build_token2id_label2id_dict (untrained true) sample_x
      [TStr "ab"; TStr "b"; TStr "ca"] None None = (Ok tt, self') /\
    dict_keys (label2idx self') = ["b"; "c"; "a"].
Proof.
  destruct (multi_label_strings_index_characters (untrained true) sample_x
              [TStr "ab"; TStr "b"; TStr "ca"] None None)
    as [self' [Hrun _]].
  - reflexivity.
  - intros H. discriminate H.
  - simpl. intros t [<-|[<-|[<-|[]]]]; eauto.
  - exists self'. split; [exact Hrun|].
    vm_compute in Hrun. inversion Hrun. reflexivity.
Defined.

Lemma predict_label_of_first_maximum_witness :
  exists res,
    predict_scores trained_sample (OneSentence ["fine"]) None (6 # 10)%Q
      = Ok res /\
    length (results_of (One (PLabel "pos"))) = 1 /\
    Forall2 (fun row p =>
               exists idx q l,
                 first_maximum row idx q /\
                 dict_get (_idx2label trained_sample) idx = Some l /\
                 p = PLabel l)
            res (results_of (One (PLabel "pos"))).
Proof.
  apply (predict_label_of_first_maximum trained_sample (OneSentence ["fine"])
           None (6 # 10)%Q (One (PLabel "pos"))).
  - reflexivity.
  - reflexivity.
Defined.

Lemma format_output_dic_ranks_all_labels_witness :
  exists d,
    _format_output_dic trained_sample ["fine"]
      [(7 # 10)%Q; (4 # 10)%Q; (61 # 100)%Q] = Ok d /\
    words d = ["fine"] /\
    Sorted (fun a b => Qle (confidence b) (confidence a))
           (class_candidates d) /\
    exists idx, first_maximum [(7 # 10)%Q; (4 # 10)%Q; (61 # 100)%Q] idx
                  (confidence (class d)) /\
                dict_get (_idx2label trained_sample) idx
                = Some (name (class d)).
Proof.
  eexists. split; [reflexivity|].
  destruct (format_output_dic_ranks_all_labels trained_sample ["fine"]
              [(7 # 10)%Q; (4 # 10)%Q; (61 # 100)%Q] _ eq_refl)
    as [Hw [_ [Hs [_ Htop]]]].
  split; [exact Hw|]. split; [exact Hs | exact Htop].
Defined.

Lemma output_dict_class_is_predicted_label_witness :
  exists rd rp,
    predict trained_sample (OneSentence ["fine"]) None true (6 # 10)%Q
      = Ok rd /\
    predict trained_sample (OneSentence ["fine"]) None false (6 # 10)%Q
      = Ok rp /\
    Forall2 (fun pd pl =>
               exists d, pd = PDict d /\ pl = PLabel (name (class d)))
            (results_of rd) (results_of rp).
Proof.
  eexists. eexists. split; [reflexivity|]. split; [reflexivity|].
  apply (output_dict_class_is_predicted_label trained_sample
           (OneSentence ["fine"]) None (6 # 10)%Q).
  - reflexivity.
  - reflexivity.
  - reflexivity.
Defined.

Lemma multi_label_dict_confidences_are_binary_witness :
  exists r,
    predict trained_multi_sample (SentenceList [["fine"]]) None true
      (6 # 10)%Q = Ok r /\
    forall p, In p (results_of r) ->
      exists d, p = PDict d /\
        is_zero_or_one (confidence (class d)) = true /\
        forall c, In c (class_candidates d) ->
                  is_zero_or_one (confidence c) = true.
Proof.
  eexists. split; [reflexivity|].
  apply (multi_label_dict_confidences_are_binary trained_multi_sample
           (SentenceList [["fine"]]) None (6 # 10)%Q).
  - reflexivity.
  - reflexivity.
Defined.

Lemma threshold_above_one_decodes_nothing_witness :
  exists r,
    predict trained_multi_sample (SentenceList [["fine"]; ["bad"]]) None
      false 2%Q = Ok r /\
    forall p, In p (results_of r) -> p = PTuple [].
Proof.
  eexists. split; [reflexivity|].
  apply (proj1 (threshold_above_one_decodes_nothing trained_multi_sample
                  None 2%Q eq_refl eq_refl)
           (SentenceList [["fine"]; ["bad"]])).
  reflexivity.
Defined.

Lemma multi_hot_round_trip_witness :
  let b := {| classes := ["plot"; "cast"; "music"]; fitted := false |} in
  exists row decoded,
    mlb_fit_transform b [TSeq ["music"; "plot"]] = (Ok [row], mlb_fit b) /\
    length row = 3 /\
    mlb_inverse_transform (mlb_fit b)
      (apply_threshold (6 # 10)%Q [map inject_Z row]) = Ok [decoded] /\
    decoded = ["plot"; "music"].
Proof.
  destruct (multi_hot_round_trip
              {| classes := ["plot"; "cast"; "music"]; fitted := false |}
              ["music"; "plot"] (6 # 10)%Q)
    as [row [decoded [Hrow [Hlen [Hdec [Heq _]]]]]].
  - simpl. repeat constructor; simpl; intuition discriminate.
  - simpl. intuition.
  - reflexivity.
  - unfold Qle. simpl. lia.
  - exists row, decoded. repeat split; assumption.
Defined.

Lemma generator_pass_covers_data_witness :
  exists batches,
    gen_take 2 (get_data_generator sample_x sample_y 2 false) trained_sample
      = map Yield batches /\
    Forall2 (fun p b =>
               batch_examples b
               = length (fst (select_page sample_x sample_y 2 p)) /\
               batch_encodes trained_sample
                 (fst (select_page sample_x sample_y 2 p))
                 (snd (select_page sample_x sample_y 2 p)) b)
            (shuffle 0 (py_range 2)) batches /\
    Z.of_nat (list_sum (map batch_examples batches)) = 3%Z.
Proof.
  destruct (generator_pass_covers_data sample_x sample_y 2 false
              trained_sample)
    as [_ [_ [_ [batches [Htake [Hall Hsum]]]]]].
  - lia.
  - intros H. discriminate H.
  - reflexivity.
  - exact trained_sample_encodes_sample_y.
  - simpl. lia.
  - intros b0 H. vm_compute in H. injection H as <-. simpl.
    repeat constructor; simpl; intuition discriminate.
  - exists batches. split; [exact Htake|]. split; [exact Hall | exact Hsum].
Defined.

Lemma fit_generator_never_stops_witness :
  exists call self',
    fit sample_build_model (sample_args sample_x sample_y 2) (untrained false)
      = (Ok call, self') /\
    exists batches,
      gen_take 7 (train_generator call) self' = map Yield batches /\
      length batches = 7.
Proof.
  eexists. eexists. split; [lazy; reflexivity|].
  apply (fit_generator_never_stops sample_build_model
           (sample_args sample_x sample_y 2) (untrained false)).
  - reflexivity.
  - simpl. lia.
  - simpl. lia.
Defined.

Lemma fit_rejects_malformed_arguments_witness :
  fit sample_build_model (sample_args sample_x [TStr "pos"] 2)
    (untrained false)
  = (Raise AssertionError, untrained false).
Proof.
  apply (proj1 (fit_rejects_malformed_arguments sample_build_model
                  (sample_args sample_x [TStr "pos"] 2) (untrained false))).
  simpl. lia.
Defined.

Lemma fit_build_failure_keeps_index_witness :
  exists self',
    fit (fun _ => Raise NotImplementedError)
      (sample_args sample_x sample_y 2) (untrained false)
    = (Raise NotImplementedError, self') /\
    dict_keys (label2idx self') = ["pos"; "neg"; "neutral"] /\
    model self' = None /\
    percentile_length sample_x = Ok (sequence_length (embedding self')).
Proof.
  destruct (fit_build_failure_keeps_index (fun _ => Raise NotImplementedError)
              (sample_args sample_x sample_y 2) (untrained false)
              ["pos"; "neg"; "neutral"] NotImplementedError)
    as [self' [Hfit [Hidx [_ [Hmodel [Hlen _]]]]]].
  - reflexivity.
  - intros H. discriminate H.
  - reflexivity.
  - intros H. discriminate H.
  - reflexivity.
  - reflexivity.
  - exists self'. split; [exact Hfit|]. split.
    + rewrite Hidx. reflexivity.
    + split; [exact Hmodel|]. apply Hlen. reflexivity.
Defined.

Lemma fit_zero_batch_size_raises_witness :
  (exists self',
     fit sample_build_model (sample_args [["good"; "film"]] [TStr "pos"] 64)
       (untrained false)
     = (Raise ZeroDivisionError, self') /\
     model self' <> None) /\
  (exists self',
     fit sample_build_model (sample_args [] [] 64) (untrained false)
     = (Raise IndexError, self') /\
     model self' = None).
Proof.
  split.
  - destruct (proj1 (proj2 (fit_zero_batch_size_raises sample_build_model
                              (sample_args [["good"; "film"]] [TStr "pos"] 64)
                              (untrained false) ["pos"])))
      as [self' [Hfit [Hmodel _]]].
    + reflexivity.
    + reflexivity.
    + intros H. discriminate H.
    + reflexivity.
    + left. intros H. discriminate H.
    + left. reflexivity.
    + intros s. exists tt. reflexivity.
    + exists self'. split; [exact Hfit | exact Hmodel].
  - destruct (proj2 (proj2 (fit_zero_batch_size_raises sample_build_model
                              (sample_args [] [] 64) (untrained false) [])))
      as [_ [self' [Hfit [Hmodel _]]]].
    + reflexivity.
    + reflexivity.
    + intros H. discriminate H.
    + reflexivity.
    + reflexivity.
    + reflexivity.
    + simpl. lia.
    + exists self'. split; [exact Hfit | exact Hmodel].
Defined.

Lemma one_hot_target_round_trip_witness :
  exists self',
    build_token2id_label2id_dict (untrained false) sample_x sample_y None None
      = (Ok tt, self') /\
    exists i,
      encode_targets self' [TStr "neg"] = (Ok [one_hot 3 i], self') /\
      argmax (map inject_Z (one_hot 3 i)) = Ok i /\
      convert_idx_to_label self' (IdxInt i) = Ok (Label "neg").
Proof.
  destruct (one_hot_target_round_trip (untrained false) sample_x sample_y
              None None ["pos"; "neg"; "neutral"])
    as [self' [Hrun Hall]].
  - reflexivity.
  - intros H. discriminate H.
  - reflexivity.
  - exists self'. split; [exact Hrun|].
    destruct (Hall "neg") as [i [_ [Henc [Harg Hback]]]].
    + simpl. auto.
    + exists i. split; [exact Henc|]. split; [exact Harg | exact Hback].
Defined.

Lemma multi_label_predict_needs_a_batch_witness :
  exists self1,
    build_token2id_label2id_dict (untrained true) sample_x sample_multi_y
      None None = (Ok tt, self1) /\
    (forall sentence bs t res,
       predict_scores self1 sentence bs t = Ok res ->
       predict self1 sentence bs false t = Raise NotFittedError) /\
    (forall g g' self2 b,
       gen_next g self1 = (Yield b, g', self2) ->
       self2 = with_binarizer self1
                 (Some {| classes := set_iter ["plot"; "cast"; "music"];
                          fitted := true |})).
Proof.
  apply (multi_label_predict_needs_a_batch (untrained true) sample_x
           sample_multi_y None None ["plot"; "cast"; "music"]).
  - reflexivity.
  - intros H. discriminate H.
  - reflexivity.
Defined.

Lemma init_multi_label_defaults_witness :
  exists c,
    __init__ (untrained false) base_hyper_parameters None true = Ok c /\
    warnings c = [] /\
    nested_get (hyper_parameters c) "compile_params" "loss"
      = Some (HStr "binary_crossentropy") /\
    nested_get (hyper_parameters c) "activation_layer" "activation"
      = Some (HStr "sigmoid") /\
    nested_get (hyper_parameters c) "compile_params" "optimizer"
      = Some (HStr "adam").
Proof.
  destruct (proj1 (init_multi_label_defaults (untrained false)
                     base_hyper_parameters None (or_introl eq_refl))
              [("loss", HStr "categorical_crossentropy");
               ("optimizer", HStr "adam")]
              [("activation", HStr "softmax")] eq_refl eq_refl)
    as [c [Hc [Hw [_ [_ [Hloss [_ [Hact Hrest]]]]]]]].
  exists c. split; [exact Hc|]. split; [exact Hw|]. split; [exact Hloss|].
  split; [exact Hact|].
  rewrite Hrest; [reflexivity | | | ]; intros H; discriminate H.
Defined.


Lemma load_model_restores_binarizer_witness :
  exists a,
    load_model (with_binarizer trained_multi_sample None)
      [("multi_label", true)] = Ok a /\
    multi_label_binarizer a
    = Some {| classes := ["plot"; "cast"; "music"]; fitted := true |} /\
    predict a (SentenceList [["fine"]]) None false (6 # 10)%Q
    <> Raise NotFittedError.
Proof.
  destruct (proj1 (load_model_restores_binarizer
                     (with_binarizer trained_multi_sample None)
                     [("multi_label", true)]))
    as [a [Hload [Ha Hpredict]]].
  - reflexivity.
  - intros H. discriminate H.
  - exists a. split; [exact Hload|]. split.
    + rewrite Ha. reflexivity.
    + eapply Hpredict. rewrite Ha. reflexivity.
Defined.

Lemma evaluate_debug_needs_five_inputs_witness :
  evaluate trained_sample sample_x sample_y None 4 true
  = {| printed := ["report"]; debug_lines := [];
       returned := Raise ValueError |}.
Proof.
  destruct (proj2 (evaluate_debug_needs_five_inputs trained_sample sample_x
                     sample_y None 4)
              (Many [PLabel "pos"; PLabel "pos"; PLabel "pos"]) "report")
    as [_ [Hfew _]].
  - reflexivity.
  - reflexivity.
  - apply Hfew. simpl. lia.
Defined.

Lemma load_data_labels_follow_negative_file_witness :
  let texts := load_data_and_label ["good film"; "fine"; "great"]
                 ["bad"; "poor"] in
  nth_error (combine (fst texts) (snd texts)) 2
  = Some (segment_line "great", 0%Z).
Proof.
  destruct (load_data_labels_follow_negative_file
              ["good film"; "fine"; "great"] ["bad"; "poor"])
    as [_ [Hmore _]].
  apply Hmore.
  - simpl. lia.
  - simpl. lia.
  - reflexivity.
Defined.

Lemma construct_dataset_needs_equal_line_counts_witness :
  construct_dataset ["good"] ["bad"; "poor"] = Raise IndexError /\
  construct_dataset ["good"; "fine"] ["bad"] = Raise ValueError.
Proof.
  split.
  - apply (proj1 (construct_dataset_needs_equal_line_counts
                    ["good"] ["bad"; "poor"])).
    simpl. lia.
  - apply (proj1 (proj2 (construct_dataset_needs_equal_line_counts
                           ["good"; "fine"] ["bad"]))).
    simpl. lia.
Defined.

Lemma construct_dataset_result_witness :
  exists x_train y_train x_dev y_dev word_index,
    construct_dataset pos_lines neg_lines
    = Ok (x_train, y_train, x_dev, y_dev, word_index) /\
    length pos_lines = length neg_lines /\
    2 <= length x_train /\
    Forall (fun row => length row = 4) (x_train ++ x_dev) /\
    Forall (fun label => label = 0%Z \/ label = 1%Z) (y_train ++ y_dev).
Proof.
  eexists. eexists. eexists. eexists. eexists.
  split; [reflexivity|].
  destruct (construct_dataset_result pos_lines neg_lines) as [Hret _].
  destruct (Hret _ _ _ _ _ eq_refl) as [Hlen [_ [Htwo [Hrows [Hlabels _]]]]].
  split; [exact Hlen|]. split; [exact Htwo|].
  split; [exact Hrows | exact Hlabels].
Defined.

Lemma word_embedding_rows_witness :
  exists layer,
    word_embedding 10 2 sample_word_index sample_embeddings_index
      = Ok layer /\
    length (embedding_matrix layer) = 4 /\
    nth_error (embedding_matrix layer) 1 = Some [(1 # 2)%Q; (1 # 4)%Q] /\
    nth_error (embedding_matrix layer) 2 = Some [0%Q; 0%Q] /\
    nth_error (embedding_matrix layer) 0 = Some [0%Q; 0%Q].
Proof.
  destruct (word_embedding_rows 10 2 sample_word_index
              sample_embeddings_index) as [Hok _].
  - intros w i v [E|[E|[E|[]]]] Hv; inversion E; subst;
      vm_compute in Hv; inversion Hv; reflexivity.
  - destruct Hok as [layer [Hrun [_ [_ [_ [_ [Hlen [_ [Hword Hfree]]]]]]]]].
    + simpl. repeat constructor; simpl; intuition discriminate.
    + intros w i [E|[E|[E|[]]]]; inversion E; subst; simpl; lia.
    + exists layer. split; [exact Hrun|]. split; [exact Hlen|].
      split; [|split].
      * apply (Hword "good" 1). simpl. auto.
      * apply (Hword "bad" 2). simpl. auto.
      * apply (Hfree 0); [simpl; lia|].
        simpl. intuition discriminate.
Defined.

End MoreRuns.
